(** * AI Video Research Assistant: a shallow embedding of the pipeline helpers

    The Python modules [transcriber.py], [video_processor.py], [summarizer.py]
    and [app.py] are embedded function by function, each under the name it
    has in the source.

    - A Python [str] is an ASCII string; [lower], [strip] and [isspace] are
      the ASCII ones.
    - A Python [float] is the rational number it denotes ([Q]), with exact
      arithmetic: rounding is outside the model.  The floats that come from
      the model's answer (JSON numbers, the timestamps of the highlights)
      can also be an infinity or NaN ([Py.float]).
    - A [dict] is a [gmap], a [set] a [gset]; the file system is the set of
      the paths that exist; [pathlib.Path] is the POSIX flavour.
    - A function that can raise is a computation in the monad [Py.M]: it ends
      in [Ret v] or in [Raise e], where [e] ranges over the subclasses of
      [Exception] ([KeyboardInterrupt] and the like are not modelled).
    - Calls into third-party libraries (MoviePy, PIL, [tempfile], Whisper,
      yt-dlp, the OpenAI client, [json.loads]) are fields of an environment
      record, so every statement holds for every behaviour of those
      libraries.
    - The Run Summary handler of [main] is embedded without the Streamlit
      widgets, which only display: the results it stores, or the text of the
      error it shows, is the value it returns. *)

From Stdlib Require Import ZArith QArith Qround Qabs Ascii String DecimalString Lia.
From stdpp Require Import base gmap strings list sorting.
From Stdlib Require DecimalPos DecimalZ.

Local Open Scope Z_scope.

(** ** Python string primitives *)

Module PyStr.

Definition chr (n : nat) : ascii := ascii_of_nat n.

(** [str.lower] on one ASCII character. *)
Definition lower_char (c : ascii) : ascii :=
  let n := nat_of_ascii c in
  if (65 <=? n)%nat && (n <=? 90)%nat then ascii_of_nat (n + 32) else c.

Fixpoint lower (s : string) : string :=
  match s with
  | EmptyString => EmptyString
  | String c r => String (lower_char c) (lower r)
  end.

(** [str.isspace] on one ASCII character: TAB, LF, VT, FF, CR, the four
    separators FS, GS, RS, US, and the blank. *)
Definition is_space (c : ascii) : bool :=
  let n := nat_of_ascii c in
  ((9 <=? n)%nat && (n <=? 13)%nat) || ((28 <=? n)%nat && (n <=? 32)%nat).

Fixpoint lstrip (s : string) : string :=
  match s with
  | EmptyString => EmptyString
  | String c r => if is_space c then lstrip r else s
  end.

Fixpoint rstrip (s : string) : string :=
  match s with
  | EmptyString => EmptyString
  | String c r =>
      match rstrip r with
      | EmptyString => if is_space c then EmptyString else String c EmptyString
      | r' => String c r'
      end
  end.

(** [s.strip()] *)
Definition strip (s : string) : string := rstrip (lstrip s).

(** [s.startswith(p)] *)
Fixpoint startswith (p s : string) : bool :=
  match p, s with
  | EmptyString, _ => true
  | String a p', String b s' => if Ascii.eqb a b then startswith p' s' else false
  | String _ _, EmptyString => false
  end.

(** [p in s] for strings. *)
Fixpoint contains (p s : string) : bool :=
  if startswith p s then true
  else match s with
       | EmptyString => false
       | String _ r => contains p r
       end.

(** [s[n:]] *)
Fixpoint drop (n : nat) (s : string) : string :=
  match n, s with
  | O, _ => s
  | S k, String _ r => drop k r
  | S _, EmptyString => EmptyString
  end.

(** [s.split(sep)] for a non-empty separator: [skip] counts the characters
    of a matched separator that are still to be passed over, [cur] is the
    piece being collected. *)
Fixpoint split_go (sep : string) (skip : nat) (cur : string) (s : string)
  : list string :=
  match s with
  | EmptyString => [cur]
  | String c r =>
      match skip with
      | S k => split_go sep k cur r
      | O =>
          if startswith sep s
          then cur :: split_go sep (String.length sep - 1) EmptyString r
          else split_go sep 0 (cur +:+ String c EmptyString) r
      end
  end.

Definition split (sep s : string) : list string :=
  split_go sep 0 EmptyString s.

(** [s.rfind(".")]: the index of the last dot, if any. *)
Fixpoint rfind_dot (s : string) : option nat :=
  match s with
  | EmptyString => None
  | String c r =>
      match rfind_dot r with
      | Some i => Some (S i)
      | None => if Ascii.eqb c "."%char then Some 0%nat else None
      end
  end.

(** [sep.join(l)] *)
Fixpoint join (sep : string) (l : list string) : string :=
  match l with
  | [] => EmptyString
  | [x] => x
  | x :: r => x +:+ sep +:+ join sep r
  end.

(** [str(n)] for an integer. *)
Definition of_Z (z : Z) : string := NilZero.string_of_int (Z.to_int z).

(** [format(z, "02d")]: sign, then the digits padded with zeros to a total
    width of two. *)
Definition fmt_02d (z : Z) : string :=
  if z <? 0 then of_Z z
  else if z <? 10 then String "0"%char (of_Z z)
  else of_Z z.

(** [s.endswith(suffix)] *)
Fixpoint endswith (suffix s : string) : bool :=
  if String.eqb s suffix then true
  else match s with
       | EmptyString => false
       | String _ r => endswith suffix r
       end.

(** [s[:n]] *)
Fixpoint take (n : nat) (s : string) : string :=
  match n, s with
  | S k, String c r => String c (take k r)
  | _, _ => EmptyString
  end.

(** The class [[a-zA-Z]] and the class [\w] of the [re] module, on ASCII. *)
Definition is_letter (c : ascii) : bool :=
  let n := nat_of_ascii c in
  ((65 <=? n)%nat && (n <=? 90)%nat) || ((97 <=? n)%nat && (n <=? 122)%nat).

Definition is_word_char (c : ascii) : bool :=
  let n := nat_of_ascii c in
  is_letter c || ((48 <=? n)%nat && (n <=? 57)%nat) || (n =? 95)%nat.

Fixpoint all_letters (s : string) : bool :=
  match s with
  | EmptyString => true
  | String c r => is_letter c && all_letters r
  end.

(** The maximal runs of [\w] characters of a text, left to right; [cur] is
    the run being read. *)
Fixpoint word_runs_go (cur : string) (s : string) : list string :=
  match s with
  | EmptyString => if String.eqb cur EmptyString then [] else [cur]
  | String c r =>
      if is_word_char c then word_runs_go (cur +:+ String c EmptyString) r
      else (if String.eqb cur EmptyString then [] else [cur])
             ++ word_runs_go EmptyString r
  end.

Definition word_runs (s : string) : list string := word_runs_go EmptyString s.

End PyStr.

(** ** Python float primitives on the rational model *)

Module PyNum.

(** [a // b] on floats: the floor of the quotient. *)
Definition floordiv (a b : Q) : Q := inject_Z (Qfloor (a / b)).

(** [a % b] on floats, for a positive divisor. *)
Definition pymod (a b : Q) : Q := a - b * inject_Z (Qfloor (a / b)).

(** [int(x)]: truncation toward zero. *)
Definition int (x : Q) : Z := Z.quot (Qnum x) (Z.pos (Qden x)).

End PyNum.

(** ** transcriber.py *)

Module Transcriber.

Definition format_timestamp (seconds : Q) : string :=
  let m := PyNum.int (PyNum.floordiv seconds 60) in
  let s := PyNum.int (PyNum.pymod seconds 60) in
  PyStr.fmt_02d m +:+ ":" +:+ PyStr.fmt_02d s.

Definition hours (seconds : Q) : Z := PyNum.int (PyNum.floordiv seconds 3600).
Definition minutes (seconds : Q) : Z :=
  PyNum.int (PyNum.floordiv (PyNum.pymod seconds 3600) 60).
Definition secs (seconds : Q) : Z := PyNum.int (PyNum.pymod seconds 60).

Definition format_timestamp_long (seconds : Q) : string :=
  let h := hours seconds in
  let m := minutes seconds in
  let s := secs seconds in
  if 0 <? h
  then PyStr.fmt_02d h +:+ ":" +:+ PyStr.fmt_02d m +:+ ":" +:+ PyStr.fmt_02d s
  else PyStr.fmt_02d m +:+ ":" +:+ PyStr.fmt_02d s.

End Transcriber.

(** ** Python values, exceptions and the effect monad *)

Module Py.

(** A float that need not be finite: [json.loads] builds [inf] and [nan]
    from [Infinity], [NaN] and numbers out of range, and [float(s)] from
    the strings ["inf"] and ["nan"]. *)
Inductive float :=
| Finite (q : Q)
| Inf (negative : bool)
| NaN.

Definition is_finite (x : float) : bool :=
  match x with Finite _ => true | _ => false end.

(** [a < b] on floats: false as soon as one side is NaN. *)
Definition float_lt (a b : float) : bool :=
  match a, b with
  | NaN, _ | _, NaN => false
  | Finite x, Finite y => negb (Qle_bool y x)
  | Finite _, Inf negative => negb negative
  | Inf negative, Finite _ => negative
  | Inf negative, Inf negative' => negative && negb negative'
  end.

(** [max(a, b)] and [min(a, b)] as the builtins compute them: the first
    argument is kept unless the second is strictly better. *)
Definition float_max (a b : float) : float := if float_lt a b then b else a.
Definition float_min (a b : float) : float := if float_lt b a then b else a.

(** The values [json.loads] can build, which are also the values a
    dynamically typed argument can hold. *)
#[warnings="-register-all"]
Inductive value :=
| VNone
| VBool (b : bool)
| VInt (z : Z)
| VFloat (x : float)
| VStr (s : string)
| VList (l : list value)
| VDict (d : gmap string value).

(** Truth value of an object, as [not x] and [if x] test it. *)
Definition truthy (v : value) : bool :=
  match v with
  | VNone => false
  | VBool b => b
  | VInt z => negb (z =? 0)
  | VFloat (Finite q) => negb (Qeq_bool q 0)
  | VFloat _ => true
  | VStr s => negb (String.eqb s EmptyString)
  | VList l => match l with [] => false | _ => true end
  | VDict d => negb (bool_decide (d = ∅))
  end.

(** [isinstance(v, str)] *)
Definition is_str (v : value) : bool :=
  match v with VStr _ => true | _ => false end.

(** The subclasses of [Exception] the programs raise or meet.  [RuntimeError]
    carries its cause ([raise ... from e]); [JSONDecodeError] carries the
    message, the document and the position it was built from;
    [OtherException] is any other exception a library may raise. *)
Inductive exn :=
| ImportError (msg : string)
| ValueError (msg : string)
| FileNotFoundError (msg : string)
| RuntimeError (msg : string) (cause : exn)
| JSONDecodeError (msg doc : string) (pos : nat)
| AttributeError (msg : string)
| IndexError (msg : string)
| TypeError (msg : string)
| OtherException (cls msg : string).

(** [doc.count("\n", 0, pos)] *)
Fixpoint count_newlines (doc : string) (pos : nat) : nat :=
  match pos, doc with
  | S k, String c r =>
      (if Ascii.eqb c (PyStr.chr 10) then 1 else 0) + count_newlines r k
  | _, _ => 0
  end%nat.

(** [pos - doc.rfind("\n", 0, pos)]: the column, counted from one. *)
Fixpoint colno_go (doc : string) (pos : nat) (col : nat) : nat :=
  match pos, doc with
  | S k, String c r =>
      colno_go r k (if Ascii.eqb c (PyStr.chr 10) then 1 else S col)
  | _, _ => col
  end%nat.

(** [str(e)].  For [JSONDecodeError] this is the message its constructor
    formats: ["%s: line %d column %d (char %d)"]. *)
Definition str (e : exn) : string :=
  match e with
  | ImportError m | ValueError m | FileNotFoundError m | RuntimeError m _
  | AttributeError m | IndexError m | TypeError m | OtherException _ m => m
  | JSONDecodeError m doc pos =>
      m +:+ ": line " +:+ PyStr.of_Z (Z.of_nat (count_newlines doc pos + 1))
        +:+ " column " +:+ PyStr.of_Z (Z.of_nat (colno_go doc pos 1))
        +:+ " (char " +:+ PyStr.of_Z (Z.of_nat pos) +:+ ")"
  end.

(** The outcome of a call: a value or a raised exception. *)
Inductive res (A : Type) :=
| Ret (a : A)
| Raise (e : exn).
Arguments Ret {A} a.
Arguments Raise {A} e.

(** [int(x)] for a float: the truncation toward zero of a finite value; an
    infinity and NaN have no integer. *)
Definition int_float (x : float) : res Z :=
  match x with
  | Finite q => Ret (PyNum.int q)
  | Inf _ =>
      Raise (OtherException "OverflowError" "cannot convert float infinity to integer")
  | NaN => Raise (ValueError "cannot convert float NaN to integer")
  end.

(** A computation over a state [S] (the file system, the log of network
    calls): it ends in a value or an exception, and the state it leaves
    is kept in both cases. *)
Definition M (S A : Type) : Type := S -> res A * S.

Definition ret {S A} (a : A) : M S A := fun s => (Ret a, s).
Definition raise {S A} (e : exn) : M S A := fun s => (Raise e, s).
Definition bind {S A B} (m : M S A) (k : A -> M S B) : M S B :=
  fun s => match m s with
           | (Ret a, s') => k a s'
           | (Raise e, s') => (Raise e, s')
           end.

(** [try: body / except Exception as e: handler e] *)
Definition try_except {S A} (body : M S A) (handler : exn -> M S A) : M S A :=
  fun s => match body s with
           | (Ret a, s') => (Ret a, s')
           | (Raise e, s') => handler e s'
           end.

Definition modify {S} (f : S -> S) : M S unit := fun s => (Ret tt, f s).

(** Lifting the outcome of a library call that leaves the state alone. *)
Definition lift {S A} (r : res A) : M S A := fun s => (r, s).

End Py.

Import Py.

Declare Scope py_scope.
Delimit Scope py_scope with py.
Notation "x <- m ;; k" := (Py.bind m (fun x => k))
(at level 100, m at next level, right associativity) : py_scope.
Notation "m ;;; k" := (Py.bind m (fun _ => k))
(at level 100, right associativity) : py_scope.

Local Open Scope py_scope.

(** ** video_processor.py *)

Module VideoProcessor.

(** The pixels of one decoded frame (the [numpy] array). *)
Definition Frame : Type := list Z.

(** A PIL image made of a frame. *)
Record Image := { pixels : Frame }.

(** An open [VideoFileClip] with the attributes the module reads. *)
Record Clip := {
  duration : Q;
  fps : Q;
  w : Z;
  h : Z;
  clip_source : string
}.

(** The file system: the paths that exist. *)
Abbreviation FS := (gset string).

(** The libraries the module calls.  [VideoFileClip_imported] is false when
    both imports of MoviePy failed ([VideoFileClip = None]). *)
Record Env := {
  VideoFileClip_imported : bool;
  VideoFileClip : string -> res Clip;
  write_audiofile : Clip -> string -> M FS unit;
  get_frame : Clip -> float -> res Frame;
  close : Clip -> res unit;
  abspath : string -> string;
  mkstemp_name : string -> FS -> res string;
  mkdtemp : M FS string;
  makedirs : string -> M FS unit;
  Image_fromarray : Frame -> res Image;
  save_png : Image -> string -> M FS unit
}.

(** [os.path.exists(p)] *)
Definition os_path_exists (p : string) : M FS bool :=
  fun fs => (Ret (bool_decide (p ∈ fs)), fs).

(** [os.unlink(p)] *)
Definition os_unlink (p : string) : M FS unit :=
  fun fs =>
    if bool_decide (p ∈ fs) then (Ret tt, fs ∖ {[p]})
    else (Raise (FileNotFoundError p), fs).

(** [with tempfile.NamedTemporaryFile(suffix=..., delete=False) as f: f.name]:
    the file is created and left in place. *)
Definition NamedTemporaryFile (E : Env) (suffix : string) : M FS string :=
  fun fs =>
    match mkstemp_name E suffix fs with
    | Ret name => (Ret name, {[name]} ∪ fs)
    | Raise e => (Raise e, fs)
    end.

(** [os.path.join(a, b)] on POSIX, for two components. *)
Definition os_path_join (a b : string) : string :=
  if PyStr.startswith "/" b then b
  else if String.eqb a EmptyString || PyStr.startswith "/" (String.rev a)
       then a +:+ b
       else a +:+ "/" +:+ b.

(** The body of the [try] block of [extract_audio]: decode the container and
    write its audio track. *)
Definition extract_audio_try (E : Env) (video_path audio_path : string)
  : M FS string :=
  clip <- lift (VideoFileClip E video_path) ;;
  write_audiofile E clip audio_path ;;;
  lift (close E clip) ;;;
  ret audio_path.

Definition extract_audio (E : Env) (video_path output_format : string)
  : M FS string :=
  if negb (VideoFileClip_imported E) then
    raise (ImportError
      "MoviePy is required for audio extraction. Install with: pip install moviepy")
  else
    ex <- os_path_exists video_path ;;
    if negb ex then
      raise (FileNotFoundError ("Video file not found: " +:+ video_path))
    else
      let video_path := abspath E video_path in
      audio_path <- NamedTemporaryFile E ("." +:+ output_format) ;;
      try_except
        (extract_audio_try E video_path audio_path)
        (fun e =>
           ex <- os_path_exists audio_path ;;
           (if ex then os_unlink audio_path else ret tt) ;;;
           raise (RuntimeError ("Failed to extract audio: " +:+ str e) e)).

(** [min(max(0, timestamp_seconds), clip.duration - 0.01)] *)
Definition clamp_timestamp (timestamp_seconds : float) (clip_duration : Q)
  : float :=
  float_min (float_max (Finite 0) timestamp_seconds)
    (Finite (clip_duration - (1 # 100))).

Definition capture_frame_at_timestamp (E : Env) (video_path : string)
  (timestamp_seconds : float) : M FS (option Frame) :=
  if negb (VideoFileClip_imported E) then ret None
  else
    ex <- os_path_exists video_path ;;
    if negb ex then ret None
    else
      try_except
        (clip <- lift (VideoFileClip E video_path) ;;
         let timestamp := clamp_timestamp timestamp_seconds (duration clip) in
         frame <- lift (get_frame E clip timestamp) ;;
         lift (close E clip) ;;;
         ret (Some frame))
        (fun _ => ret None).

(** [f"frame_{i}_{int(ts)}s.png"], for the value [seconds] of [int(ts)]. *)
Definition frame_name (i : nat) (seconds : Z) : string :=
  "frame_" +:+ PyStr.of_Z (Z.of_nat i) +:+ "_" +:+ PyStr.of_Z seconds
    +:+ "s.png".

(** The loop [for i, ts in enumerate(timestamps)] of [capture_key_frames];
    [results] is the list built so far.  [int(ts)] is evaluated for a
    captured frame, after the image is made and before it is saved. *)
Fixpoint capture_loop (E : Env) (video_path output_dir : string) (i : nat)
  (timestamps : list float) (results : list (float * string))
  : M FS (list (float * string)) :=
  match timestamps with
  | [] => ret results
  | ts :: rest =>
      frame <- capture_frame_at_timestamp E video_path ts ;;
      match frame with
      | Some f =>
          img <- lift (Image_fromarray E f) ;;
          seconds <- lift (int_float ts) ;;
          let img_path := os_path_join output_dir (frame_name i seconds) in
          save_png E img img_path ;;;
          capture_loop E video_path output_dir (S i) rest
            (results ++ [(ts, img_path)])
      | None => capture_loop E video_path output_dir (S i) rest results
      end
  end.

Definition capture_key_frames (E : Env) (video_path : string)
  (timestamps : list float) (output_dir : option string)
  : M FS (list (float * string)) :=
  output_dir <- match output_dir with
                | None => mkdtemp E
                | Some d => ret d
                end ;;
  makedirs E output_dir ;;;
  capture_loop E video_path output_dir 0 timestamps [].

Definition get_video_duration (E : Env) (video_path : string) : M FS Q :=
  if negb (VideoFileClip_imported E) then ret 0%Q
  else
    ex <- os_path_exists video_path ;;
    if negb ex then ret 0%Q
    else
      try_except
        (clip <- lift (VideoFileClip E video_path) ;;
         let duration := duration clip in
         lift (close E clip) ;;;
         ret duration)
        (fun _ => ret 0%Q).

(** The dictionary [{"duration": 0, "fps": 0, "width": 0, "height": 0}]. *)
Definition zero_info : gmap string Q :=
  <["duration" := 0%Q]> (<["fps" := 0%Q]> (<["width" := 0%Q]>
    (<["height" := 0%Q]> ∅))).

Definition get_video_info (E : Env) (video_path : string)
  : M FS (gmap string Q) :=
  if negb (VideoFileClip_imported E) then ret zero_info
  else
    ex <- os_path_exists video_path ;;
    if negb ex then ret zero_info
    else
      try_except
        (clip <- lift (VideoFileClip E video_path) ;;
         let info : gmap string Q :=
           <["duration" := duration clip]> (<["fps" := fps clip]>
             (<["width" := inject_Z (w clip)]>
               (<["height" := inject_Z (h clip)]> ∅))) in
         lift (close E clip) ;;;
         ret info)
        (fun _ => ret zero_info).

Definition SUPPORTED_VIDEO_FORMATS : gset string :=
  list_to_set
    [".mp4"; ".avi"; ".mkv"; ".mov"; ".webm";
     ".wmv"; ".flv"; ".m4v"; ".mpg"; ".mpeg";
     ".3gp"; ".3g2"; ".ogv"; ".mts"; ".m2ts";
     ".vob"; ".ts"; ".divx"; ".f4v"; ".asf"].

(** [PurePosixPath(filename).name]: the last path component, empty
    components and [.] components dropped. *)
Definition path_name (filename : string) : string :=
  List.last
    (List.filter
       (fun p => negb (String.eqb p EmptyString) && negb (String.eqb p "."))
       (PyStr.split "/" filename))
    EmptyString.

(** [PurePath.suffix]: [name[i:]] for [i = name.rfind(".")] when
    [0 < i < len(name) - 1], the empty string otherwise. *)
Definition path_suffix (filename : string) : string :=
  let name := path_name filename in
  match PyStr.rfind_dot name with
  | Some i =>
      if (0 <? i)%nat && (i + 1 <? String.length name)%nat
      then PyStr.drop i name
      else EmptyString
  | None => EmptyString
  end.

Definition is_supported_video (filename : string) : bool :=
  bool_decide (PyStr.lower (path_suffix filename) ∈ SUPPORTED_VIDEO_FORMATS).

End VideoProcessor.

(** ** summarizer.py *)

Module Summarizer.

(** The double quote and the line feed, for the texts that hold them. *)
Definition dq : string := String (PyStr.chr 34) EmptyString.
Definition nl : string := String (PyStr.chr 10) EmptyString.

(** One timestamped segment of the transcription. *)
Record Segment := {
  seg_start : Q;
  seg_end : Q;
  seg_text : string
}.

Record Client := { api_key : string }.

Record Request := {
  req_model : string;
  req_messages : list (string * string);
  req_temperature : Q
}.

(** A chat completion: the [message.content] of each of its choices. *)
Record Response := { choices : list (option string) }.

(** The libraries and the process environment.  [OpenAI_imported] is false
    when [from openai import OpenAI] failed ([OpenAI = None]). *)
Record Env := {
  OpenAI_imported : bool;
  environ : gmap string string;
  chat_completions_create : Client -> Request -> res Response;
  json_loads : string -> res value
}.

(** What the module does to the outside: the calls of
    [client.chat.completions.create], oldest first, each with the request it
    was given, and the lines printed.  One entry is one call of the code:
    the HTTP attempts the client library makes inside a call (it retries by
    default) are not counted. *)
Record State := {
  network : list Request;
  stdout : list string
}.

Definition _get_client (E : Env) : M State Client :=
  if negb (OpenAI_imported E) then
    raise (ImportError "OpenAI package is required. Install with: pip install openai")
  else
    match environ E !! "OPENAI_API_KEY" with
    | Some key =>
        if String.eqb key EmptyString then
          raise (ValueError ("OPENAI_API_KEY environment variable is not set. "
                             +:+ "Please set it with your OpenAI API key."))
        else ret {| api_key := key |}
    | None =>
        raise (ValueError ("OPENAI_API_KEY environment variable is not set. "
                           +:+ "Please set it with your OpenAI API key."))
    end.

(** [client.chat.completions.create(...)]: the call is logged, then it
    returns the answer of the service or raises.  What the library does
    inside the call, its own retries included, is behind
    [chat_completions_create]. *)
Definition create (E : Env) (client : Client) (req : Request) : M State Response :=
  fun st =>
    (chat_completions_create E client req,
     {| network := network st ++ [req]; stdout := stdout st |}).

(** [print(line)] *)
Definition print (line : string) : M State unit :=
  modify (fun st => {| network := network st; stdout := stdout st ++ [line] |}).

(** [response.choices[0].message.content.strip()] *)
Definition first_content_stripped (response : Response) : M State string :=
  match choices response with
  | [] => raise (IndexError "list index out of range")
  | None :: _ => raise (AttributeError "'NoneType' object has no attribute 'strip'")
  | Some content :: _ => ret (PyStr.strip content)
  end.

(** [format(q, ".1f")]: the nearest decimal with one digit, ties to even. *)
Definition fmt_1f (q : Q) : string :=
  let a := Qabs q in
  let n := Qfloor (a * 10) in
  let frac := (a * 10 - inject_Z n)%Q in
  let r := if Qle_bool frac (1 # 2)
           then (if Qeq_bool frac (1 # 2) && Z.odd n then n + 1 else n)
           else n + 1 in
  (if Qle_bool 0 q then EmptyString else "-")
    +:+ PyStr.of_Z (r / 10) +:+ "." +:+ PyStr.of_Z (r mod 10).

(** [f"[{s['start']:.1f}s - {s['end']:.1f}s] {s['text']}"] *)
Definition segment_line (s : Segment) : string :=
  "[" +:+ fmt_1f (seg_start s) +:+ "s - " +:+ fmt_1f (seg_end s) +:+ "s] "
      +:+ seg_text s.

Definition summarize_system_prompt : string :=
  "You are an expert AI Research Assistant. Your goal is to analyze video transcriptions with high academic rigor and clarity.
Given a video transcription with timestamps, you must produce a structured academic analysis in JSON format:
1. main_purpose: Identify the primary objective or thesis of the video (1-2 sentences).
2. key_insights: Extract 5-8 significant takeaways or findings from the discourse.
3. important_concepts: Highlight 3-5 core theoretical or practical concepts discussed.
4. structured_summary: Generate a well-organized, multi-paragraph summary (3-5 paragraphs) covering the introduction, core arguments, and conclusion.
5. keywords: List 5-10 academic keywords or technical terms.
6. timestamped_highlights: Identify 3-6 critical moments with their exact timestamps in seconds.
   Format: {" +:+ dq +:+ "timestamp" +:+ dq +:+ ": <seconds>, " +:+ dq +:+ "title" +:+ dq +:+ ": " +:+ dq +:+ "<academic title>" +:+ dq +:+ ", " +:+ dq +:+ "description" +:+ dq +:+ ": " +:+ dq +:+ "<detailed analysis of the moment>" +:+ dq +:+ "}

Maintain an academic, objective tone. Output as valid JSON with the specified keys.".

Definition refine_system_prompt : string :=
  "You are an expert transcription editor. Your task is to take a raw, potentially 
noisy speech-to-text transcription and refine it into clear, professional text.

Rules:
1. Fix punctuation, capitalization, and sentence structure.
2. Remove filler words (um, uh, like, etc.) unless they are critical for meaning.
3. Correct obvious misspellings based on context.
4. DO NOT change the meaning or intent of the speaker.
5. Provide the output as clear, well-structured paragraphs.
6. Return ONLY the refined text.".

Definition summarize_user_prompt (segments_text transcription : string) : string :=
  "As an AI Research Assistant, analyze this video transcription:" +:+ nl +:+ nl
  +:+ "TRANSCRIPTION WITH TIMESTAMPS:" +:+ nl +:+ segments_text +:+ nl +:+ nl
  +:+ "FULL TEXT:" +:+ nl +:+ transcription +:+ nl +:+ nl
  +:+ "Provide the structured JSON response.".

(** Removal of a Markdown code fence around the answer. *)
Definition strip_code_fence (content : string) : M State string :=
  if PyStr.startswith "```" content then
    match PyStr.split "```" content !! 1%nat with
    | None => raise (IndexError "list index out of range")
    | Some content =>
        let content :=
          if PyStr.startswith "json" content then PyStr.drop 4 content
          else if PyStr.startswith "JSON" content then PyStr.drop 4 content
          else content in
        ret (PyStr.strip content)
    end
  else ret content.

(** [type(v).__name__] *)
Definition type_name (v : value) : string :=
  match v with
  | VNone => "NoneType"
  | VBool _ => "bool"
  | VInt _ => "int"
  | VFloat _ => "float"
  | VStr _ => "str"
  | VList _ => "list"
  | VDict _ => "dict"
  end.

(** The receiver of [result.setdefault]: only a [dict] has the method. *)
Definition as_dict (v : value) : M State (gmap string value) :=
  match v with
  | VDict d => ret d
  | _ => raise (AttributeError
           ("'" +:+ type_name v +:+ "' object has no attribute 'setdefault'"))
  end.

(** [d.setdefault(k, v)] *)
Definition setdefault (k : string) (v : value) (d : gmap string value)
  : gmap string value :=
  match d !! k with
  | Some _ => d
  | None => <[k := v]> d
  end.

(** [a + b] where one of the operands is a [str]: defined when both are. *)
Definition add (a b : value) : M State value :=
  match a, b with
  | VStr x, VStr y => ret (VStr (x +:+ y))
  | VStr _, _ =>
      raise (TypeError ("can only concatenate str (not " +:+ dq +:+ type_name b
                        +:+ dq +:+ ") to str"))
  | VList _, _ =>
      raise (TypeError ("can only concatenate list (not " +:+ dq +:+ type_name b
                        +:+ dq +:+ ") to list"))
  | _, _ =>
      raise (TypeError ("unsupported operand type(s) for +: '" +:+ type_name a
                        +:+ "' and '" +:+ type_name b +:+ "'"))
  end.

(** [d[k]] *)
Definition getitem (d : gmap string value) (k : string) : M State value :=
  match d !! k with
  | Some v => ret v
  | None => raise (OtherException "KeyError" ("'" +:+ k +:+ "'"))
  end.

(** The six [setdefault] calls. *)
Definition with_defaults (d : gmap string value) : gmap string value :=
  setdefault "timestamped_highlights" (VList [])
    (setdefault "keywords" (VList [])
      (setdefault "structured_summary" (VStr EmptyString)
        (setdefault "important_concepts" (VList [])
          (setdefault "key_insights" (VList [])
            (setdefault "main_purpose" (VStr EmptyString) d))))).

(** The two compatibility fields, [summary] and [key_points]. *)
Definition with_compat (result : gmap string value) : M State (gmap string value) :=
  result <- match result !! "summary" with
            | Some _ => ret result
            | None =>
                a <- getitem result "main_purpose" ;;
                ab <- add a (VStr (nl +:+ nl)) ;;
                c <- getitem result "structured_summary" ;;
                abc <- add ab c ;;
                ret (<["summary" := abc]> result)
            end ;;
  match result !! "key_points" with
  | Some _ => ret result
  | None =>
      v <- getitem result "key_insights" ;;
      ret (<["key_points" := v]> result)
  end.

(** The dictionary returned when the answer is not JSON. *)
Definition parse_failure (e : exn) : gmap string value :=
  <["summary" := VStr "Summary generation completed but parsing failed."]>
    (<["key_points" := VList []]>
      (<["keywords" := VList []]>
        (<["topics" := VList []]>
          (<["timestamped_highlights" := VList []]>
            (<["_parse_error" := VStr (str e)]> ∅))))).

Definition summarize_request (transcription : string) (segments : list Segment)
  (model : string) : Request :=
  let segments_text := PyStr.join nl (List.map segment_line segments) in
  {| req_model := model;
     req_messages :=
       [("system", summarize_system_prompt);
        ("user", summarize_user_prompt segments_text transcription)];
     req_temperature := 2 # 10 |}.

Definition summarize_transcription (E : Env) (transcription : string)
  (segments : list Segment) (model : string) : M State (gmap string value) :=
  client <- _get_client E ;;
  try_except
    (response <- create E client (summarize_request transcription segments model) ;;
     content <- first_content_stripped response ;;
     content <- strip_code_fence content ;;
     result <- lift (json_loads E content) ;;
     result <- as_dict result ;;
     with_compat (with_defaults result))
    (fun e =>
       match e with
       | JSONDecodeError _ _ _ => ret (parse_failure e)
       | _ => raise (RuntimeError ("OpenAI API error: " +:+ str e) e)
       end).

Definition refine_request (raw_transcription model : string) : Request :=
  {| req_model := model;
     req_messages :=
       [("system", refine_system_prompt);
        ("user", "Please refine this transcription:" +:+ nl +:+ nl
                 +:+ raw_transcription)];
     req_temperature := 3 # 10 |}.

Definition refine_transcription (E : Env) (raw_transcription model : string)
  : M State string :=
  client <- _get_client E ;;
  try_except
    (response <- create E client (refine_request raw_transcription model) ;;
     first_content_stripped response)
    (fun e =>
       print ("Refine transcription error: " +:+ str e) ;;;
       ret raw_transcription).

(** [re.findall(r"\b[a-zA-Z]{4,}\b", text)].  A match starts and ends at a
    word boundary and holds letters only, so it is a whole run of [\w]
    characters, all of them letters, at least four. *)
Definition findall_words (text : string) : list string :=
  List.filter
    (fun w => PyStr.all_letters w && (4 <=? String.length w)%nat)
    (PyStr.word_runs text).

(** [Counter(words)]: the counts, each word at the place of its first
    occurrence. *)
Fixpoint count_add (w : string) (counts : list (string * nat))
  : list (string * nat) :=
  match counts with
  | [] => [(w, 1%nat)]
  | (k, n) :: rest =>
      if String.eqb k w then (k, S n) :: rest else (k, n) :: count_add w rest
  end.

Definition Counter (words : list string) : list (string * nat) :=
  List.fold_left (fun counts w => count_add w counts) words [].

(** [sorted(items, key=itemgetter(1), reverse=True)]: a stable sort, so
    words with the same count keep the order of their first occurrence. *)
Fixpoint insert_by_count (x : string * nat) (l : list (string * nat))
  : list (string * nat) :=
  match l with
  | [] => [x]
  | y :: r =>
      if (snd y <=? snd x)%nat then x :: y :: r else y :: insert_by_count x r
  end.

Fixpoint sort_by_count (l : list (string * nat)) : list (string * nat) :=
  match l with
  | [] => []
  | x :: r => insert_by_count x (sort_by_count r)
  end.

(** [counter.most_common(n)] *)
Definition most_common (n : nat) (counts : list (string * nat))
  : list (string * nat) :=
  List.firstn n (sort_by_count counts).

Definition extract_keywords_fallback (transcription : string) : list string :=
  let words := findall_words (PyStr.lower transcription) in
  List.map fst (most_common 10 (Counter words)).

End Summarizer.

(** ** transcriber.py: transcription *)

Module Transcription.

(** One segment of Whisper's result. *)
Record RawSegment := {
  raw_start : Q;
  raw_end : Q;
  raw_text : string
}.

(** Whisper's result: [result["text"]] and [result.get("segments")]. *)
Record WhisperResult := {
  result_text : string;
  result_segments : option (list RawSegment)
}.

Record Model := { model_name : string }.

(** The Whisper library.  [whisper_imported] is false when [import whisper]
    failed ([whisper = None]). *)
Record Env := {
  whisper_imported : bool;
  load_model : string -> res Model;
  transcribe : Model -> string -> option string -> res WhisperResult
}.

Definition transcribe_audio (E : Env) (audio_path model_size : string)
  (language : option string)
  : M (gset string) (string * list Summarizer.Segment) :=
  if negb (whisper_imported E) then
    raise (ImportError
      "OpenAI Whisper is required. Install with: pip install openai-whisper")
  else
    ex <- VideoProcessor.os_path_exists audio_path ;;
    if negb ex then
      raise (FileNotFoundError ("Audio file not found: " +:+ audio_path))
    else
      model <- lift (load_model E model_size) ;;
      result <- lift (transcribe E model audio_path language) ;;
      let full_text := PyStr.strip (result_text result) in
      let segments :=
        List.map
          (fun seg =>
             {| Summarizer.seg_start := raw_start seg;
                Summarizer.seg_end := raw_end seg;
                Summarizer.seg_text := PyStr.strip (raw_text seg) |})
          (default [] (result_segments result)) in
      ret (full_text, segments).

End Transcription.

(** ** app.py *)

Module App.

Definition _is_youtube_url (url : value) : bool :=
  if negb (truthy url) || negb (is_str url) then false
  else match url with
       | VStr s =>
           let url_lower := PyStr.lower (PyStr.strip s) in
           PyStr.contains "youtube.com" url_lower
           || PyStr.contains "youtu.be" url_lower
       | _ => false
       end.

(** The options handed to [yt_dlp.YoutubeDL]. *)
Record YdlOpts := {
  opt_format : string;
  opt_outtmpl : string;
  opt_merge_output_format : string;
  opt_quiet : bool;
  opt_no_warnings : bool;
  opt_extract_flat : bool
}.

(** The downloader and the file-system calls around it.  [yt_dlp_imported]
    is false when [import yt_dlp] raised [ImportError]. *)
Record DownloadEnv := {
  yt_dlp_imported : bool;
  tempfile_mkdtemp : M (gset string) string;
  YoutubeDL_download : YdlOpts -> list string -> M (gset string) unit;
  os_listdir : string -> M (gset string) (list string);
  os_path_isfile : string -> gset string -> bool
}.

Definition isfile (E : DownloadEnv) (p : string) : M (gset string) bool :=
  fun fs => (Ret (os_path_isfile E p fs), fs).

(** [f.lower().endswith((".mp4", ".mkv", ".webm", ".m4a"))] *)
Definition has_media_extension (f : string) : bool :=
  let name := PyStr.lower f in
  PyStr.endswith ".mp4" name || PyStr.endswith ".mkv" name
  || PyStr.endswith ".webm" name || PyStr.endswith ".m4a" name.

(** The loop [for f in os.listdir(output_dir)], left at the first file
    with a media extension. *)
Fixpoint first_media_file (E : DownloadEnv) (output_dir : string)
  (names : list string) : M (gset string) (option string) :=
  match names with
  | [] => ret None
  | f :: rest =>
      let p := VideoProcessor.os_path_join output_dir f in
      is_file <- isfile E p ;;
      if is_file && has_media_extension f then ret (Some p)
      else first_media_file E output_dir rest
  end.

(** The [except Exception as e] clause: the message shown for [err = str(e)]. *)
Definition download_error_message (err : string) : string :=
  if PyStr.contains "FFmpeg" err || PyStr.contains "ffmpeg" err then
    "FFmpeg is required. Install from https://ffmpeg.org/download.html"
  else if PyStr.contains "Private video" err
          || PyStr.contains "private" (PyStr.lower err) then
    "This video is private or unavailable."
  else if PyStr.contains "Video unavailable" err
          || PyStr.contains "unavailable" (PyStr.lower err) then
    "Video is unavailable (deleted, age-restricted, or region-blocked)."
  else "Download failed: " +:+ PyStr.take 200 err.

Definition download_youtube_video (E : DownloadEnv) (url : string)
  : M (gset string) (option string * string) :=
  if negb (yt_dlp_imported E) then
    ret (None, "yt-dlp is not installed. Run: pip install yt-dlp")
  else
    try_except
      (output_dir <- tempfile_mkdtemp E ;;
       let out_tmpl := VideoProcessor.os_path_join output_dir "video.%(ext)s" in
       let ydl_opts :=
         {| opt_format := "best[ext=mp4]/best[ext=webm]/best";
            opt_outtmpl := out_tmpl;
            opt_merge_output_format := "mp4";
            opt_quiet := true;
            opt_no_warnings := true;
            opt_extract_flat := false |} in
       YoutubeDL_download E ydl_opts [PyStr.strip url] ;;;
       names <- os_listdir E output_dir ;;
       found <- first_media_file E output_dir names ;;
       match found with
       | Some p => ret (Some p, EmptyString)
       | None =>
           ret (None,
                "No video file was downloaded. The video may be private or restricted.")
       end)
      (fun e => ret (None, download_error_message (str e))).

(** *** The Run Summary handler *)

(** The world the pipeline acts on: the files, and the traffic with the
    chat-completion service. *)
Record World := {
  files : gset string;
  openai : Summarizer.State
}.

(** The libraries behind the stages.  [float_of_str] is [float(s)] for a
    string ([inf] and [nan] included), [None] when it raises [ValueError];
    [float_of_int] is [float(n)] for an integer, [None] when it raises
    [OverflowError]. *)
Record Services := {
  video : VideoProcessor.Env;
  whisper : Transcription.Env;
  llm : Summarizer.Env;
  float_of_str : string -> option float;
  float_of_int : Z -> option Q
}.

Definition on_files {A} (m : M (gset string) A) : M World A :=
  fun w =>
    (fst (m (files w)), {| files := snd (m (files w)); openai := openai w |}).

Definition on_openai {A} (m : M Summarizer.State A) : M World A :=
  fun w =>
    (fst (m (openai w)), {| files := files w; openai := snd (m (openai w)) |}).

(** [float(t)] *)
Definition py_float (S : Services) (t : value) : res float :=
  match t with
  | VBool b => Ret (Finite (if b then 1%Q else 0%Q))
  | VInt z =>
      match float_of_int S z with
      | Some q => Ret (Finite q)
      | None => Raise (OtherException "OverflowError"
                         "int too large to convert to float")
      end
  | VFloat x => Ret x
  | VStr s =>
      match float_of_str S s with
      | Some x => Ret x
      | None => Raise (ValueError ("could not convert string to float: '" +:+ s +:+ "'"))
      end
  | _ =>
      Raise (TypeError ("float() argument must be a string or a real number, not '"
                        +:+ Summarizer.type_name t +:+ "'"))
  end.

(** [h.get("timestamp")]: only a [dict] has the method. *)
Definition get_timestamp (h : value) : res value :=
  match h with
  | VDict d => Ret (default VNone (d !! "timestamp"))
  | _ => Raise (AttributeError
           ("'" +:+ Summarizer.type_name h +:+ "' object has no attribute 'get'"))
  end.

(** The loop over the highlights: a timestamp that [float] refuses with
    [TypeError] or [ValueError] (of which [JSONDecodeError] is a subclass) is
    passed over. *)
Fixpoint collect_timestamps (S : Services) (highlights : list value)
  (timestamps : list float) : res (list float) :=
  match highlights with
  | [] => Ret timestamps
  | h :: rest =>
      match get_timestamp h with
      | Raise e => Raise e
      | Ret t =>
          match py_float S t with
          | Ret x => collect_timestamps S rest (timestamps ++ [x])
          | Raise (TypeError _) | Raise (ValueError _)
          | Raise (JSONDecodeError _ _ _) =>
              collect_timestamps S rest timestamps
          | Raise e => Raise e
          end
      end
  end.

(** [for h in v]: the items of a list; the items of a string and the keys
    of a dictionary are strings, on which [h.get] fails at the first one;
    anything else is not iterable. *)
Definition highlight_timestamps (S : Services) (v : value)
  : res (list float) :=
  match v with
  | VList highlights => collect_timestamps S highlights []
  | VStr s =>
      if String.eqb s EmptyString then Ret []
      else Raise (AttributeError "'str' object has no attribute 'get'")
  | VDict d =>
      if bool_decide (d = ∅) then Ret []
      else Raise (AttributeError "'str' object has no attribute 'get'")
  | _ => Raise (TypeError ("'" +:+ Summarizer.type_name v +:+ "' object is not iterable"))
  end.

(** What the handler stores in [st.session_state.results]; [info] is the
    dictionary [get_video_info] returned for the preview. *)
Record Results := {
  transcription : string;
  refined_transcription : string;
  segments : list Summarizer.Segment;
  summary_data : gmap string value;
  frames : list (float * string);
  results_video_path : string;
  results_duration : Q
}.

(** Step 5 of the handler: the frames at the first six timestamps of the
    highlights. *)
Definition visual_highlights (S : Services) (video_path : string)
  (capture_visual : bool) (summary_data : gmap string value)
  : M World (list (float * string)) :=
  if capture_visual
     && truthy (default VNone (summary_data !! "timestamped_highlights"))
  then
    timestamps <- lift (highlight_timestamps S
                          (default VNone (summary_data !! "timestamped_highlights"))) ;;
    match timestamps with
    | [] => ret []
    | _ =>
        on_files (VideoProcessor.capture_key_frames (video S) video_path
                    (List.firstn 6 timestamps) None)
    end
  else ret [].

(** The [try] block of the handler, from the extraction of the audio to the
    results. *)
Definition run_summary_try (S : Services) (video_path model_size openai_model : string)
  (capture_visual : bool) (info : gmap string Q) : M World Results :=
  audio_path <- on_files (VideoProcessor.extract_audio (video S) video_path "mp3") ;;
  transcript <- on_files
    (Transcription.transcribe_audio (whisper S) audio_path model_size None) ;;
  let full_text := fst transcript in
  let segments := snd transcript in
  ex <- on_files (VideoProcessor.os_path_exists audio_path) ;;
  (if ex then on_files (VideoProcessor.os_unlink audio_path) else ret tt) ;;;
  summary_data <- on_openai
    (Summarizer.summarize_transcription (llm S) full_text segments openai_model) ;;
  refined_text <- on_openai
    (Summarizer.refine_transcription (llm S) full_text openai_model) ;;
  frames_data <- visual_highlights S video_path capture_visual summary_data ;;
  ret {| transcription := full_text;
         refined_transcription := refined_text;
         segments := segments;
         summary_data := summary_data;
         frames := frames_data;
         results_video_path := video_path;
         results_duration := default 0%Q (info !! "duration") |}.

(** The handler: the results it stores, or the text of the error it shows
    when any stage raises. *)
Definition run_summary (S : Services) (video_path model_size openai_model : string)
  (capture_visual : bool) (info : gmap string Q) : M World (Results + string) :=
  try_except
    (results <- run_summary_try S video_path model_size openai_model
                  capture_visual info ;;
     ret (inl results))
    (fun e => ret (inr (str e))).

End App.

(** ** Reference predicates

    The vocabulary of the statements below: what "the same up to letter
    case" and "occurs in" mean, the expected keys of an analysis, and
    shorthands for parts of the functions above (the unfenced answer, the
    state after a request, the outcome of one capture). *)

Module Spec.

(** Two suffixes are the same when compared case-insensitively. *)
Definition same_ignoring_case (a b : string) : Prop :=
  PyStr.lower a = PyStr.lower b.

(** [pat] occurs in [s] at some position. *)
Definition occurs_in (pat s : string) : Prop :=
  exists before after, s = before +:+ pat +:+ after.

(** No character of [s] is white space. *)
Fixpoint no_space (s : string) : bool :=
  match s with
  | EmptyString => true
  | String c r => negb (PyStr.is_space c) && no_space r
  end.

(** The six keys of an analysis and the value each is defaulted to. *)
Definition expected_keys : list (string * value) :=
  [("main_purpose", VStr EmptyString);
   ("key_insights", VList []);
   ("important_concepts", VList []);
   ("structured_summary", VStr EmptyString);
   ("keywords", VList []);
   ("timestamped_highlights", VList [])].

(** The answer without its code fence, as a total function: the second piece
    of the split always exists when the text starts with the fence. *)
Definition unfenced (content : string) : string :=
  if PyStr.startswith "```" content then
    let content := List.nth 1 (PyStr.split "```" content) EmptyString in
    let content :=
      if PyStr.startswith "json" content then PyStr.drop 4 content
      else if PyStr.startswith "JSON" content then PyStr.drop 4 content
      else content in
    PyStr.strip content
  else content.

(** The state once [create] has been called with [req]. *)
Definition after_request (st : Summarizer.State) (req : Summarizer.Request)
  : Summarizer.State :=
  {| Summarizer.network := Summarizer.network st ++ [req];
     Summarizer.stdout := Summarizer.stdout st |}.

(** The capture of one timestamp gave a frame. *)
Definition captured (E : VideoProcessor.Env) (video_path : string)
  (fs : gset string) (ts : float) : bool :=
  match VideoProcessor.capture_frame_at_timestamp E video_path ts fs with
  | (Ret (Some _), _) => true
  | _ => false
  end.


(** A library call that returns normally and only adds files. *)
Definition only_adds_files {A} (m : M (gset string) A) : Prop :=
  forall fs, exists a fs', m fs = (Ret a, fs') /\ fs ⊆ fs'.

(** [s] neither starts nor ends with white space. *)
Definition trimmed (s : string) : Prop :=
  (forall c r, s = String c r -> PyStr.is_space c = false) /\
  (forall init c, s = init +:+ String c EmptyString -> PyStr.is_space c = false).

(** The character [x] is nowhere in [s]. *)
Fixpoint no_char (x : ascii) (s : string) : bool :=
  match s with
  | EmptyString => true
  | String c r => negb (Ascii.eqb c x) && no_char x r
  end.

(** The eight keys a returned analysis always has. *)
Definition analysis_keys : gset string :=
  list_to_set
    ["main_purpose"; "key_insights"; "important_concepts"; "structured_summary";
     "keywords"; "timestamped_highlights"; "summary"; "key_points"].

(** How often [w] is among [words]. *)
Definition occurrences (w : string) (words : list string) : nat :=
  count_occ string_dec words w.

(** Every character of [s] passes the test [P]. *)
Fixpoint all_chars (P : ascii -> bool) (s : string) : bool :=
  match s with
  | EmptyString => true
  | String c r => P c && all_chars P r
  end.

(** The count stored for [w] in a list of counts, zero when there is none. *)
Fixpoint count_of (w : string) (counts : list (string * nat)) : nat :=
  match counts with
  | [] => 0
  | (k, n) :: rest => if String.eqb k w then n else count_of w rest
  end.

(** The order [sorted(..., reverse=True)] puts the counts in. *)
Definition count_ge (x y : string * nat) : Prop := (snd y <= snd x)%nat.

(** [c] is one of the ten digits. *)
Definition is_digit (c : ascii) : bool :=
  let n := nat_of_ascii c in (48 <=? n)%nat && (n <=? 57)%nat.

End Spec.

(** ** Sample environments *)

Module Samples.

Import VideoProcessor Summarizer.

(** A ten-second video without an audio track.  The decoder serves the times
    in [[0, 10)] and refuses the others. *)
Definition talk : Clip :=
  {| duration := 10; fps := 30; w := 640; h := 360;
     clip_source := "/videos/talk.mp4" |}.

Definition studio : VideoProcessor.Env :=
  {| VideoFileClip_imported := true;
     VideoFileClip := fun p =>
       if String.eqb p "/videos/talk.mp4" then Ret talk
       else Raise (OtherException "OSError" "MoviePy error: failed to read the file");
     write_audiofile := fun _ _ =>
       raise (AttributeError "'NoneType' object has no attribute 'write_audiofile'");
     get_frame := fun clip t =>
       match t with
       | Finite t =>
           if Qle_bool 0 t && negb (Qle_bool (duration clip) t) then Ret [0; 0; 0]
           else Raise (OtherException "OSError" "MoviePy error: failed to read the frame")
       | _ => Raise (OtherException "OSError" "MoviePy error: failed to read the frame")
       end;
     close := fun _ => Ret tt;
     abspath := fun p => p;
     mkstemp_name := fun suffix _ => Ret ("/tmp/tmpk3v9" +:+ suffix);
     mkdtemp := fun fs => (Ret "/tmp/tmpframes", {["/tmp/tmpframes"]} ∪ fs);
     makedirs := fun d fs => (Ret tt, {[d]} ∪ fs);
     Image_fromarray := fun f => Ret {| pixels := f |};
     save_png := fun _ path fs => (Ret tt, {[path]} ∪ fs) |}.

(** The same studio with another decoder. *)
Definition studio_with (decoder : Clip -> float -> res Frame)
  : VideoProcessor.Env :=
  {| VideoFileClip_imported := true;
     VideoFileClip := VideoFileClip studio;
     write_audiofile := write_audiofile studio;
     get_frame := decoder;
     close := close studio;
     abspath := abspath studio;
     mkstemp_name := mkstemp_name studio;
     mkdtemp := mkdtemp studio;
     makedirs := makedirs studio;
     Image_fromarray := Image_fromarray studio;
     save_png := save_png studio |}.

Definition disk : gset string := {["/videos/talk.mp4"]}.

(** Two answers of the model, and what [json.loads] makes of them and of a
    text that is no JSON. *)
Definition doc_null_purpose : string :=
  "{" +:+ dq +:+ "main_purpose" +:+ dq +:+ ": null, " +:+ dq +:+ "summary"
      +:+ dq +:+ ": " +:+ dq +:+ "s" +:+ dq +:+ "}".

Definition doc_keywords : string :=
  "{" +:+ dq +:+ "keywords" +:+ dq +:+ ": [" +:+ dq +:+ "ai" +:+ dq +:+ "]}".

Definition doc_prose : string := "Sorry, there is nothing to analyse.".

Definition sample_json_loads (doc : string) : res value :=
  if String.eqb doc doc_null_purpose then
    Ret (VDict (<["main_purpose" := VNone]> (<["summary" := VStr "s"]> ∅)))
  else if String.eqb doc doc_keywords then
    Ret (VDict (<["keywords" := VList [VStr "ai"]]> ∅))
  else Raise (JSONDecodeError "Expecting value" doc 0).

(** A configured client whose every call ends in [answer]. *)
Definition service (answer : res Response) : Summarizer.Env :=
  {| OpenAI_imported := true;
     environ := <["OPENAI_API_KEY" := "sk-test"]> ∅;
     chat_completions_create := fun _ _ => answer;
     json_loads := sample_json_loads |}.

Definition says (content : string) : res Response :=
  Ret {| choices := [Some content] |}.

(** The package is installed and the credential is not set. *)
Definition no_credential : Summarizer.Env :=
  {| OpenAI_imported := true;
     environ := ∅;
     chat_completions_create := fun _ _ => says "ok";
     json_loads := sample_json_loads |}.

(** Neither the package nor the credential is there. *)
Definition no_package : Summarizer.Env :=
  {| OpenAI_imported := false;
     environ := ∅;
     chat_completions_create := fun _ _ => says "ok";
     json_loads := sample_json_loads |}.

Definition quiet : State := {| network := []; stdout := [] |}.

Definition hello : list Segment :=
  [{| seg_start := 0; seg_end := 19 # 2; seg_text := "hello world" |}].

Import Transcription.

(** A Whisper that hears two segments, and one whose result has no
    [segments] entry. *)
Definition heard : WhisperResult :=
  {| result_text := " hello world. goodbye ";
     result_segments :=
       Some [ {| raw_start := 0; raw_end := 19 # 10; raw_text := " hello world." |};
              {| raw_start := 19 # 10; raw_end := 3; raw_text := " goodbye " |} ] |}.

Definition whisper : Transcription.Env :=
  {| whisper_imported := true;
     load_model := fun size => Ret {| model_name := size |};
     transcribe := fun _ _ _ => Ret heard |}.

Definition tape : gset string := {["/tmp/tmpk3v9.mp3"]}.

(** [json.loads] on four more answers. *)
Definition doc_list : string := "[1, 2]".
Definition doc_full : string :=
  "{" +:+ dq +:+ "main_purpose" +:+ dq +:+ ": " +:+ dq +:+ "Why" +:+ dq +:+ ", "
      +:+ dq +:+ "structured_summary" +:+ dq +:+ ": " +:+ dq +:+ "How" +:+ dq +:+ ", "
      +:+ dq +:+ "key_insights" +:+ dq +:+ ": [" +:+ dq +:+ "one" +:+ dq +:+ "], "
      +:+ dq +:+ "topic" +:+ dq +:+ ": " +:+ dq +:+ "ai" +:+ dq +:+ "}".
Definition doc_null_only : string :=
  "{" +:+ dq +:+ "main_purpose" +:+ dq +:+ ": null}".

Definition more_json_loads (doc : string) : res value :=
  if String.eqb doc doc_list then Ret (VList [VInt 1; VInt 2])
  else if String.eqb doc doc_full then
    Ret (VDict (<["main_purpose" := VStr "Why"]>
                 (<["structured_summary" := VStr "How"]>
                   (<["key_insights" := VList [VStr "one"]]>
                     (<["topic" := VStr "ai"]> ∅)))))
  else if String.eqb doc doc_null_only then
    Ret (VDict (<["main_purpose" := VNone]> ∅))
  else Raise (JSONDecodeError "Expecting value" doc 0).

Definition service_more (answer : res Response) : Summarizer.Env :=
  {| OpenAI_imported := true;
     environ := <["OPENAI_API_KEY" := "sk-test"]> ∅;
     chat_completions_create := fun _ _ => answer;
     json_loads := more_json_loads |}.

(** The same ten-second video with an audio track: the writer fills the
    file it is given. *)
Definition studio_with_audio : VideoProcessor.Env :=
  {| VideoFileClip_imported := true;
     VideoFileClip := VideoFileClip studio;
     write_audiofile := fun _ path fs => (Ret tt, {[path]} ∪ fs);
     get_frame := get_frame studio;
     close := fun _ => Ret tt;
     abspath := fun p => p;
     mkstemp_name := mkstemp_name studio;
     mkdtemp := mkdtemp studio;
     makedirs := makedirs studio;
     Image_fromarray := Image_fromarray studio;
     save_png := save_png studio |}.

(** A downloader that fails, and one that leaves two files behind. *)
Definition failing_downloader (message : string) : App.DownloadEnv :=
  {| App.yt_dlp_imported := true;
     App.tempfile_mkdtemp := fun fs => (Ret "/tmp/tmpdl", {["/tmp/tmpdl"]} ∪ fs);
     App.YoutubeDL_download := fun _ _ => raise (OtherException "DownloadError" message);
     App.os_listdir := fun _ => ret [];
     App.os_path_isfile := fun _ _ => true |}.

Definition downloader (names : list string) : App.DownloadEnv :=
  {| App.yt_dlp_imported := true;
     App.tempfile_mkdtemp := fun fs => (Ret "/tmp/tmpdl", {["/tmp/tmpdl"]} ∪ fs);
     App.YoutubeDL_download := fun _ _ => ret tt;
     App.os_listdir := fun _ => ret names;
     App.os_path_isfile := fun _ _ => true |}.

(** An answer whose highlights are objects, and one whose highlights are
    plain strings. *)
Definition doc_highlights : string :=
  "{" +:+ dq +:+ "timestamped_highlights" +:+ dq +:+ ": [{" +:+ dq +:+ "timestamp"
      +:+ dq +:+ ": 2}, {" +:+ dq +:+ "title" +:+ dq +:+ ": " +:+ dq +:+ "end"
      +:+ dq +:+ "}, {" +:+ dq +:+ "timestamp" +:+ dq +:+ ": " +:+ dq +:+ "4.5"
      +:+ dq +:+ "}]}".

Definition doc_plain_highlights : string :=
  "{" +:+ dq +:+ "timestamped_highlights" +:+ dq +:+ ": [" +:+ dq
      +:+ "0:30 introduction" +:+ dq +:+ "]}".

Definition highlights_json_loads (doc : string) : res value :=
  if String.eqb doc doc_highlights then
    Ret (VDict (<["timestamped_highlights" :=
                   VList [VDict (<["timestamp" := VInt 2]> ∅);
                          VDict (<["title" := VStr "end"]> ∅);
                          VDict (<["timestamp" := VStr "4.5"]> ∅)]]> ∅))
  else if String.eqb doc doc_plain_highlights then
    Ret (VDict (<["timestamped_highlights" := VList [VStr "0:30 introduction"]]> ∅))
  else Raise (JSONDecodeError "Expecting value" doc 0).

Definition analyst (E : Summarizer.Env) (answer : string) : Summarizer.Env :=
  {| OpenAI_imported := OpenAI_imported E;
     environ := environ E;
     chat_completions_create := fun _ _ => says answer;
     json_loads := highlights_json_loads |}.

Definition no_whisper : Transcription.Env :=
  {| Transcription.whisper_imported := false;
     Transcription.load_model := Transcription.load_model whisper;
     Transcription.transcribe := Transcription.transcribe whisper |}.

(** The libraries of a run. *)
Definition crew (whisper : Transcription.Env) (llm : Summarizer.Env)
  : App.Services :=
  {| App.video := studio_with_audio;
     App.whisper := whisper;
     App.llm := llm;
     App.float_of_str := fun s =>
       if String.eqb s "4.5" then Some (Finite (9 # 2))
       else if String.eqb s "inf" then Some (Inf false)
       else None;
     App.float_of_int := fun z => Some (inject_Z z) |}.

Definition start : App.World :=
  {| App.files := disk; App.openai := quiet |}.

(** An answer that is one integer of 4301 digits.  [json.loads] refuses an
    integer of more than 4300 digits with the [ValueError] of the limit on
    integer conversion, not with a [JSONDecodeError]. *)
Fixpoint nines (n : nat) : string :=
  match n with
  | O => EmptyString
  | S k => String "9" (nines k)
  end.

Definition doc_long_number : string := nines 4301.

Definition limited_json_loads (doc : string) : res value :=
  if Spec.all_chars Spec.is_digit doc && (4300 <? String.length doc)%nat then
    Raise (ValueError
      ("Exceeds the limit (4300 digits) for integer string conversion: value has "
       +:+ PyStr.of_Z (Z.of_nat (String.length doc))
       +:+ " digits; use sys.set_int_max_str_digits() to increase the limit"))
  else sample_json_loads doc.

Definition limited_service (answer : res Response) : Summarizer.Env :=
  {| OpenAI_imported := true;
     environ := <["OPENAI_API_KEY" := "sk-test"]> ∅;
     chat_completions_create := fun _ _ => answer;
     json_loads := limited_json_loads |}.

End Samples.

(** * Properties *)

(** ** Timestamps *)

Lemma int_inject_Z (z : Z) : PyNum.int (inject_Z z) = z.
Proof. unfold PyNum.int, inject_Z; simpl. apply Z.quot_1_r. Qed.

Lemma hours_floor (seconds : Q) :
  Transcriber.hours seconds = Qfloor (seconds / 3600).
Proof. unfold Transcriber.hours, PyNum.floordiv. apply int_inject_Z. Qed.

Lemma hours_nonneg (seconds : Q) : (0 <= seconds)%Q -> 0 <= Transcriber.hours seconds.
Proof.
  intros Hs. rewrite hours_floor.
  change 0 with (Qfloor 0). apply Qfloor_resp_le.
  unfold Qdiv. apply Qmult_le_0_compat; [exact Hs | discriminate].
Qed.

(** C7. [format_timestamp(65)] is ["01:05"] and [format_timestamp(5)] is
    ["00:05"]; [format_timestamp_long(3661)] is ["01:01:01"] and
    [format_timestamp_long(65)] is ["01:05"]; for a duration that is not
    negative, [format_timestamp_long] leaves the hour field out exactly when the
    hour component is zero, and writes it in front otherwise. *)
Theorem format_timestamp_long_hour_field :
  Transcriber.format_timestamp 65 = "01:05" /\
  Transcriber.format_timestamp 5 = "00:05" /\
  Transcriber.format_timestamp_long 3661 = "01:01:01" /\
  Transcriber.format_timestamp_long 65 = "01:05" /\
  forall seconds : Q, (0 <= seconds)%Q ->
    let mm_ss := PyStr.fmt_02d (Transcriber.minutes seconds) +:+ ":"
                 +:+ PyStr.fmt_02d (Transcriber.secs seconds) in
    (Transcriber.hours seconds = 0 ->
       Transcriber.format_timestamp_long seconds = mm_ss) /\
    (Transcriber.hours seconds <> 0 ->
       Transcriber.format_timestamp_long seconds
       = PyStr.fmt_02d (Transcriber.hours seconds) +:+ ":" +:+ mm_ss).
Proof.
  repeat split; try (vm_compute; reflexivity).
  - intros Hz. unfold Transcriber.format_timestamp_long.
    rewrite Hz. reflexivity.
  - intros Hnz. unfold Transcriber.format_timestamp_long.
    pose proof (hours_nonneg seconds H) as Hh.
    destruct (Z.ltb_spec 0 (Transcriber.hours seconds)) as [_ | Hle]; [reflexivity | lia].
Qed.

Lemma format_timestamp_long_hour_field_witness :
  (0 <= 7325 # 2)%Q /\
  Transcriber.format_timestamp_long (7325 # 2) = "01:01:02" /\
  Transcriber.format_timestamp_long (119 # 2) = "00:59".
Proof.
  destruct format_timestamp_long_hour_field as (_ & _ & _ & _ & Hlong).
  split; [vm_compute; discriminate |]. split.
  - destruct (Hlong (7325 # 2)) as [_ Hnz]; [vm_compute; discriminate |].
    rewrite Hnz; [vm_compute; reflexivity | vm_compute; discriminate].
  - destruct (Hlong (119 # 2)) as [Hz _]; [vm_compute; discriminate |].
    rewrite Hz; vm_compute; reflexivity.
Defined.

(** ** Strings *)

Section StringFacts.

#[local] Arguments String.append : simpl nomatch.

Lemma str_app_nil_r (s : string) : s +:+ "" = s.
Proof. induction s as [|c s IH]; simpl; [reflexivity | now rewrite IH]. Qed.

Lemma str_app_assoc (a b c : string) : (a +:+ b) +:+ c = a +:+ b +:+ c.
Proof. induction a as [|x a IH]; simpl; [reflexivity | now rewrite IH]. Qed.

Lemma str_app_not_empty (a b : string) (c : ascii) : a +:+ String c b <> "".
Proof. destruct a; simpl; discriminate. Qed.

Lemma lower_app (a b : string) :
  PyStr.lower (a +:+ b) = PyStr.lower a +:+ PyStr.lower b.
Proof. induction a as [|x a IH]; simpl; [reflexivity | now rewrite IH]. Qed.

Lemma is_space_lower (c : ascii) :
  PyStr.is_space (PyStr.lower_char c) = PyStr.is_space c.
Proof. destruct c as [[] [] [] [] [] [] [] []]; reflexivity. Qed.

Lemma no_space_lower (s : string) :
  Spec.no_space (PyStr.lower s) = Spec.no_space s.
Proof.
  induction s as [|c s IH]; simpl; [reflexivity |].
  now rewrite is_space_lower, IH.
Qed.

Lemma no_space_app (a b : string) :
  Spec.no_space (a +:+ b) = Spec.no_space a && Spec.no_space b.
Proof.
  induction a as [|x a IH]; simpl; [reflexivity |].
  rewrite IH. now rewrite andb_assoc.
Qed.

Lemma startswith_spec (p s : string) :
  PyStr.startswith p s = true <-> exists r, s = p +:+ r.
Proof.
  revert s. induction p as [|a p IH]; intros s; simpl.
  - split; [intros _; now exists s | reflexivity].
  - destruct s as [|b s].
    + split; [discriminate | intros [r Hr]; discriminate].
    + destruct (Ascii.eqb_spec a b) as [-> | Hne].
      * rewrite IH. split; intros [r Hr]; exists r; [now rewrite Hr | now injection Hr].
      * split; [discriminate | intros [r Hr]; injection Hr; intros; congruence].
Qed.

Lemma contains_spec (p s : string) :
  PyStr.contains p s = true <-> Spec.occurs_in p s.
Proof.
  unfold Spec.occurs_in. induction s as [|c s IH].
  - simpl. destruct (PyStr.startswith p "") eqn:Hp.
    + apply startswith_spec in Hp as [r Hr].
      split; [intros _; exists "", r; exact Hr | reflexivity].
    + split; [discriminate |].
      intros (a & b & Hab). destruct a; [| discriminate].
      simpl in Hab. assert (PyStr.startswith p "" = true) as Hp'
        by (apply startswith_spec; now exists b).
      congruence.
  - cbn [PyStr.contains]. destruct (PyStr.startswith p (String c s)) eqn:Hp.
    + apply startswith_spec in Hp as [r Hr].
      split; [intros _; exists "", r; exact Hr | reflexivity].
    + rewrite IH. split.
      * intros (a & b & Hab). exists (String c a), b. simpl. now rewrite Hab.
      * intros (a & b & Hab). destruct a as [|x a].
        -- simpl in Hab. assert (PyStr.startswith p (String c s) = true) as Hp'
             by (apply startswith_spec; now exists b).
           congruence.
        -- simpl in Hab. injection Hab as _ Hs. now exists a, b.
Qed.

Lemma lstrip_keeps (a b : string) (c : ascii) :
  PyStr.is_space c = false ->
  exists a', PyStr.lstrip (a +:+ String c b) = a' +:+ String c b.
Proof.
  intros Hc. induction a as [|x a IH]; simpl.
  - rewrite Hc. now exists "".
  - destruct (PyStr.is_space x); [exact IH |].
    now exists (String x a).
Qed.

Lemma rstrip_keeps (a b : string) (c : ascii) :
  PyStr.is_space c = false ->
  exists b', PyStr.rstrip (a +:+ String c b) = a +:+ String c b'.
Proof.
  intros Hc. induction a as [|x a IH]; simpl.
  - rewrite Hc. exists (PyStr.rstrip b). now destruct (PyStr.rstrip b).
  - destruct IH as [b' ->]. exists b'.
    destruct (a +:+ String c b') eqn:E; [| reflexivity].
    now apply str_app_not_empty in E.
Qed.

Lemma last_split (s : string) :
  s <> "" -> exists init l, s = init +:+ String l "".
Proof.
  induction s as [|c s IH]; [congruence | intros _].
  destruct s as [|d s].
  - now exists "", c.
  - destruct IH as (init & l & Hs); [discriminate |].
    exists (String c init), l. simpl. now rewrite Hs.
Qed.

(** Stripping removes white space at the two ends only: a piece without
    white space stays where it is. *)
Lemma strip_keeps (pre mid post : string) :
  mid <> "" -> Spec.no_space mid = true ->
  exists pre' post', PyStr.strip (pre +:+ mid +:+ post) = pre' +:+ mid +:+ post'.
Proof.
  intros Hne Hns. unfold PyStr.strip.
  destruct mid as [|c m]; [congruence |].
  assert (PyStr.is_space c = false) as Hc.
  { simpl in Hns. apply andb_prop in Hns as [Hc _]. now destruct (PyStr.is_space c). }
  destruct (lstrip_keeps pre (m +:+ post) c Hc) as [pre' Hl].
  change (String c m +:+ post) with (String c (m +:+ post)).
  rewrite Hl.
  destruct (last_split (String c m)) as (init & l & Hmid); [discriminate |].
  assert (PyStr.is_space l = false) as Hl'.
  { rewrite Hmid, no_space_app in Hns. apply andb_prop in Hns as [_ Hlast].
    simpl in Hlast. now destruct (PyStr.is_space l). }
  change (String c (m +:+ post)) with (String c m +:+ post).
  rewrite Hmid, str_app_assoc. simpl.
  rewrite <- str_app_assoc.
  destruct (rstrip_keeps (pre' +:+ init) post l Hl') as [post' Hr].
  rewrite Hr. exists pre', post'. rewrite !str_app_assoc. reflexivity.
Qed.

End StringFacts.

(** ** Recognising a YouTube address *)

Lemma youtube_marker_no_space (mid : string) :
  PyStr.lower mid = "youtube.com" \/ PyStr.lower mid = "youtu.be" ->
  mid <> "" /\ Spec.no_space mid = true.
Proof.
  intros H. split.
  - intros ->. destruct H as [H | H]; discriminate H.
  - rewrite <- no_space_lower. destruct H as [-> | ->]; reflexivity.
Qed.

(** C10. [_is_youtube_url] is false for every input that is not a string and
    for the empty string; for a string it is true exactly when the trimmed,
    lower-cased text contains ["youtube.com"] or ["youtu.be"]; so a string
    that holds one of the two markers at any position, in any letter case,
    is recognised. *)
Theorem is_youtube_url_spec :
  (forall v : value, is_str v = false -> App._is_youtube_url v = false) /\
  App._is_youtube_url (VStr "") = false /\
  (forall s : string,
     App._is_youtube_url (VStr s) = true <->
     Spec.occurs_in "youtube.com" (PyStr.lower (PyStr.strip s)) \/
     Spec.occurs_in "youtu.be" (PyStr.lower (PyStr.strip s))) /\
  (forall before mid after : string,
     PyStr.lower mid = "youtube.com" \/ PyStr.lower mid = "youtu.be" ->
     App._is_youtube_url (VStr (before +:+ mid +:+ after)) = true).
Proof.
  assert (forall s : string,
     App._is_youtube_url (VStr s) = true <->
     Spec.occurs_in "youtube.com" (PyStr.lower (PyStr.strip s)) \/
     Spec.occurs_in "youtu.be" (PyStr.lower (PyStr.strip s))) as Hiff.
  { intros s. rewrite <- !contains_spec. destruct s as [|c s].
    - vm_compute. split; [discriminate | intros [H | H]; discriminate H].
    - unfold App._is_youtube_url. cbn [truthy is_str String.eqb negb orb].
      rewrite orb_true_iff. reflexivity. }
  split; [| split; [| split]].
  - intros v Hv. unfold App._is_youtube_url. rewrite Hv.
    now rewrite orb_true_r.
  - reflexivity.
  - exact Hiff.
  - intros before mid after Hmid.
    destruct (youtube_marker_no_space mid Hmid) as [Hne Hns].
    destruct (strip_keeps before mid after Hne Hns) as (pre' & post' & Hstrip).
    apply Hiff. rewrite Hstrip, !lower_app.
    destruct Hmid as [-> | ->]; [left | right];
      now exists (PyStr.lower pre'), (PyStr.lower post').
Qed.

(** ** Supported containers *)

Lemma supported_formats_lower_case (ext : string) :
  ext ∈ VideoProcessor.SUPPORTED_VIDEO_FORMATS -> PyStr.lower ext = ext.
Proof.
  unfold VideoProcessor.SUPPORTED_VIDEO_FORMATS.
  rewrite elem_of_list_to_set, !elem_of_cons, elem_of_nil.
  intros H. repeat (destruct H as [-> | H]; [reflexivity |]). destruct H.
Qed.

(** C8. [is_supported_video] is true for every file name whose dot-suffix,
    compared case-insensitively, is one of the supported extensions, and false
    for every other file name. *)
Theorem is_supported_video_spec (filename : string) :
  (VideoProcessor.is_supported_video filename = true <->
   exists ext, ext ∈ VideoProcessor.SUPPORTED_VIDEO_FORMATS /\
               Spec.same_ignoring_case (VideoProcessor.path_suffix filename) ext) /\
  (VideoProcessor.is_supported_video filename = false <->
   forall ext, ext ∈ VideoProcessor.SUPPORTED_VIDEO_FORMATS ->
               ~ Spec.same_ignoring_case (VideoProcessor.path_suffix filename) ext).
Proof.
  unfold VideoProcessor.is_supported_video, Spec.same_ignoring_case.
  assert (PyStr.lower (VideoProcessor.path_suffix filename)
            ∈ VideoProcessor.SUPPORTED_VIDEO_FORMATS <->
          exists ext, ext ∈ VideoProcessor.SUPPORTED_VIDEO_FORMATS /\
            PyStr.lower (VideoProcessor.path_suffix filename) = PyStr.lower ext)
    as Hiff.
  { split.
    - intros Hin. eexists. split; [exact Hin |].
      symmetry. now apply supported_formats_lower_case.
    - intros (ext & Hin & Heq). rewrite Heq.
      now rewrite (supported_formats_lower_case ext Hin). }
  split.
  - now rewrite bool_decide_eq_true.
  - rewrite bool_decide_eq_false, Hiff. split.
    + intros Hno ext Hin Heq. apply Hno. now exists ext.
    + intros Hall (ext & Hin & Heq). exact (Hall ext Hin Heq).
Qed.

Example is_supported_video_examples :
  VideoProcessor.is_supported_video "/tmp/upload/Lecture.MP4" = true /\
  VideoProcessor.is_supported_video "talk.final.MkV" = true /\
  VideoProcessor.is_supported_video "notes.txt" = false /\
  VideoProcessor.is_supported_video "mp4" = false /\
  VideoProcessor.is_supported_video ".mp4" = false.
Proof. vm_compute. repeat split. Qed.

(** ** Video metadata *)

Section VideoFacts.

Import VideoProcessor.

Variable E : VideoProcessor.Env.

Lemma os_path_exists_true (p : string) (fs : gset string) :
  p ∈ fs -> os_path_exists p fs = (Ret true, fs).
Proof. intros H. unfold os_path_exists. now rewrite bool_decide_eq_true_2. Qed.

Lemma os_path_exists_false (p : string) (fs : gset string) :
  p ∉ fs -> os_path_exists p fs = (Ret false, fs).
Proof. intros H. unfold os_path_exists. now rewrite bool_decide_eq_false_2. Qed.

(** The two metadata readers have the same shape: two guards, then a [try]
    whose handler returns the fallback. *)
Lemma get_video_info_cases (p : string) (fs : gset string) :
  get_video_info E p fs =
  (Ret (if VideoFileClip_imported E && bool_decide (p ∈ fs) then
          match VideoFileClip E p with
          | Ret clip =>
              match close E clip with
              | Ret _ =>
                  <["duration" := duration clip]> (<["fps" := fps clip]>
                    (<["width" := inject_Z (w clip)]>
                      (<["height" := inject_Z (h clip)]> ∅)))
              | Raise _ => zero_info
              end
          | Raise _ => zero_info
          end
        else zero_info), fs).
Proof.
  unfold get_video_info. destruct (VideoFileClip_imported E); [| reflexivity].
  unfold bind at 1, os_path_exists. cbn [negb andb].
  destruct (bool_decide (p ∈ fs)); [| reflexivity].
  cbn [negb]. unfold try_except, bind, lift, ret.
  destruct (VideoFileClip E p) as [clip | e]; [| reflexivity].
  destruct (close E clip) as [[] | e]; reflexivity.
Qed.

Lemma get_video_duration_cases (p : string) (fs : gset string) :
  get_video_duration E p fs =
  (Ret (if VideoFileClip_imported E && bool_decide (p ∈ fs) then
          match VideoFileClip E p with
          | Ret clip =>
              match close E clip with
              | Ret _ => duration clip
              | Raise _ => 0%Q
              end
          | Raise _ => 0%Q
          end
        else 0%Q), fs).
Proof.
  unfold get_video_duration. destruct (VideoFileClip_imported E); [| reflexivity].
  unfold bind at 1, os_path_exists. cbn [negb andb].
  destruct (bool_decide (p ∈ fs)); [| reflexivity].
  cbn [negb]. unfold try_except, bind, lift, ret.
  destruct (VideoFileClip E p) as [clip | e]; [| reflexivity].
  destruct (close E clip) as [[] | e]; reflexivity.
Qed.

End VideoFacts.

(** C9. For every video path [get_video_info] and [get_video_duration] return
    a value and raise nothing; when MoviePy is not available, the path does
    not exist, or decoding fails (opening or closing the clip raises), the
    first returns the zeroed record and the second returns [0.0]. *)
Theorem video_metadata_never_raises
  (E : VideoProcessor.Env) (video_path : string) (fs : gset string) :
  (exists info, VideoProcessor.get_video_info E video_path fs = (Ret info, fs)) /\
  (exists d, VideoProcessor.get_video_duration E video_path fs = (Ret d, fs)) /\
  (VideoProcessor.VideoFileClip_imported E = false \/
   video_path ∉ fs \/
   (exists e, VideoProcessor.VideoFileClip E video_path = Raise e) \/
   (exists clip e, VideoProcessor.VideoFileClip E video_path = Ret clip /\
                   VideoProcessor.close E clip = Raise e) ->
   VideoProcessor.get_video_info E video_path fs
     = (Ret VideoProcessor.zero_info, fs) /\
   VideoProcessor.get_video_duration E video_path fs = (Ret 0%Q, fs)).
Proof.
  rewrite get_video_info_cases, get_video_duration_cases.
  split; [eauto | split; [eauto |]].
  intros [Himp | [Hex | [[e He] | (clip & e & Hopen & Hclose)]]].
  - rewrite Himp. split; reflexivity.
  - rewrite (bool_decide_eq_false_2 _ Hex), andb_false_r. split; reflexivity.
  - rewrite He. split; destruct (_ && _); reflexivity.
  - rewrite Hopen, Hclose. split; destruct (_ && _); reflexivity.
Qed.

(** ** Audio extraction *)

(** C6. For every existing video path, when the decode-and-write step of
    [extract_audio] fails with [e], the temporary output file is removed and
    then [RuntimeError("Failed to extract audio: " + str(e))] is raised: the
    temporary file is not among the files left behind. *)
Theorem extract_audio_removes_partial_output
  (E : VideoProcessor.Env) (video_path output_format audio_path : string)
  (fs fs2 : gset string) (e : exn) :
  VideoProcessor.VideoFileClip_imported E = true ->
  video_path ∈ fs ->
  VideoProcessor.mkstemp_name E ("." +:+ output_format) fs = Ret audio_path ->
  VideoProcessor.extract_audio_try E (VideoProcessor.abspath E video_path)
    audio_path ({[audio_path]} ∪ fs) = (Raise e, fs2) ->
  exists fs',
    VideoProcessor.extract_audio E video_path output_format fs
    = (Raise (RuntimeError ("Failed to extract audio: " +:+ str e) e), fs') /\
    fs' = fs2 ∖ {[audio_path]} /\
    audio_path ∉ fs'.
Proof.
  intros Himp Hex Htmp Htry.
  exists (fs2 ∖ {[audio_path]}). split; [| split; [reflexivity |]].
  2: { intros [_ Hn]%elem_of_difference. apply Hn. now apply elem_of_singleton. }
  unfold VideoProcessor.extract_audio. rewrite Himp. cbn [negb].
  unfold bind at 1. rewrite (os_path_exists_true _ _ Hex). cbn [negb].
  unfold bind at 1, VideoProcessor.NamedTemporaryFile. rewrite Htmp.
  unfold try_except. rewrite Htry.
  unfold bind, VideoProcessor.os_path_exists, VideoProcessor.os_unlink, ret, raise.
  destruct (decide (audio_path ∈ fs2)) as [Hin | Hout].
  - rewrite !(bool_decide_eq_true_2 _ Hin). reflexivity.
  - rewrite !(bool_decide_eq_false_2 _ Hout). do 2 f_equal.
    symmetry. apply difference_disjoint_L. now apply disjoint_singleton_r.
Qed.

Lemma extract_audio_removes_partial_output_witness :
  exists fs',
    VideoProcessor.extract_audio Samples.studio "/videos/talk.mp4" "mp3" Samples.disk
    = (Raise (RuntimeError
         "Failed to extract audio: 'NoneType' object has no attribute 'write_audiofile'"
         (AttributeError "'NoneType' object has no attribute 'write_audiofile'")),
       fs') /\
    fs' = ({["/tmp/tmpk3v9.mp3"]} ∪ Samples.disk) ∖ {["/tmp/tmpk3v9.mp3"]} /\
    "/tmp/tmpk3v9.mp3" ∉ fs'.
Proof.
  apply (extract_audio_removes_partial_output Samples.studio "/videos/talk.mp4"
           "mp3" "/tmp/tmpk3v9.mp3" Samples.disk
           ({["/tmp/tmpk3v9.mp3"]} ∪ Samples.disk)
           (AttributeError "'NoneType' object has no attribute 'write_audiofile'")).
  - reflexivity.
  - unfold Samples.disk. set_solver.
  - reflexivity.
  - reflexivity.
Defined.

(** ** Key frames *)






(** A timestamp that is not above zero (a negative one, NaN) is asked of the
    decoder at the time the timestamp [0] is. *)
Lemma clamp_timestamp_below (ts : float) (d : Q) :
  float_lt (Finite 0) ts = false ->
  VideoProcessor.clamp_timestamp ts d
  = VideoProcessor.clamp_timestamp (Finite 0) d.
Proof.
  intros Hlow. unfold VideoProcessor.clamp_timestamp, float_max.
  rewrite Hlow. reflexivity.
Qed.

Section CaptureFacts.

Import VideoProcessor.

Variable E : VideoProcessor.Env.
Variable video_path : string.

(** One capture, case by case: it returns, and leaves the files alone. *)
Lemma capture_frame_cases (ts : float) (fs : gset string) :
  capture_frame_at_timestamp E video_path ts fs =
  (Ret (if VideoFileClip_imported E && bool_decide (video_path ∈ fs) then
          match VideoFileClip E video_path with
          | Ret clip =>
              match get_frame E clip (clamp_timestamp ts (duration clip)) with
              | Ret f =>
                  match close E clip with
                  | Ret _ => Some f
                  | Raise _ => None
                  end
              | Raise _ => None
              end
          | Raise _ => None
          end
        else None), fs).
Proof.
  unfold capture_frame_at_timestamp.
  destruct (VideoFileClip_imported E); [| reflexivity].
  unfold bind at 1, os_path_exists. cbn [negb andb].
  destruct (bool_decide (video_path ∈ fs)); [| reflexivity].
  cbn [negb]. unfold try_except, bind, lift, ret.
  destruct (VideoFileClip E video_path) as [clip | e]; [| reflexivity].
  destruct (get_frame E clip _) as [f | e]; [| reflexivity].
  destruct (close E clip) as [[] | e]; reflexivity.
Qed.

Lemma captured_Some (ts : float) (fs : gset string) :
  exists o, capture_frame_at_timestamp E video_path ts fs = (Ret o, fs) /\
            Spec.captured E video_path fs ts = bool_decide (is_Some o).
Proof.
  unfold Spec.captured. rewrite capture_frame_cases.
  eexists. split; [reflexivity |].
  destruct (if _ && _ then _ else _); reflexivity.
Qed.

(** A capture looks at the files only to see that the video is there. *)
Lemma captured_same_video (ts : float) (fs1 fs2 : gset string) :
  video_path ∈ fs1 -> video_path ∈ fs2 ->
  Spec.captured E video_path fs1 ts = Spec.captured E video_path fs2 ts.
Proof.
  intros H1 H2. unfold Spec.captured. rewrite !capture_frame_cases.
  now rewrite (bool_decide_eq_true_2 _ H1), (bool_decide_eq_true_2 _ H2).
Qed.


Hypothesis fromarray_returns : forall f, exists img, Image_fromarray E f = Ret img.
Hypothesis save_adds : forall img path, Spec.only_adds_files (save_png E img path).


(** The first captured timestamp that is not finite ends the loop:
    [int(ts)] raises after the capture, outside any [try]. *)
Lemma capture_loop_not_finite (output_dir : string) (fs0 : gset string)
  (before after : list float) (ts : float) :
  video_path ∈ fs0 ->
  Forall (fun ts => Spec.captured E video_path fs0 ts = true -> is_finite ts = true)
    before ->
  Spec.captured E video_path fs0 ts = true ->
  is_finite ts = false ->
  forall (i : nat) (results : list (float * string)) (fs : gset string),
    video_path ∈ fs ->
    exists e fs',
      capture_loop E video_path output_dir i (before ++ ts :: after) results fs
      = (Raise e, fs') /\
      int_float ts = Raise e.
Proof.
  intros H0 Hfin Hts Hinf.
  induction before as [|t rest IH]; intros i results fs Hin.
  - cbn [app capture_loop].
    destruct (captured_Some ts fs) as (o & Hcap & Hflag).
    rewrite (captured_same_video ts fs0 fs H0 Hin), Hflag in Hts.
    unfold bind at 1. rewrite Hcap.
    destruct o as [f |]; [| discriminate Hts].
    destruct (fromarray_returns f) as [img Himg].
    unfold bind at 1, lift. rewrite Himg. unfold bind at 1.
    destruct ts as [q | negative |]; [discriminate Hinf | |];
      eexists _, fs; split; reflexivity.
  - apply Forall_cons in Hfin as [Ht Hrest].
    cbn [app capture_loop].
    destruct (captured_Some t fs) as (o & Hcap & Hflag).
    rewrite (captured_same_video t fs0 fs H0 Hin), Hflag in Ht.
    unfold bind at 1. rewrite Hcap.
    destruct o as [f |].
    + destruct (fromarray_returns f) as [img Himg].
      unfold bind at 1, lift. rewrite Himg.
      destruct t as [q | |]; try (discriminate Ht; apply bool_decide_eq_true_2; eauto).
      unfold bind at 1. cbn [int_float].
      destruct (save_adds img (os_path_join output_dir (frame_name i (PyNum.int q))) fs)
        as (u & fs1 & Hsave & Hsub).
      unfold bind at 1. rewrite Hsave.
      apply (IH Hrest). set_solver.
    + apply (IH Hrest). exact Hin.
Qed.

Hypothesis mkdtemp_adds : Spec.only_adds_files (mkdtemp E).
Hypothesis makedirs_adds : forall d, Spec.only_adds_files (makedirs E d).

Lemma capture_directory (output_dir : option string) (fs : gset string) :
  video_path ∈ fs ->
  exists d fs1 fs2,
    match output_dir with Some d => ret d | None => mkdtemp E end fs = (Ret d, fs1) /\
    makedirs E d fs1 = (Ret tt, fs2) /\
    video_path ∈ fs2.
Proof.
  intros Hin.
  assert (exists d fs1,
            match output_dir with Some d => ret d | None => mkdtemp E end fs
            = (Ret d, fs1) /\ fs ⊆ fs1) as (d & fs1 & Hdir & Hsub1).
  { destruct output_dir as [d |].
    - exists d, fs. split; [reflexivity | set_solver].
    - destruct (mkdtemp_adds fs) as (d & fs1 & Hmk & Hsub). now exists d, fs1. }
  destruct (makedirs_adds d fs1) as ([] & fs2 & Hmk & Hsub2).
  exists d, fs1, fs2. split; [exact Hdir | split; [exact Hmk | set_solver]].
Qed.


Lemma capture_key_frames_raises (before after : list float) (ts : float)
  (output_dir : option string) (fs : gset string) :
  video_path ∈ fs ->
  Forall (fun ts => Spec.captured E video_path fs ts = true -> is_finite ts = true)
    before ->
  Spec.captured E video_path fs ts = true ->
  is_finite ts = false ->
  exists e fs',
    capture_key_frames E video_path (before ++ ts :: after) output_dir fs
    = (Raise e, fs') /\
    int_float ts = Raise e.
Proof.
  intros Hin Hfin Hts Hinf. unfold capture_key_frames.
  destruct (capture_directory output_dir fs Hin) as (d & fs1 & fs2 & Hdir & Hmk & Hin2).
  unfold bind at 1. rewrite Hdir. unfold bind at 1. rewrite Hmk.
  apply (capture_loop_not_finite d fs before after ts Hin Hfin Hts Hinf 0%nat [] fs2 Hin2).
Qed.

End CaptureFacts.



Lemma studio_only_adds (decoder : VideoProcessor.Clip -> float -> res VideoProcessor.Frame) :
  (forall f, exists img,
     VideoProcessor.Image_fromarray (Samples.studio_with decoder) f = Ret img) /\
  (forall img path,
     Spec.only_adds_files (VideoProcessor.save_png (Samples.studio_with decoder) img path)) /\
  Spec.only_adds_files (VideoProcessor.mkdtemp (Samples.studio_with decoder)) /\
  (forall d, Spec.only_adds_files (VideoProcessor.makedirs (Samples.studio_with decoder) d)) /\
  "/videos/talk.mp4" ∈ Samples.disk.
Proof.
  assert (forall A (a : A) (f : gset string -> gset string),
            (forall fs, fs ⊆ f fs) ->
            Spec.only_adds_files (fun fs => (Ret a, f fs))) as Hadds.
  { intros A a f Hf fs. exists a, (f fs). split; [reflexivity | apply Hf]. }
  split; [| split; [| split; [| split]]].
  - intros f. now exists {| VideoProcessor.pixels := f |}.
  - intros img path. apply (Hadds unit tt (fun fs => {[path]} ∪ fs)). set_solver.
  - apply (Hadds string "/tmp/tmpframes" (fun fs => {["/tmp/tmpframes"]} ∪ fs)).
    set_solver.
  - intros d. apply (Hadds unit tt (fun fs => {[d]} ∪ fs)). set_solver.
  - unfold Samples.disk. set_solver.
Qed.



(** ** The chat-completion client *)

Section ClientFacts.

Import Summarizer.

Variable E : Summarizer.Env.

Lemma get_client_configured (key : string) (st : State) :
  OpenAI_imported E = true ->
  environ E !! "OPENAI_API_KEY" = Some key ->
  key <> "" ->
  _get_client E st = (Ret {| api_key := key |}, st).
Proof.
  intros Himp Hkey Hne. unfold _get_client. rewrite Himp, Hkey. cbn [negb].
  now destruct (String.eqb_spec key "").
Qed.

Lemma get_client_missing_credential (st : State) :
  OpenAI_imported E = true ->
  environ E !! "OPENAI_API_KEY" = None \/ environ E !! "OPENAI_API_KEY" = Some "" ->
  _get_client E st
  = (Raise (ValueError
       "OPENAI_API_KEY environment variable is not set. Please set it with your OpenAI API key."),
     st).
Proof.
  intros Himp [Hkey | Hkey]; unfold _get_client; rewrite Himp, Hkey; reflexivity.
Qed.

(** Without the package the credential is not looked at. *)
Lemma get_client_missing_package (st : State) :
  OpenAI_imported E = false ->
  _get_client E st
  = (Raise (ImportError "OpenAI package is required. Install with: pip install openai"),
     st) /\
  (forall transcription segments model,
     summarize_transcription E transcription segments model st
     = (Raise (ImportError
          "OpenAI package is required. Install with: pip install openai"), st)) /\
  (forall raw_transcription model,
     refine_transcription E raw_transcription model st
     = (Raise (ImportError
          "OpenAI package is required. Install with: pip install openai"), st)).
Proof.
  intros Himp.
  assert (_get_client E st
          = (Raise (ImportError
               "OpenAI package is required. Install with: pip install openai"), st))
    as Hclient.
  { unfold _get_client. now rewrite Himp. }
  split; [exact Hclient | split].
  - intros transcription segments model.
    unfold summarize_transcription. unfold bind at 1. now rewrite Hclient.
  - intros raw_transcription model.
    unfold refine_transcription. unfold bind at 1. now rewrite Hclient.
Qed.

End ClientFacts.

(** C5, as the code has it.  When the [openai] package is importable and
    [OPENAI_API_KEY] is unset or empty, [summarize_transcription] and
    [refine_transcription] both raise the [ValueError] that names the
    variable, and the log of requests to the chat-completion service is as it
    was: the failure comes before any network call. *)
Theorem missing_credential_fails_before_any_call
  (E : Summarizer.Env) (st : Summarizer.State) :
  Summarizer.OpenAI_imported E = true ->
  Summarizer.environ E !! "OPENAI_API_KEY" = None \/
  Summarizer.environ E !! "OPENAI_API_KEY" = Some "" ->
  let missing :=
    ValueError
      "OPENAI_API_KEY environment variable is not set. Please set it with your OpenAI API key." in
  (forall transcription segments model,
     Summarizer.summarize_transcription E transcription segments model st
     = (Raise missing, st)) /\
  (forall raw_transcription model,
     Summarizer.refine_transcription E raw_transcription model st
     = (Raise missing, st)).
Proof.
  intros Himp Hkey missing. split; intros.
  - unfold Summarizer.summarize_transcription, bind.
    now rewrite (get_client_missing_credential E st Himp Hkey).
  - unfold Summarizer.refine_transcription, bind.
    now rewrite (get_client_missing_credential E st Himp Hkey).
Qed.

Lemma missing_credential_fails_before_any_call_witness :
  Summarizer.summarize_transcription Samples.no_credential "hello world"
    Samples.hello "gpt-4o-mini" Samples.quiet
  = (Raise (ValueError
       "OPENAI_API_KEY environment variable is not set. Please set it with your OpenAI API key."),
     Samples.quiet) /\
  Summarizer.network
    (snd (Summarizer.refine_transcription Samples.no_credential "hello world"
            "gpt-4o-mini" Samples.quiet)) = [].
Proof.
  destruct (missing_credential_fails_before_any_call Samples.no_credential
              Samples.quiet) as [Hsum Href].
  - reflexivity.
  - left. reflexivity.
  - split; [apply Hsum | now rewrite Href].
Defined.

(** C5, as stated, fails: with the credential unset and the [openai] package
    not installed, both operations raise the [ImportError] about the package,
    which says nothing of the credential. *)
Lemma missing_credential_without_package_counterexample :
  Summarizer.environ Samples.no_package !! "OPENAI_API_KEY" = None /\
  Summarizer.summarize_transcription Samples.no_package "hello world"
    Samples.hello "gpt-4o-mini" Samples.quiet
  = (Raise (ImportError "OpenAI package is required. Install with: pip install openai"),
     Samples.quiet) /\
  Summarizer.refine_transcription Samples.no_package "hello world" "gpt-4o-mini"
    Samples.quiet
  = (Raise (ImportError "OpenAI package is required. Install with: pip install openai"),
     Samples.quiet).
Proof. repeat split. Qed.

(** ** Refinement *)




(** ** Analysis *)

Lemma split_go_nonempty (sep : string) (s : string) :
  forall (skip : nat) (cur : string),
    exists piece rest, PyStr.split_go sep skip cur s = piece :: rest.
Proof.
  induction s as [|c s IH]; intros skip cur; simpl.
  - now exists cur, [].
  - destruct skip as [|k]; [| apply IH].
    destruct (PyStr.startswith sep (String c s)); [| apply IH].
    now exists cur, (PyStr.split_go sep (String.length sep - 1) "" s).
Qed.

(** A text that starts with the fence splits into at least two pieces, so
    the index [[1]] is always there. *)
Lemma split_fence_second (content : string) :
  PyStr.startswith "```" content = true ->
  exists piece, PyStr.split "```" content !! 1%nat = Some piece.
Proof.
  intros Hpre. destruct content as [|c content]; [discriminate |].
  unfold PyStr.split. cbn [PyStr.split_go]. rewrite Hpre.
  destruct (split_go_nonempty "```" content (String.length "```" - 1) "")
    as (piece & rest & ->).
  now exists piece.
Qed.

Lemma strip_code_fence_unfenced (content : string) (st : Summarizer.State) :
  Summarizer.strip_code_fence content st = (Ret (Spec.unfenced content), st).
Proof.
  unfold Summarizer.strip_code_fence, Spec.unfenced.
  destruct (PyStr.startswith "```" content) eqn:Hpre; [| reflexivity].
  destruct (split_fence_second content Hpre) as [piece Hpiece].
  rewrite Hpiece, nth_lookup, Hpiece. reflexivity.
Qed.

Lemma str_JSONDecodeError_not_empty (msg doc : string) (pos : nat) :
  str (JSONDecodeError msg doc pos) <> "".
Proof. unfold str. apply str_app_not_empty. Qed.

Section AnalysisFacts.

Import Summarizer.

Variable E : Summarizer.Env.
Variables (transcription model key : string) (segments : list Segment).
Variable st : State.

Hypothesis imported : OpenAI_imported E = true.
Hypothesis credential : environ E !! "OPENAI_API_KEY" = Some key.
Hypothesis credential_set : key <> "".

Variables (content : string) (others : list (option string)).
Hypothesis answer :
  chat_completions_create E {| api_key := key |}
    (summarize_request transcription segments model)
  = Ret {| choices := Some content :: others |}.

(** What [summarize_transcription] does once the answer is there: parse the
    unfenced text, then the [except] clauses. *)
Lemma summarize_after_answer :
  summarize_transcription E transcription segments model st =
  match json_loads E (Spec.unfenced (PyStr.strip content)) with
  | Ret v =>
      match (result <- as_dict v ;; with_compat (with_defaults result))
              (Spec.after_request st (summarize_request transcription segments model))
      with
      | (Ret r, s) => (Ret r, s)
      | (Raise (JSONDecodeError m d p), s) =>
          (Ret (parse_failure (JSONDecodeError m d p)), s)
      | (Raise e, s) => (Raise (RuntimeError ("OpenAI API error: " +:+ str e) e), s)
      end
  | Raise (JSONDecodeError m d p) =>
      (Ret (parse_failure (JSONDecodeError m d p)),
       Spec.after_request st (summarize_request transcription segments model))
  | Raise e =>
      (Raise (RuntimeError ("OpenAI API error: " +:+ str e) e),
       Spec.after_request st (summarize_request transcription segments model))
  end.
Proof.
  unfold summarize_transcription. unfold bind at 1.
  rewrite (get_client_configured E key st imported credential credential_set).
  unfold try_except. unfold bind at 1. unfold create. rewrite answer.
  fold (Spec.after_request st (summarize_request transcription segments model)).
  unfold bind at 1. cbn [first_content_stripped choices]. unfold ret at 1.
  unfold bind at 1. rewrite strip_code_fence_unfenced.
  unfold bind at 1, lift.
  destruct (json_loads E _) as [v | e].
  - destruct ((result <- as_dict v ;; with_compat (with_defaults result)) _)
      as [[r | e] s]; [reflexivity |].
    destruct e; reflexivity.
  - destruct e; reflexivity.
Qed.

End AnalysisFacts.

Lemma lookup_setdefault (k k' : string) (v : value) (d : gmap string value) :
  Summarizer.setdefault k v d !! k'
  = if decide (k = k') then Some (default v (d !! k)) else d !! k'.
Proof.
  unfold Summarizer.setdefault. destruct (d !! k) as [x |] eqn:Hk.
  - case_decide; [now subst | reflexivity].
  - rewrite lookup_insert. case_decide; reflexivity.
Qed.

Lemma with_defaults_expected (d : gmap string value) (k : string) (dflt : value) :
  (k, dflt) ∈ Spec.expected_keys ->
  Summarizer.with_defaults d !! k = Some (default dflt (d !! k)).
Proof.
  unfold Spec.expected_keys. rewrite !elem_of_cons, elem_of_nil.
  unfold Summarizer.with_defaults.
  intros H. repeat (destruct H as [[= -> ->] | H]); [.. | destruct H];
    rewrite !lookup_setdefault; repeat (case_decide; [discriminate || reflexivity |]);
    try reflexivity; simplify_eq.
Qed.

(** The compatibility step leaves the state and the other keys alone. *)
Lemma with_compat_keeps (r r' : gmap string value) (st s : Summarizer.State) :
  Summarizer.with_compat r st = (Ret r', s) ->
  s = st /\
  forall k, k <> "summary" -> k <> "key_points" -> r' !! k = r !! k.
Proof.
  unfold Summarizer.with_compat, bind, Summarizer.getitem, Summarizer.add, ret, raise.
  intros Hrun. repeat (case_match; simplify_eq); split; auto; intros k Hk1 Hk2;
    rewrite ?lookup_insert_ne by congruence; reflexivity.
Qed.

(** It raises nothing that the [except json.JSONDecodeError] clause takes. *)
Lemma with_compat_raises (r : gmap string value) (st s : Summarizer.State) (e : exn) :
  Summarizer.with_compat r st = (Raise e, s) ->
  forall m d p, e <> JSONDecodeError m d p.
Proof.
  unfold Summarizer.with_compat, bind, Summarizer.getitem, Summarizer.add, ret, raise.
  intros Hrun. repeat (case_match; simplify_eq); discriminate.
Qed.

(** It returns when [summary] is given or can be put together. *)
Lemma with_compat_returns (r : gmap string value) (st : Summarizer.State) :
  is_Some (r !! "key_insights") ->
  (is_Some (r !! "summary") \/
   exists a b, r !! "main_purpose" = Some (VStr a) /\
               r !! "structured_summary" = Some (VStr b)) ->
  exists r', Summarizer.with_compat r st = (Ret r', st).
Proof.
  intros [ki Hki] Hsum.
  unfold Summarizer.with_compat, bind, Summarizer.getitem, Summarizer.add, ret, raise.
  destruct Hsum as [[x Hx] | (a & b & Ha & Hb)].
  - rewrite Hx. destruct (r !! "key_points"); [eauto |]. rewrite Hki. eauto.
  - destruct (r !! "summary") as [x |] eqn:Hx.
    + destruct (r !! "key_points"); [eauto |]. rewrite Hki. eauto.
    + rewrite Ha, Hb.
      rewrite !lookup_insert_ne by discriminate.
      destruct (r !! "key_points"); [eauto |]. rewrite Hki. eauto.
Qed.

(** C2, as the code has it.  For every answer of the model whose text,
    trimmed and without its code fence, [json.loads] refuses with the
    exception [e].  When [e] is a [JSONDecodeError], [summarize_transcription]
    raises nothing and returns the degraded result: [keywords] is the empty
    list, the insight list [key_points] is the empty list, there is no
    [key_insights] entry (so that a reader with the empty default gets the
    empty list), and [_parse_error] is the text of [e], which is not empty.
    When [e] is any other exception ([json.loads] raises [ValueError] for an
    integer beyond the digit limit and [RecursionError] for deep nesting),
    nothing is recovered: [e] is raised again as
    [RuntimeError("OpenAI API error: " + str(e))]. *)
Theorem summarize_transcription_parse_failure
  (E : Summarizer.Env) (transcription model key content : string)
  (segments : list Summarizer.Segment) (others : list (option string))
  (st : Summarizer.State) (e : exn) :
  Summarizer.OpenAI_imported E = true ->
  Summarizer.environ E !! "OPENAI_API_KEY" = Some key ->
  key <> "" ->
  Summarizer.chat_completions_create E {| Summarizer.api_key := key |}
    (Summarizer.summarize_request transcription segments model)
  = Ret {| Summarizer.choices := Some content :: others |} ->
  Summarizer.json_loads E (Spec.unfenced (PyStr.strip content)) = Raise e ->
  ((exists msg doc pos, e = JSONDecodeError msg doc pos) ->
   exists result,
     Summarizer.summarize_transcription E transcription segments model st
     = (Ret result,
        Spec.after_request st
          (Summarizer.summarize_request transcription segments model)) /\
     result !! "keywords" = Some (VList []) /\
     result !! "key_points" = Some (VList []) /\
     result !! "key_insights" = None /\
     result !! "_parse_error" = Some (VStr (str e)) /\
     str e <> "") /\
  ((forall msg doc pos, e <> JSONDecodeError msg doc pos) ->
   Summarizer.summarize_transcription E transcription segments model st
   = (Raise (RuntimeError ("OpenAI API error: " +:+ str e) e),
      Spec.after_request st
        (Summarizer.summarize_request transcription segments model))).
Proof.
  intros Himp Hkey Hne Hanswer Hparse.
  rewrite (summarize_after_answer E transcription model key segments st
             Himp Hkey Hne content others Hanswer), Hparse.
  split.
  - intros (msg & doc & pos & ->).
    eexists. split; [reflexivity |].
    unfold Summarizer.parse_failure.
    repeat split; try reflexivity.
    apply str_JSONDecodeError_not_empty.
  - intros Hother. destruct e; try reflexivity.
    now destruct (Hother msg doc pos).
Qed.

Lemma summarize_transcription_parse_failure_witness :
  exists result,
    fst (Summarizer.summarize_transcription
           (Samples.service (Samples.says Samples.doc_prose))
           "hello world" Samples.hello "gpt-4o-mini" Samples.quiet)
    = Ret result /\
    result !! "keywords" = Some (VList []) /\
    result !! "key_points" = Some (VList []) /\
    result !! "key_insights" = None /\
    result !! "_parse_error"
    = Some (VStr "Expecting value: line 1 column 1 (char 0)").
Proof.
  destruct (summarize_transcription_parse_failure
              (Samples.service (Samples.says Samples.doc_prose))
              "hello world" "gpt-4o-mini" "sk-test" Samples.doc_prose Samples.hello []
              Samples.quiet (JSONDecodeError "Expecting value" Samples.doc_prose 0))
    as [Hjson _]; [reflexivity | reflexivity | discriminate | reflexivity
                  | reflexivity |].
  destruct Hjson as (result & Hrun & Hk & Hp & Hi & He & _); [eauto |].
  exists result. rewrite Hrun.
  split; [reflexivity | split; [exact Hk | split; [exact Hp | split; [exact Hi |]]]].
  exact He.
Defined.

(** C2, as stated, fails: an answer that is one integer of 4301 digits does
    not parse ([json.loads] raises the [ValueError] of the limit on integer
    conversion, which is not a [JSONDecodeError]), and
    [summarize_transcription] raises [RuntimeError] instead of returning the
    degraded result. *)
Lemma summarize_transcription_digit_limit_counterexample :
  Summarizer.json_loads
    (Samples.limited_service (Samples.says Samples.doc_long_number))
    (Spec.unfenced (PyStr.strip Samples.doc_long_number))
  = Raise (ValueError
      "Exceeds the limit (4300 digits) for integer string conversion: value has 4301 digits; use sys.set_int_max_str_digits() to increase the limit") /\
  fst (Summarizer.summarize_transcription
         (Samples.limited_service (Samples.says Samples.doc_long_number))
         "hello world" Samples.hello "gpt-4o-mini" Samples.quiet)
  = Raise (RuntimeError
      "OpenAI API error: Exceeds the limit (4300 digits) for integer string conversion: value has 4301 digits; use sys.set_int_max_str_digits() to increase the limit"
      (ValueError
         "Exceeds the limit (4300 digits) for integer string conversion: value has 4301 digits; use sys.set_int_max_str_digits() to increase the limit")).
Proof. split; vm_compute; reflexivity. Qed.

Example parse_failure_diagnostic :
  str (JSONDecodeError "Expecting value" Samples.doc_prose 0)
  = "Expecting value: line 1 column 1 (char 0)".
Proof. reflexivity. Qed.

(** C4, as the code has it.  For every answer that parses as a JSON object,
    a result returned by [summarize_transcription] binds each of the six
    expected keys: to the parsed value when the object has the key (whatever
    that value is), to the empty string or the empty list when it has not.
    The call returns when the object has a [summary], or when [main_purpose]
    and [structured_summary], after defaulting, are both strings. *)
Theorem summarize_transcription_expected_keys
  (E : Summarizer.Env) (transcription model key content : string)
  (segments : list Summarizer.Segment) (others : list (option string))
  (st : Summarizer.State) (d : gmap string value) :
  Summarizer.OpenAI_imported E = true ->
  Summarizer.environ E !! "OPENAI_API_KEY" = Some key ->
  key <> "" ->
  Summarizer.chat_completions_create E {| Summarizer.api_key := key |}
    (Summarizer.summarize_request transcription segments model)
  = Ret {| Summarizer.choices := Some content :: others |} ->
  Summarizer.json_loads E (Spec.unfenced (PyStr.strip content)) = Ret (VDict d) ->
  (forall result st',
     Summarizer.summarize_transcription E transcription segments model st
     = (Ret result, st') ->
     forall k dflt, (k, dflt) ∈ Spec.expected_keys ->
       result !! k = Some (default dflt (d !! k))) /\
  (is_Some (d !! "summary") \/
   (exists a b, default (VStr "") (d !! "main_purpose") = VStr a /\
                default (VStr "") (d !! "structured_summary") = VStr b) ->
   exists result st',
     Summarizer.summarize_transcription E transcription segments model st
     = (Ret result, st')).
Proof.
  intros Himp Hkey Hne Hanswer Hparse.
  rewrite (summarize_after_answer E transcription model key segments st
             Himp Hkey Hne content others Hanswer), Hparse.
  cbv beta iota delta [bind Summarizer.as_dict ret].
  split.
  - intros result st' Hrun k dflt Hk.
    destruct (Summarizer.with_compat _ _) as [[r | e] s] eqn:Hcompat.
    + injection Hrun as -> ->.
      apply with_compat_keeps in Hcompat as [_ Hkeep].
      rewrite Hkeep.
      * now apply with_defaults_expected.
      * intros ->. revert Hk. unfold Spec.expected_keys.
        rewrite !elem_of_cons, elem_of_nil. intuition discriminate.
      * intros ->. revert Hk. unfold Spec.expected_keys.
        rewrite !elem_of_cons, elem_of_nil. intuition discriminate.
    + pose proof (with_compat_raises _ _ _ _ Hcompat) as Hnot.
      destruct e; try discriminate Hrun. now destruct (Hnot msg doc pos).
  - intros Hsum.
    destruct (with_compat_returns (Summarizer.with_defaults d)
                (Spec.after_request st
                   (Summarizer.summarize_request transcription segments model)))
      as [r Hr].
    + rewrite (with_defaults_expected d "key_insights" (VList [])); [eauto |].
      unfold Spec.expected_keys. rewrite !elem_of_cons. auto.
    + destruct Hsum as [[x Hx] | (a & b & Ha & Hb)].
      * left. unfold Summarizer.with_defaults. rewrite !lookup_setdefault.
        repeat (case_decide; [discriminate |]). eauto.
      * right. exists a, b.
        rewrite (with_defaults_expected d "main_purpose" (VStr "")),
                (with_defaults_expected d "structured_summary" (VStr ""));
          [now rewrite Ha, Hb | |];
          unfold Spec.expected_keys; rewrite !elem_of_cons; auto 10.
    + rewrite Hr. eauto.
Qed.

Lemma summarize_transcription_expected_keys_witness :
  exists result st',
    Summarizer.summarize_transcription
      (Samples.service (Samples.says Samples.doc_keywords))
      "hello world" Samples.hello "gpt-4o-mini" Samples.quiet
    = (Ret result, st') /\
    result !! "keywords" = Some (VList [VStr "ai"]) /\
    result !! "main_purpose" = Some (VStr "") /\
    result !! "timestamped_highlights" = Some (VList []).
Proof.
  destruct (summarize_transcription_expected_keys
              (Samples.service (Samples.says Samples.doc_keywords))
              "hello world" "gpt-4o-mini" "sk-test" Samples.doc_keywords
              Samples.hello [] Samples.quiet
              (<["keywords" := VList [VStr "ai"]]> ∅))
    as [Hkeys Hreturns].
  - reflexivity.
  - reflexivity.
  - discriminate.
  - reflexivity.
  - reflexivity.
  - destruct Hreturns as (result & st' & Hrun).
    + right. exists "", "". split; reflexivity.
    + exists result, st'. split; [exact Hrun |].
      unfold Spec.expected_keys in Hkeys.
      rewrite (Hkeys result st' Hrun "keywords" (VList [])),
              (Hkeys result st' Hrun "main_purpose" (VStr "")),
              (Hkeys result st' Hrun "timestamped_highlights" (VList []));
        [repeat split | | |]; rewrite !elem_of_cons; auto 10.
Defined.

(** C4, as stated, fails: the answer
    [{"main_purpose": null, "summary": "s"}] is a JSON object, the call
    returns, and [main_purpose] is bound to [None] in the result. *)
Lemma summarize_transcription_null_value_counterexample :
  exists result st',
    Summarizer.summarize_transcription
      (Samples.service (Samples.says Samples.doc_null_purpose))
      "hello world" Samples.hello "gpt-4o-mini" Samples.quiet
    = (Ret result, st') /\
    result !! "main_purpose" = Some VNone.
Proof.
  eexists _, _. split; [vm_compute; reflexivity |]. vm_compute. reflexivity.
Qed.

(** ** Worked examples *)

Example split_examples :
  PyStr.split "```" "```json {} ``` tail" = [""; "json {} "; " tail"] /\
  PyStr.split "```" "a```" = ["a"; ""] /\
  PyStr.split "/" "/tmp//clip.mp4" = [""; "tmp"; ""; "clip.mp4"].
Proof. repeat split. Qed.

Example unfenced_example :
  Spec.unfenced
    ("```json" +:+ Summarizer.nl +:+ Samples.doc_keywords +:+ Summarizer.nl +:+ "```")
  = Samples.doc_keywords.
Proof. reflexivity. Qed.

Example clamp_examples :
  VideoProcessor.clamp_timestamp (Finite 100) 10 = Finite (999 # 100) /\
  VideoProcessor.clamp_timestamp (Finite (-3)) 10 = Finite 0 /\
  VideoProcessor.clamp_timestamp (Finite 5) 10 = Finite 5 /\
  VideoProcessor.clamp_timestamp (Inf false) 10 = Finite (999 # 100) /\
  VideoProcessor.clamp_timestamp (Inf true) 10 = Finite 0 /\
  VideoProcessor.clamp_timestamp NaN 10 = Finite 0.
Proof. repeat split. Qed.

Example json_error_text_example :
  let doc := "{" +:+ Summarizer.dq +:+ "a" +:+ Summarizer.dq +:+ ": 1,"
             +:+ Summarizer.nl +:+ " " +:+ Summarizer.dq +:+ "b" +:+ Summarizer.dq
             +:+ ": }" in
  str (JSONDecodeError "Expecting value" doc 15)
  = "Expecting value: line 2 column 7 (char 15)".
Proof. reflexivity. Qed.

Example path_suffix_examples :
  VideoProcessor.path_suffix "/tmp/a.b/clip.MP4" = ".MP4" /\
  VideoProcessor.path_suffix "a/b.mkv/" = ".mkv" /\
  VideoProcessor.path_suffix "x.tar.gz" = ".gz" /\
  VideoProcessor.path_suffix ".mp4" = "" /\
  VideoProcessor.path_suffix "x." = "" /\
  VideoProcessor.path_suffix "a/.." = "".
Proof. repeat split. Qed.

Example format_timestamp_long_negative :
  Transcriber.hours (-1) = -1 /\
  Transcriber.format_timestamp_long (-1) = "59:59".
Proof. split; reflexivity. Qed.

Example segment_line_example :
  Summarizer.segment_line
    {| Summarizer.seg_start := 0; Summarizer.seg_end := 19 # 2;
       Summarizer.seg_text := "hello world" |}
  = "[0.0s - 9.5s] hello world".
Proof. reflexivity. Qed.

Example is_youtube_url_examples :
  App._is_youtube_url (VStr "  https://YouTu.be/abc  ") = true /\
  App._is_youtube_url (VStr "see notyoutube.community for details") = true /\
  App._is_youtube_url (VStr "https://vimeo.com/1") = false /\
  App._is_youtube_url (VStr "   ") = false /\
  App._is_youtube_url VNone = false /\
  App._is_youtube_url (VList [VStr "youtube.com"]) = false.
Proof. repeat split. Qed.

(** * Further properties *)

(** * Further properties *)

(** ** Trimming *)

Section TrimFacts.

#[local] Arguments String.append : simpl nomatch.

Lemma rstrip_last (s init : string) (c : ascii) :
  PyStr.rstrip s = init +:+ String c "" -> PyStr.is_space c = false.
Proof.
  revert init. induction s as [|x s IH]; intros init; simpl.
  - destruct init; discriminate.
  - destruct (PyStr.rstrip s) as [|y r] eqn:Hr.
    + destruct (PyStr.is_space x) eqn:Hx.
      * destruct init; discriminate.
      * destruct init as [|i init]; simpl.
        -- now intros [= ->].
        -- destruct init; discriminate.
    + destruct init as [|i init]; simpl.
      * discriminate.
      * intros [= -> Heq]. now apply (IH init).
Qed.

Lemma lstrip_first (s r : string) (c : ascii) :
  PyStr.lstrip s = String c r -> PyStr.is_space c = false.
Proof.
  induction s as [|x s IH]; simpl; [discriminate |].
  destruct (PyStr.is_space x) eqn:Hx; [exact IH |].
  now intros [= <- _].
Qed.

Lemma rstrip_first (s r : string) (c : ascii) :
  PyStr.rstrip s = String c r -> exists r', s = String c r'.
Proof.
  destruct s as [|x s]; simpl; [discriminate |].
  destruct (PyStr.rstrip s); [destruct (PyStr.is_space x) |];
    intros [= -> _] || discriminate; eauto.
Qed.

(** What [strip] returns has no white space at either end. *)
Lemma strip_trimmed (s : string) : Spec.trimmed (PyStr.strip s).
Proof.
  unfold PyStr.strip. split.
  - intros c r Hs. destruct (rstrip_first _ _ _ Hs) as [r' Hl].
    now apply lstrip_first in Hl.
  - intros init c Hs. now apply rstrip_last in Hs.
Qed.

End TrimFacts.

(** ** Transcription *)

(** X1. When Whisper is available, the audio file exists, the model loads
    and the transcription returns, [transcribe_audio] leaves the file system
    as it was and returns the text of the result trimmed, and one segment
    for each segment of the result, in the same order and with the same
    start and end times, each text trimmed (no white space at either end);
    a result without a [segments] entry gives no segment. *)
Theorem transcribe_audio_output
  (E : Transcription.Env) (audio_path model_size : string)
  (language : option string) (fs : gset string)
  (model : Transcription.Model) (result : Transcription.WhisperResult) :
  Transcription.whisper_imported E = true ->
  audio_path ∈ fs ->
  Transcription.load_model E model_size = Ret model ->
  Transcription.transcribe E model audio_path language = Ret result ->
  exists full_text segments,
    Transcription.transcribe_audio E audio_path model_size language fs
    = (Ret (full_text, segments), fs) /\
    full_text = PyStr.strip (Transcription.result_text result) /\
    Spec.trimmed full_text /\
    let raw := default [] (Transcription.result_segments result) in
    List.map Summarizer.seg_start segments = List.map Transcription.raw_start raw /\
    List.map Summarizer.seg_end segments = List.map Transcription.raw_end raw /\
    List.map Summarizer.seg_text segments
    = List.map (fun seg => PyStr.strip (Transcription.raw_text seg)) raw /\
    Forall (fun seg => Spec.trimmed (Summarizer.seg_text seg)) segments.
Proof.
  intros Himp Hex Hload Hrun.
  unfold Transcription.transcribe_audio. rewrite Himp. cbn [negb].
  unfold bind at 1. rewrite (os_path_exists_true _ _ Hex). cbn [negb].
  unfold bind, lift, ret. rewrite Hload, Hrun.
  eexists _, _. split; [reflexivity |].
  split; [reflexivity |]. split; [apply strip_trimmed |].
  cbv zeta. rewrite !List.map_map. cbn [Summarizer.seg_start Summarizer.seg_end Summarizer.seg_text].
  repeat split.
  apply Forall_forall. intros seg Hin.
  apply list_elem_of_In, List.in_map_iff in Hin as (raw & <- & _).
  apply strip_trimmed.
Qed.

Lemma transcribe_audio_output_witness :
  exists full_text segments,
    Transcription.transcribe_audio Samples.whisper "/tmp/tmpk3v9.mp3" "base" None
      Samples.tape
    = (Ret (full_text, segments), Samples.tape) /\
    full_text = "hello world. goodbye" /\
    List.map Summarizer.seg_text segments = ["hello world."; "goodbye"].
Proof.
  destruct (transcribe_audio_output Samples.whisper "/tmp/tmpk3v9.mp3" "base" None
              Samples.tape {| Transcription.model_name := "base" |} Samples.heard)
    as (full_text & segments & Hrun & Htext & _ & _ & _ & Hsegs & _).
  - reflexivity.
  - unfold Samples.tape. set_solver.
  - reflexivity.
  - reflexivity.
  - exists full_text, segments. split; [exact Hrun |].
    split; [rewrite Htext; reflexivity | rewrite Hsegs; reflexivity].
Defined.

Lemma transcribe_audio_cases
  (E : Transcription.Env) (audio_path model_size : string)
  (language : option string) (fs : gset string) :
  Transcription.transcribe_audio E audio_path model_size language fs =
  (if negb (Transcription.whisper_imported E) then
     Raise (ImportError
       "OpenAI Whisper is required. Install with: pip install openai-whisper")
   else if negb (bool_decide (audio_path ∈ fs)) then
     Raise (FileNotFoundError ("Audio file not found: " +:+ audio_path))
   else
     match Transcription.load_model E model_size with
     | Raise e => Raise e
     | Ret model =>
         match Transcription.transcribe E model audio_path language with
         | Raise e => Raise e
         | Ret result =>
             Ret (PyStr.strip (Transcription.result_text result),
                  List.map
                    (fun seg =>
                       {| Summarizer.seg_start := Transcription.raw_start seg;
                          Summarizer.seg_end := Transcription.raw_end seg;
                          Summarizer.seg_text :=
                            PyStr.strip (Transcription.raw_text seg) |})
                    (default [] (Transcription.result_segments result)))
         end
     end, fs).
Proof.
  unfold Transcription.transcribe_audio.
  destruct (Transcription.whisper_imported E); [| reflexivity]. cbn [negb].
  unfold bind at 1, VideoProcessor.os_path_exists.
  destruct (bool_decide (audio_path ∈ fs)); [| reflexivity]. cbn [negb].
  unfold bind, lift, ret.
  destruct (Transcription.load_model E model_size) as [model | e]; [| reflexivity].
  destruct (Transcription.transcribe E model audio_path language); reflexivity.
Qed.

(** X2. [transcribe_audio] checks before it loads anything: without Whisper
    it raises the [ImportError] whatever the path; with Whisper and a missing
    audio file it raises [FileNotFoundError] naming the path, whatever the
    model; a failure of the model load or of the transcription itself reaches
    the caller as it is, not wrapped.  The file system is never changed. *)
Theorem transcribe_audio_errors
  (E : Transcription.Env) (audio_path model_size : string)
  (language : option string) (fs : gset string) :
  let run := Transcription.transcribe_audio E audio_path model_size language fs in
  snd run = fs /\
  (Transcription.whisper_imported E = false ->
   fst run = Raise (ImportError
     "OpenAI Whisper is required. Install with: pip install openai-whisper")) /\
  (Transcription.whisper_imported E = true -> audio_path ∉ fs ->
   fst run = Raise (FileNotFoundError ("Audio file not found: " +:+ audio_path))) /\
  (Transcription.whisper_imported E = true -> audio_path ∈ fs ->
   forall e, Transcription.load_model E model_size = Raise e -> fst run = Raise e) /\
  (Transcription.whisper_imported E = true -> audio_path ∈ fs ->
   forall model e,
     Transcription.load_model E model_size = Ret model ->
     Transcription.transcribe E model audio_path language = Raise e ->
     fst run = Raise e).
Proof.
  cbv zeta. rewrite transcribe_audio_cases. cbn [fst snd].
  split; [reflexivity |]. split; [| split; [| split]].
  - intros ->. reflexivity.
  - intros -> Hout. now rewrite (bool_decide_eq_false_2 _ Hout).
  - intros -> Hin e ->. now rewrite (bool_decide_eq_true_2 _ Hin).
  - intros -> Hin model e -> ->. now rewrite (bool_decide_eq_true_2 _ Hin).
Qed.

(** ** Analysis: failures that are not parse failures *)

Section CallFacts.

Import Summarizer.

Variable E : Summarizer.Env.
Variables (transcription model key : string) (segments : list Segment).
Variable st : State.

Hypothesis imported : OpenAI_imported E = true.
Hypothesis credential : environ E !! "OPENAI_API_KEY" = Some key.
Hypothesis credential_set : key <> "".

(** What [summarize_transcription] does when no answer text arrives: the
    call raised, or the answer has no choice or no text. *)
Lemma summarize_without_answer (e : exn) :
  (chat_completions_create E {| api_key := key |}
     (summarize_request transcription segments model) = Raise e \/
   (chat_completions_create E {| api_key := key |}
      (summarize_request transcription segments model)
    = Ret {| choices := [] |} /\ e = IndexError "list index out of range") \/
   (exists others,
      chat_completions_create E {| api_key := key |}
        (summarize_request transcription segments model)
      = Ret {| choices := None :: others |} /\
      e = AttributeError "'NoneType' object has no attribute 'strip'")) ->
  summarize_transcription E transcription segments model st =
  (match e with
   | JSONDecodeError _ _ _ => Ret (parse_failure e)
   | _ => Raise (RuntimeError ("OpenAI API error: " +:+ str e) e)
   end,
   Spec.after_request st (summarize_request transcription segments model)).
Proof.
  intros Hcall.
  unfold summarize_transcription. unfold bind at 1.
  rewrite (get_client_configured E key st imported credential credential_set).
  unfold try_except. unfold bind at 1. unfold create.
  fold (Spec.after_request st (summarize_request transcription segments model)).
  destruct Hcall as [-> | [[-> ->] | (others & -> & ->)]].
  - destruct e; reflexivity.
  - reflexivity.
  - reflexivity.
Qed.

End CallFacts.

(** X3. Once the client exists, a failure [e] of the model call inside
    [summarize_transcription] (the call raising [e], an answer without
    choices, which gives [IndexError], or a first choice without text, which
    gives [AttributeError]) is raised again as
    [RuntimeError("OpenAI API error: " + str(e))] with [e] as its cause,
    after the one call of [create]; the exception is a [JSONDecodeError]
    raised by the call itself, which is taken for a parse failure and
    answered by the degraded result. *)
Theorem summarize_transcription_call_failure
  (E : Summarizer.Env) (transcription model key : string)
  (segments : list Summarizer.Segment) (st : Summarizer.State) (e : exn) :
  Summarizer.OpenAI_imported E = true ->
  Summarizer.environ E !! "OPENAI_API_KEY" = Some key ->
  key <> "" ->
  (Summarizer.chat_completions_create E {| Summarizer.api_key := key |}
     (Summarizer.summarize_request transcription segments model) = Raise e \/
   (Summarizer.chat_completions_create E {| Summarizer.api_key := key |}
      (Summarizer.summarize_request transcription segments model)
    = Ret {| Summarizer.choices := [] |} /\
    e = IndexError "list index out of range") \/
   (exists others,
      Summarizer.chat_completions_create E {| Summarizer.api_key := key |}
        (Summarizer.summarize_request transcription segments model)
      = Ret {| Summarizer.choices := None :: others |} /\
      e = AttributeError "'NoneType' object has no attribute 'strip'")) ->
  Summarizer.summarize_transcription E transcription segments model st =
  (match e with
   | JSONDecodeError _ _ _ => Ret (Summarizer.parse_failure e)
   | _ => Raise (RuntimeError ("OpenAI API error: " +:+ str e) e)
   end,
   Spec.after_request st (Summarizer.summarize_request transcription segments model)).
Proof.
  intros Himp Hkey Hne Hcall.
  now apply (summarize_without_answer E transcription model key segments st
               Himp Hkey Hne).
Qed.

Lemma summarize_transcription_call_failure_witness :
  Summarizer.summarize_transcription
    (Samples.service (Raise (OtherException "RateLimitError" "Rate limit reached")))
    "hello world" Samples.hello "gpt-4o-mini" Samples.quiet
  = (Raise (RuntimeError "OpenAI API error: Rate limit reached"
              (OtherException "RateLimitError" "Rate limit reached")),
     Spec.after_request Samples.quiet
       (Summarizer.summarize_request "hello world" Samples.hello "gpt-4o-mini")) /\
  fst (Summarizer.summarize_transcription
         (Samples.service (Raise (JSONDecodeError "Expecting value" "<html>" 0)))
         "hello world" Samples.hello "gpt-4o-mini" Samples.quiet)
  = Ret (Summarizer.parse_failure (JSONDecodeError "Expecting value" "<html>" 0)).
Proof.
  split.
  - apply (summarize_transcription_call_failure
             (Samples.service (Raise (OtherException "RateLimitError" "Rate limit reached")))
             "hello world" "gpt-4o-mini" "sk-test" Samples.hello Samples.quiet
             (OtherException "RateLimitError" "Rate limit reached"));
      [reflexivity | reflexivity | discriminate | left; reflexivity].
  - rewrite (summarize_transcription_call_failure
               (Samples.service (Raise (JSONDecodeError "Expecting value" "<html>" 0)))
               "hello world" "gpt-4o-mini" "sk-test" Samples.hello Samples.quiet
               (JSONDecodeError "Expecting value" "<html>" 0));
      [reflexivity | reflexivity | reflexivity | discriminate | left; reflexivity].
Defined.

(** X4. An answer that parses as JSON but not as an object (a list, a
    string, a number, [true], [null]) makes [summarize_transcription] raise
    [RuntimeError("OpenAI API error: '<type>' object has no attribute
    'setdefault'")]: only a [dict] is accepted. *)
Theorem summarize_transcription_not_an_object
  (E : Summarizer.Env) (transcription model key content : string)
  (segments : list Summarizer.Segment) (others : list (option string))
  (st : Summarizer.State) (v : value) :
  Summarizer.OpenAI_imported E = true ->
  Summarizer.environ E !! "OPENAI_API_KEY" = Some key ->
  key <> "" ->
  Summarizer.chat_completions_create E {| Summarizer.api_key := key |}
    (Summarizer.summarize_request transcription segments model)
  = Ret {| Summarizer.choices := Some content :: others |} ->
  Summarizer.json_loads E (Spec.unfenced (PyStr.strip content)) = Ret v ->
  (forall d, v <> VDict d) ->
  let e := AttributeError
             ("'" +:+ Summarizer.type_name v
              +:+ "' object has no attribute 'setdefault'") in
  Summarizer.summarize_transcription E transcription segments model st
  = (Raise (RuntimeError ("OpenAI API error: " +:+ str e) e),
     Spec.after_request st (Summarizer.summarize_request transcription segments model)).
Proof.
  intros Himp Hkey Hne Hanswer Hparse Hnot e.
  rewrite (summarize_after_answer E transcription model key segments st
             Himp Hkey Hne content others Hanswer), Hparse.
  destruct v; try reflexivity. now destruct (Hnot d).
Qed.

Lemma summarize_transcription_not_an_object_witness :
  Summarizer.summarize_transcription
    (Samples.service_more (Samples.says Samples.doc_list))
    "hello world" Samples.hello "gpt-4o-mini" Samples.quiet
  = (Raise (RuntimeError
       "OpenAI API error: 'list' object has no attribute 'setdefault'"
       (AttributeError "'list' object has no attribute 'setdefault'")),
     Spec.after_request Samples.quiet
       (Summarizer.summarize_request "hello world" Samples.hello "gpt-4o-mini")).
Proof.
  apply (summarize_transcription_not_an_object
           (Samples.service_more (Samples.says Samples.doc_list))
           "hello world" "gpt-4o-mini" "sk-test" Samples.doc_list Samples.hello []
           Samples.quiet (VList [VInt 1; VInt 2]));
    [reflexivity | reflexivity | discriminate | reflexivity | reflexivity
    | discriminate].
Defined.

(** ** Analysis: the compatibility fields *)

Lemma dom_setdefault (k : string) (v : value) (d : gmap string value) :
  dom (Summarizer.setdefault k v d) = {[k]} ∪ dom d.
Proof.
  unfold Summarizer.setdefault. destruct (d !! k) as [x |] eqn:Hk.
  - assert (k ∈ dom d) by (apply elem_of_dom; eauto). set_solver.
  - apply dom_insert_L.
Qed.

Lemma setdefault_keeps (k k' : string) (v x : value) (d : gmap string value) :
  d !! k' = Some x -> Summarizer.setdefault k v d !! k' = Some x.
Proof.
  intros Hk'. rewrite lookup_setdefault. case_decide; [subst; now rewrite Hk' |].
  exact Hk'.
Qed.

Lemma with_defaults_keeps (k : string) (x : value) (d : gmap string value) :
  d !! k = Some x -> Summarizer.with_defaults d !! k = Some x.
Proof.
  intros Hk. unfold Summarizer.with_defaults. now repeat apply setdefault_keeps.
Qed.

Lemma dom_with_defaults (d : gmap string value) :
  dom (Summarizer.with_defaults d)
  = list_to_set
      ["main_purpose"; "key_insights"; "important_concepts";
       "structured_summary"; "keywords"; "timestamped_highlights"] ∪ dom d.
Proof.
  unfold Summarizer.with_defaults. rewrite !dom_setdefault. set_solver.
Qed.

Lemma with_defaults_summary (d : gmap string value) :
  Summarizer.with_defaults d !! "summary" = d !! "summary" /\
  Summarizer.with_defaults d !! "key_points" = d !! "key_points".
Proof.
  unfold Summarizer.with_defaults. rewrite !lookup_setdefault.
  split; repeat (case_decide; [discriminate |]); reflexivity.
Qed.

(** What a returning compatibility step has done. *)
Lemma with_compat_result (r r' : gmap string value) (st s : Summarizer.State) :
  Summarizer.with_compat r st = (Ret r', s) ->
  (forall k x, r !! k = Some x -> r' !! k = Some x) /\
  dom r' = {["summary"; "key_points"]} ∪ dom r /\
  (r !! "summary" = None ->
   exists a b, r !! "main_purpose" = Some (VStr a) /\
               r !! "structured_summary" = Some (VStr b) /\
               r' !! "summary"
               = Some (VStr (a +:+ Summarizer.nl +:+ Summarizer.nl +:+ b))) /\
  (r !! "key_points" = None -> r' !! "key_points" = r !! "key_insights").
Proof.
  unfold Summarizer.with_compat, bind, Summarizer.getitem, Summarizer.add, ret, raise.
  intros Hrun.
  destruct (r !! "summary") as [x |] eqn:Hx.
  - destruct (r !! "key_points") as [y |] eqn:Hy.
    + injection Hrun as <- <-.
      assert ("summary" ∈ dom r) by (apply elem_of_dom; eauto).
      assert ("key_points" ∈ dom r) by (apply elem_of_dom; eauto).
      repeat split; try discriminate; [auto | set_solver].
    + destruct (r !! "key_insights") as [ki |] eqn:Hki; [| discriminate].
      injection Hrun as <- <-.
      assert ("summary" ∈ dom r) by (apply elem_of_dom; eauto).
      repeat split; try discriminate.
      * intros k v Hk. rewrite lookup_insert_ne; [exact Hk | congruence].
      * rewrite dom_insert_L. set_solver.
      * intros _. now rewrite lookup_insert_eq.
  - destruct (r !! "main_purpose") as [[| | | | a | |] |] eqn:Ha; try discriminate.
    destruct (r !! "structured_summary") as [[| | | | b | |] |] eqn:Hb;
      try discriminate.
    rewrite !lookup_insert_ne in Hrun by discriminate.
    destruct (r !! "key_points") as [y |] eqn:Hy.
    + injection Hrun as <- <-.
      assert ("key_points" ∈ dom r) by (apply elem_of_dom; eauto).
      repeat split; try discriminate.
      * intros k v Hk. rewrite lookup_insert_ne; [exact Hk | congruence].
      * rewrite dom_insert_L. set_solver.
      * intros _. exists a, b. rewrite lookup_insert_eq, str_app_assoc. auto.
    + destruct (r !! "key_insights") as [ki |] eqn:Hki; [| discriminate].
      injection Hrun as <- <-.
      repeat split.
      * intros k v Hk. rewrite !lookup_insert_ne; [exact Hk | congruence | congruence].
      * rewrite !dom_insert_L. set_solver.
      * intros _. exists a, b.
        rewrite lookup_insert_ne by discriminate.
        rewrite lookup_insert_eq, str_app_assoc. auto.
      * intros _. now rewrite lookup_insert_eq.
Qed.

(** It raises a [TypeError] when [summary] has to be built and one of its
    two parts is not a string. *)
Lemma with_compat_type_error (r : gmap string value) (st : Summarizer.State)
  (a b : value) :
  r !! "summary" = None ->
  r !! "main_purpose" = Some a ->
  r !! "structured_summary" = Some b ->
  is_str a = false \/ is_str b = false ->
  exists msg, Summarizer.with_compat r st = (Raise (TypeError msg), st).
Proof.
  intros Hx Ha Hb Hstr.
  unfold Summarizer.with_compat, bind, Summarizer.getitem, Summarizer.add, ret, raise.
  rewrite Hx, Ha, Hb.
  destruct a; try (eexists; reflexivity);
    destruct b; try (eexists; reflexivity);
    destruct Hstr; discriminate.
Qed.

(** X5. When the answer parses as the JSON object [d] and
    [summarize_transcription] returns, everything the object holds is in the
    result as it was sent; the keys of the result are those of the object and
    the eight keys of an analysis; a missing [summary] is [main_purpose],
    a blank line and [structured_summary]; a missing [key_points] is the
    insight list. *)
Theorem summarize_transcription_compatibility_fields
  (E : Summarizer.Env) (transcription model key content : string)
  (segments : list Summarizer.Segment) (others : list (option string))
  (st st' : Summarizer.State) (d result : gmap string value) :
  Summarizer.OpenAI_imported E = true ->
  Summarizer.environ E !! "OPENAI_API_KEY" = Some key ->
  key <> "" ->
  Summarizer.chat_completions_create E {| Summarizer.api_key := key |}
    (Summarizer.summarize_request transcription segments model)
  = Ret {| Summarizer.choices := Some content :: others |} ->
  Summarizer.json_loads E (Spec.unfenced (PyStr.strip content)) = Ret (VDict d) ->
  Summarizer.summarize_transcription E transcription segments model st
  = (Ret result, st') ->
  (forall k x, d !! k = Some x -> result !! k = Some x) /\
  dom result = Spec.analysis_keys ∪ dom d /\
  (d !! "summary" = None ->
   exists a b,
     default (VStr "") (d !! "main_purpose") = VStr a /\
     default (VStr "") (d !! "structured_summary") = VStr b /\
     result !! "summary"
     = Some (VStr (a +:+ Summarizer.nl +:+ Summarizer.nl +:+ b))) /\
  (d !! "key_points" = None ->
   result !! "key_points" = Some (default (VList []) (d !! "key_insights"))).
Proof.
  intros Himp Hkey Hne Hanswer Hparse.
  rewrite (summarize_after_answer E transcription model key segments st
             Himp Hkey Hne content others Hanswer), Hparse.
  cbv beta iota delta [bind Summarizer.as_dict ret].
  destruct (Summarizer.with_compat _ _) as [[r | e] s] eqn:Hcompat.
  2: { pose proof (with_compat_raises _ _ _ _ Hcompat) as Hnot.
       destruct e; try discriminate. now destruct (Hnot msg doc pos). }
  intros [= -> ->].
  apply with_compat_result in Hcompat as (Hkeep & Hdom & Hsum & Hkp).
  destruct (with_defaults_summary d) as [Hds Hdk].
  assert (forall k dflt, (k, dflt) ∈ Spec.expected_keys ->
            Summarizer.with_defaults d !! k = Some (default dflt (d !! k))) as Hexp
    by (intros; now apply with_defaults_expected).
  unfold Spec.expected_keys in Hexp.
  repeat split.
  - intros k x Hk. now apply Hkeep, with_defaults_keeps.
  - rewrite Hdom, dom_with_defaults. unfold Spec.analysis_keys. set_solver.
  - intros Hnone. rewrite Hds in Hsum. destruct (Hsum Hnone) as (a & b & Ha & Hb & Hres).
    exists a, b.
    rewrite (Hexp "main_purpose" (VStr "")) in Ha by (rewrite !elem_of_cons; auto 10).
    rewrite (Hexp "structured_summary" (VStr "")) in Hb by (rewrite !elem_of_cons; auto 10).
    injection Ha as Ha. injection Hb as Hb. auto.
  - intros Hnone. rewrite Hdk in Hkp. rewrite (Hkp Hnone).
    apply (Hexp "key_insights" (VList [])). rewrite !elem_of_cons; auto 10.
Qed.

Lemma summarize_transcription_compatibility_fields_witness :
  exists result st',
    Summarizer.summarize_transcription
      (Samples.service_more (Samples.says Samples.doc_full))
      "hello world" Samples.hello "gpt-4o-mini" Samples.quiet
    = (Ret result, st') /\
    result !! "topic" = Some (VStr "ai") /\
    result !! "summary"
    = Some (VStr ("Why" +:+ Summarizer.nl +:+ Summarizer.nl +:+ "How")) /\
    result !! "key_points" = Some (VList [VStr "one"]).
Proof.
  destruct (Summarizer.summarize_transcription
              (Samples.service_more (Samples.says Samples.doc_full))
              "hello world" Samples.hello "gpt-4o-mini" Samples.quiet)
    as [[result | e] st'] eqn:Hrun; [| vm_compute in Hrun; discriminate].
  destruct (summarize_transcription_compatibility_fields
              (Samples.service_more (Samples.says Samples.doc_full))
              "hello world" "gpt-4o-mini" "sk-test" Samples.doc_full Samples.hello []
              Samples.quiet st'
              (<["main_purpose" := VStr "Why"]>
                 (<["structured_summary" := VStr "How"]>
                   (<["key_insights" := VList [VStr "one"]]>
                     (<["topic" := VStr "ai"]> ∅))))
              result)
    as (Hkeep & _ & Hsum & Hkp);
    [reflexivity | reflexivity | discriminate | reflexivity | reflexivity
    | exact Hrun |].
  exists result, st'. split; [reflexivity |]. split; [| split].
  - apply Hkeep. reflexivity.
  - destruct Hsum as (a & b & Ha & Hb & ->); [reflexivity |].
    vm_compute in Ha, Hb. now injection Ha as <-; injection Hb as <-.
  - rewrite Hkp; reflexivity.
Defined.

(** X6. The other side of the return condition: when the object has no
    [summary] and [main_purpose] or [structured_summary], after defaulting,
    is not a string ([null], a number, a list), building the summary fails
    and [summarize_transcription] raises
    [RuntimeError("OpenAI API error: ...")] with the [TypeError] as cause. *)
Theorem summarize_transcription_summary_type_error
  (E : Summarizer.Env) (transcription model key content : string)
  (segments : list Summarizer.Segment) (others : list (option string))
  (st : Summarizer.State) (d : gmap string value) :
  Summarizer.OpenAI_imported E = true ->
  Summarizer.environ E !! "OPENAI_API_KEY" = Some key ->
  key <> "" ->
  Summarizer.chat_completions_create E {| Summarizer.api_key := key |}
    (Summarizer.summarize_request transcription segments model)
  = Ret {| Summarizer.choices := Some content :: others |} ->
  Summarizer.json_loads E (Spec.unfenced (PyStr.strip content)) = Ret (VDict d) ->
  d !! "summary" = None ->
  is_str (default (VStr "") (d !! "main_purpose")) = false \/
  is_str (default (VStr "") (d !! "structured_summary")) = false ->
  exists msg,
    Summarizer.summarize_transcription E transcription segments model st
    = (Raise (RuntimeError ("OpenAI API error: " +:+ msg) (TypeError msg)),
       Spec.after_request st
         (Summarizer.summarize_request transcription segments model)).
Proof.
  intros Himp Hkey Hne Hanswer Hparse Hnone Hstr.
  rewrite (summarize_after_answer E transcription model key segments st
             Himp Hkey Hne content others Hanswer), Hparse.
  cbv beta iota delta [bind Summarizer.as_dict ret].
  destruct (with_defaults_summary d) as [Hds _].
  destruct (with_compat_type_error (Summarizer.with_defaults d)
              (Spec.after_request st
                 (Summarizer.summarize_request transcription segments model))
              (default (VStr "") (d !! "main_purpose"))
              (default (VStr "") (d !! "structured_summary")))
    as [msg ->]; [congruence | | | exact Hstr | now exists msg].
  - apply with_defaults_expected. unfold Spec.expected_keys.
    rewrite !elem_of_cons; auto 10.
  - apply with_defaults_expected. unfold Spec.expected_keys.
    rewrite !elem_of_cons; auto 10.
Qed.

Lemma summarize_transcription_summary_type_error_witness :
  exists msg,
    Summarizer.summarize_transcription
      (Samples.service_more (Samples.says Samples.doc_null_only))
      "hello world" Samples.hello "gpt-4o-mini" Samples.quiet
    = (Raise (RuntimeError ("OpenAI API error: " +:+ msg) (TypeError msg)),
       Spec.after_request Samples.quiet
         (Summarizer.summarize_request "hello world" Samples.hello "gpt-4o-mini")).
Proof.
  apply (summarize_transcription_summary_type_error
           (Samples.service_more (Samples.says Samples.doc_null_only))
           "hello world" "gpt-4o-mini" "sk-test" Samples.doc_null_only
           Samples.hello [] Samples.quiet (<["main_purpose" := VNone]> ∅));
    [reflexivity | reflexivity | discriminate | reflexivity | reflexivity
    | reflexivity | left; reflexivity].
Defined.

(** ** Analysis: the code fence *)

Section FenceFacts.

#[local] Arguments String.append : simpl nomatch.

Lemma startswith_fence_other (c : ascii) (s : string) :
  Ascii.eqb c "`" = false -> PyStr.startswith "```" (String c s) = false.
Proof.
  intros Hc. cbn [PyStr.startswith]. now rewrite Ascii.eqb_sym, Hc.
Qed.

(** Splitting at the fence a text whose first fence comes after [piece]. *)
Lemma split_fence_piece (piece tail cur : string) :
  Spec.no_char "`" piece = true ->
  PyStr.startswith "```" tail = true ->
  exists more,
    PyStr.split_go "```" 0 cur (piece +:+ tail) = (cur +:+ piece) :: more.
Proof.
  intros Hno Htail. revert cur Hno.
  induction piece as [|c piece IH]; intros cur Hno.
  - change ("" +:+ tail) with tail. rewrite str_app_nil_r.
    destruct tail as [|t tail]; [discriminate |].
    cbn [PyStr.split_go]. rewrite Htail. eauto.
  - simpl in Hno. apply andb_prop in Hno as [Hc Hno].
    apply negb_true_iff in Hc.
    change (String c piece +:+ tail) with (String c (piece +:+ tail)).
    cbn [PyStr.split_go].
    rewrite (startswith_fence_other c _ Hc).
    destruct (IH (cur +:+ String c "") Hno) as [more ->].
    exists more. now rewrite str_app_assoc.
Qed.

(** A text without any fence is one piece. *)
Lemma split_fence_none (piece cur : string) :
  Spec.no_char "`" piece = true ->
  PyStr.split_go "```" 0 cur piece = [cur +:+ piece].
Proof.
  revert cur. induction piece as [|c piece IH]; intros cur Hno.
  - simpl. now rewrite str_app_nil_r.
  - simpl in Hno. apply andb_prop in Hno as [Hc Hno].
    apply negb_true_iff in Hc.
    cbn [PyStr.split_go]. rewrite (startswith_fence_other c _ Hc).
    rewrite (IH _ Hno). now rewrite str_app_assoc.
Qed.

End FenceFacts.

(** X7. [json] is parsed from inside a Markdown fence.  For a text [inner]
    without back-quotes: an answer that opens with the fence, with or
    without the tag [json] or [JSON], is cut down to [inner] trimmed, whatever
    follows the closing fence; the same holds when the fence is never closed;
    an answer that does not open with a fence is kept as it is. *)
Theorem strip_code_fence_inner
  (inner rest : string) (st : Summarizer.State) :
  Spec.no_char "`" inner = true ->
  Summarizer.strip_code_fence ("```json" +:+ inner +:+ "```" +:+ rest) st
  = (Ret (PyStr.strip inner), st) /\
  Summarizer.strip_code_fence ("```JSON" +:+ inner +:+ "```" +:+ rest) st
  = (Ret (PyStr.strip inner), st) /\
  Summarizer.strip_code_fence ("```json" +:+ inner) st
  = (Ret (PyStr.strip inner), st) /\
  (PyStr.startswith "json" inner = false ->
   PyStr.startswith "JSON" inner = false ->
   Summarizer.strip_code_fence ("```" +:+ inner +:+ "```" +:+ rest) st
   = (Ret (PyStr.strip inner), st)) /\
  (forall content,
     PyStr.startswith "```" content = false ->
     Summarizer.strip_code_fence content st = (Ret content, st)).
Proof.
  intros Hno.
  assert (forall tag,
            Spec.no_char "`" tag = true ->
            exists more,
              PyStr.split "```" ("```" +:+ (tag +:+ inner) +:+ "```" +:+ rest)
              = "" :: (tag +:+ inner) :: more) as Hclosed.
  { intros tag Htag. unfold PyStr.split.
    destruct (split_fence_piece (tag +:+ inner) ("```" +:+ rest) "")
      as [more Hmore]; [| reflexivity |].
    { clear -Hno Htag. induction tag as [|c tag IH]; [exact Hno |].
      simpl in *. apply andb_prop in Htag as [-> Htag]. now apply IH. }
    exists more.
    change ("```" +:+ (tag +:+ inner) +:+ "```" +:+ rest)
      with (String "`" (String "`" (String "`" ((tag +:+ inner) +:+ "```" +:+ rest)))).
    cbn [PyStr.split_go PyStr.startswith Ascii.eqb Bool.eqb String.length Nat.sub].
    now rewrite Hmore. }
  repeat split.
  - destruct (Hclosed "json" eq_refl) as [more Hsplit].
    unfold Summarizer.strip_code_fence.
    change ("```json" +:+ inner +:+ "```" +:+ rest)
      with ("```" +:+ ("json" +:+ inner) +:+ "```" +:+ rest).
    rewrite Hsplit. reflexivity.
  - destruct (Hclosed "JSON" eq_refl) as [more Hsplit].
    unfold Summarizer.strip_code_fence.
    change ("```JSON" +:+ inner +:+ "```" +:+ rest)
      with ("```" +:+ ("JSON" +:+ inner) +:+ "```" +:+ rest).
    rewrite Hsplit. reflexivity.
  - unfold Summarizer.strip_code_fence, PyStr.split.
    change ("```json" +:+ inner)
      with (String "`" (String "`" (String "`" ("json" +:+ inner)))).
    cbn [PyStr.split_go PyStr.startswith Ascii.eqb Bool.eqb String.length Nat.sub].
    rewrite (split_fence_none ("json" +:+ inner) "" Hno). reflexivity.
  - intros Hj HJ. destruct (Hclosed "" eq_refl) as [more Hsplit].
    unfold Summarizer.strip_code_fence.
    change ("```" +:+ inner +:+ "```" +:+ rest)
      with ("```" +:+ ("" +:+ inner) +:+ "```" +:+ rest).
    rewrite Hsplit.
    change (("" :: ("" +:+ inner) :: more) !! 1%nat) with (Some inner).
    cbv beta iota. change (PyStr.startswith "```" _) with true. cbv iota.
    now rewrite Hj, HJ.
  - intros content Hc. unfold Summarizer.strip_code_fence. now rewrite Hc.
Qed.

Lemma strip_code_fence_inner_witness :
  Summarizer.strip_code_fence
    ("```json" +:+ (Summarizer.nl +:+ Samples.doc_keywords +:+ Summarizer.nl)
     +:+ "```" +:+ " Hope this helps.") Samples.quiet
  = (Ret Samples.doc_keywords, Samples.quiet).
Proof.
  destruct (strip_code_fence_inner
              (Summarizer.nl +:+ Samples.doc_keywords +:+ Summarizer.nl)
              " Hope this helps." Samples.quiet eq_refl) as [Hjson _].
  rewrite Hjson. reflexivity.
Defined.

(** ** One call of the service for each call *)

Lemma with_compat_state (r : gmap string value) (st : Summarizer.State) :
  snd (Summarizer.with_compat r st) = st.
Proof.
  unfold Summarizer.with_compat, bind, Summarizer.getitem, Summarizer.add, ret, raise.
  repeat case_match; simplify_eq; reflexivity.
Qed.

Lemma summarize_transcription_state
  (E : Summarizer.Env) (key : string) (st : Summarizer.State) :
  Summarizer.OpenAI_imported E = true ->
  Summarizer.environ E !! "OPENAI_API_KEY" = Some key ->
  key <> "" ->
  forall transcription segments model,
    snd (Summarizer.summarize_transcription E transcription segments model st)
    = Spec.after_request st
        (Summarizer.summarize_request transcription segments model).
Proof.
  intros Himp Hkey Hne transcription segments model.
  destruct (Summarizer.chat_completions_create E {| Summarizer.api_key := key |}
              (Summarizer.summarize_request transcription segments model))
    as [[[| [content |] others]] | e] eqn:Hcall.
  - rewrite (summarize_without_answer E transcription model key segments st
               Himp Hkey Hne (IndexError "list index out of range")); auto.
  - rewrite (summarize_after_answer E transcription model key segments st
               Himp Hkey Hne content others Hcall).
    destruct (Summarizer.json_loads E _) as [v | e].
    + destruct v; try reflexivity.
      cbv beta iota delta [bind Summarizer.as_dict ret].
      pose proof (with_compat_state (Summarizer.with_defaults d)
                    (Spec.after_request st
                       (Summarizer.summarize_request transcription segments model)))
        as Hst.
      destruct (Summarizer.with_compat _ _) as [[r | e] s]; simpl in Hst; subst s;
        [reflexivity | destruct e; reflexivity].
    + destruct e; reflexivity.
  - rewrite (summarize_without_answer E transcription model key segments st
               Himp Hkey Hne
               (AttributeError "'NoneType' object has no attribute 'strip'")); eauto.
  - rewrite (summarize_without_answer E transcription model key segments st
               Himp Hkey Hne e); [destruct e; reflexivity | auto].
Qed.

Lemma refine_transcription_returns
  (E : Summarizer.Env) (key raw_transcription model : string)
  (st : Summarizer.State) :
  Summarizer.OpenAI_imported E = true ->
  Summarizer.environ E !! "OPENAI_API_KEY" = Some key ->
  key <> "" ->
  exists refined st',
    Summarizer.refine_transcription E raw_transcription model st
    = (Ret refined, st') /\
    Summarizer.network st'
    = Summarizer.network st ++ [Summarizer.refine_request raw_transcription model].
Proof.
  intros Himp Hkey Hne.
  unfold Summarizer.refine_transcription. unfold bind at 1.
  rewrite (get_client_configured E key st Himp Hkey Hne).
  unfold try_except, bind, Summarizer.create.
  destruct (Summarizer.chat_completions_create E _ _)
    as [[[| [content |] others]] | e]; eexists _, _; split; reflexivity.
Qed.

(** X8. Once the client exists, each call of [summarize_transcription] and of
    [refine_transcription] calls [client.chat.completions.create] exactly
    once, whatever the outcome: the code has no retry of its own after a
    failure (the attempts the client library makes inside that one call are
    not counted).  [summarize_transcription] prints nothing. *)
Theorem create_called_once
  (E : Summarizer.Env) (key : string) (st : Summarizer.State) :
  Summarizer.OpenAI_imported E = true ->
  Summarizer.environ E !! "OPENAI_API_KEY" = Some key ->
  key <> "" ->
  (forall transcription segments model,
     snd (Summarizer.summarize_transcription E transcription segments model st)
     = Spec.after_request st
         (Summarizer.summarize_request transcription segments model)) /\
  (forall raw_transcription model,
     Summarizer.network
       (snd (Summarizer.refine_transcription E raw_transcription model st))
     = Summarizer.network st ++ [Summarizer.refine_request raw_transcription model]).
Proof.
  intros Himp Hkey Hne. split.
  - now apply summarize_transcription_state with key.
  - intros raw model.
    destruct (refine_transcription_returns E key raw model st Himp Hkey Hne)
      as (refined & st' & Hrun & Hnet).
    now rewrite Hrun.
Qed.

Lemma create_called_once_witness :
  snd (Summarizer.summarize_transcription (Samples.service (Samples.says Samples.doc_prose))
         "hello world" Samples.hello "gpt-4o-mini" Samples.quiet)
  = Spec.after_request Samples.quiet
      (Summarizer.summarize_request "hello world" Samples.hello "gpt-4o-mini").
Proof.
  apply (create_called_once (Samples.service (Samples.says Samples.doc_prose))
           "sk-test" Samples.quiet); [reflexivity | reflexivity | discriminate].
Defined.

(** ** Fallback keywords *)

Section CounterFacts.

Import Summarizer.

Open Scope nat_scope.

Lemma count_add_keys (w : string) (counts : list (string * nat)) (k : string) :
  In k (List.map fst (count_add w counts)) <-> k = w \/ In k (List.map fst counts).
Proof.
  induction counts as [|[k' n] rest IH]; simpl.
  - intuition.
  - destruct (String.eqb_spec k' w) as [-> | Hne]; simpl; [intuition congruence |].
    rewrite IH. tauto.
Qed.

Lemma count_add_NoDup (w : string) (counts : list (string * nat)) :
  NoDup (List.map fst counts) -> NoDup (List.map fst (count_add w counts)).
Proof.
  induction counts as [|[k n] rest IH]; simpl; intros Hnd.
  - apply NoDup_cons_2; [apply not_elem_of_nil | apply NoDup_nil_2].
  - apply NoDup_cons in Hnd as [Hk Hnd].
    destruct (String.eqb_spec k w) as [-> | Hne]; simpl.
    + now apply NoDup_cons_2.
    + apply NoDup_cons_2; [| now apply IH].
      rewrite list_elem_of_In, count_add_keys. rewrite list_elem_of_In in Hk.
      intros [-> | Hin]; [congruence | contradiction].
Qed.

Lemma count_of_add (w k : string) (counts : list (string * nat)) :
  Spec.count_of k (count_add w counts)
  = (if String.eqb w k then 1 else 0) + Spec.count_of k counts.
Proof.
  induction counts as [|[k' n] rest IH]; simpl.
  - now rewrite Nat.add_0_r.
  - destruct (String.eqb_spec k' w) as [-> | Hne]; simpl.
    + destruct (String.eqb_spec w k); reflexivity.
    + destruct (String.eqb_spec k' k) as [-> | Hk]; [| exact IH].
      destruct (String.eqb_spec w k); [congruence | reflexivity].
Qed.

Lemma count_of_entry (k : string) (n : nat) (counts : list (string * nat)) :
  NoDup (List.map fst counts) -> In (k, n) counts -> Spec.count_of k counts = n.
Proof.
  induction counts as [|[k' n'] rest IH]; simpl; [tauto |].
  intros Hnd [[= -> ->] | Hin].
  - now rewrite String.eqb_refl.
  - apply NoDup_cons in Hnd as [Hk Hnd].
    destruct (String.eqb_spec k' k) as [-> | Hne]; [| now apply IH].
    destruct Hk. apply list_elem_of_In, List.in_map_iff. now exists (k, n).
Qed.

(** The counts after [words] have been added to [acc]. *)
Lemma Counter_from (words : list string) :
  forall acc : list (string * nat),
    let counts := List.fold_left (fun c w => count_add w c) words acc in
    (NoDup (List.map fst acc) -> NoDup (List.map fst counts)) /\
    (forall k, In k (List.map fst counts) <-> In k words \/ In k (List.map fst acc)) /\
    (forall k, Spec.count_of k counts
               = Spec.occurrences k words + Spec.count_of k acc).
Proof.
  unfold Spec.occurrences.
  induction words as [|w words IH]; intros acc; cbn [List.fold_left].
  - repeat split; simpl; tauto.
  - destruct (IH (count_add w acc)) as (Hnd & Hkeys & Hcount).
    split; [| split].
    + intros Hacc. now apply Hnd, count_add_NoDup.
    + intros k. rewrite Hkeys, count_add_keys. simpl. intuition.
    + intros k. rewrite Hcount, count_of_add. simpl.
      destruct (string_dec w k) as [-> | Hne].
      * rewrite String.eqb_refl. lia.
      * destruct (String.eqb_spec w k); [congruence | lia].
Qed.

(** [Counter(words)] has one entry for each distinct word, with the number
    of its occurrences. *)
Lemma Counter_spec (words : list string) :
  NoDup (List.map fst (Counter words)) /\
  (forall k, In k (List.map fst (Counter words)) <-> In k words) /\
  (forall k n, In (k, n) (Counter words) -> n = Spec.occurrences k words).
Proof.
  destruct (Counter_from words []) as (Hnd & Hkeys & Hcount).
  fold (Counter words) in Hnd, Hkeys, Hcount.
  split; [| split].
  - apply Hnd. apply NoDup_nil_2.
  - intros k. rewrite Hkeys. simpl. tauto.
  - intros k n Hin.
    rewrite <- (count_of_entry k n (Counter words)); [| apply Hnd, NoDup_nil_2 | exact Hin].
    rewrite Hcount. simpl. lia.
Qed.

Lemma insert_by_count_perm (x : string * nat) (l : list (string * nat)) :
  insert_by_count x l ≡ₚ x :: l.
Proof.
  induction l as [|y r IH]; simpl; [reflexivity |].
  destruct (snd y <=? snd x); [reflexivity |].
  rewrite IH. apply perm_swap.
Qed.

Lemma sort_by_count_perm (l : list (string * nat)) : sort_by_count l ≡ₚ l.
Proof.
  induction l as [|x r IH]; simpl; [reflexivity |].
  now rewrite insert_by_count_perm, IH.
Qed.

Lemma insert_by_count_sorted (x : string * nat) (l : list (string * nat)) :
  StronglySorted Spec.count_ge l ->
  StronglySorted Spec.count_ge (insert_by_count x l).
Proof.
  induction l as [|y r IH]; simpl; intros Hs.
  - repeat constructor.
  - apply StronglySorted_inv in Hs as [Hr Hy].
    destruct (Nat.leb_spec (snd y) (snd x)) as [Hle | Hlt].
    + constructor; [now constructor |].
      constructor; [exact Hle |].
      eapply Forall_impl; [exact Hy |].
      intros z Hz. unfold Spec.count_ge in *. lia.
    + constructor; [now apply IH |].
      rewrite insert_by_count_perm. constructor; [| exact Hy].
      unfold Spec.count_ge. lia.
Qed.

Lemma sort_by_count_sorted (l : list (string * nat)) :
  StronglySorted Spec.count_ge (sort_by_count l).
Proof.
  induction l as [|x r IH]; simpl; [constructor |].
  now apply insert_by_count_sorted.
Qed.

End CounterFacts.

Section WordFacts.

#[local] Arguments String.append : simpl nomatch.

(** A run comes out of the text in one piece. *)
Lemma word_runs_go_occurs (s : string) :
  forall (cur w : string),
    In w (PyStr.word_runs_go cur s) -> Spec.occurs_in w (cur +:+ s).
Proof.
  unfold Spec.occurs_in.
  induction s as [|c s IH]; intros cur w; cbn [PyStr.word_runs_go].
  - destruct (String.eqb cur ""); [intros [] |].
    intros [<- | []]. exists "", "". now rewrite str_app_nil_r.
  - destruct (PyStr.is_word_char c).
    + intros Hin. destruct (IH _ _ Hin) as (a & b & Heq).
      exists a, b. rewrite <- Heq, str_app_assoc. reflexivity.
    + rewrite in_app_iff. intros [Hcur | Hin].
      * destruct (String.eqb cur ""); [destruct Hcur |].
        destruct Hcur as [<- | []]. now exists "", (String c s).
      * destruct (IH _ _ Hin) as (a & b & Heq). simpl in Heq.
        exists (cur +:+ String c a), b.
        rewrite str_app_assoc. simpl. now rewrite Heq.
Qed.

(** A run holds characters of the text only. *)
Lemma word_runs_go_chars (P : ascii -> bool) (s : string) :
  forall (cur w : string),
    Spec.all_chars P cur = true -> Spec.all_chars P s = true ->
    In w (PyStr.word_runs_go cur s) -> Spec.all_chars P w = true.
Proof.
  assert (forall a b, Spec.all_chars P (a +:+ b)
                      = Spec.all_chars P a && Spec.all_chars P b) as Happ.
  { intros a b. induction a as [|x a IH]; simpl; [reflexivity |].
    now rewrite IH, andb_assoc. }
  induction s as [|c s IH]; intros cur w Hcur Hs; cbn [PyStr.word_runs_go].
  - destruct (String.eqb cur ""); [intros [] |]. now intros [<- | []].
  - simpl in Hs. apply andb_prop in Hs as [Hc Hs].
    destruct (PyStr.is_word_char c).
    + apply IH; [| exact Hs]. rewrite Happ, Hcur. simpl. now rewrite Hc.
    + rewrite in_app_iff. intros [Hin | Hin].
      * destruct (String.eqb cur ""); [destruct Hin |]. now destruct Hin as [<- | []].
      * now apply (IH "" w).
Qed.

Lemma lower_char_fixed (c : ascii) :
  Ascii.eqb (PyStr.lower_char (PyStr.lower_char c)) (PyStr.lower_char c) = true.
Proof. destruct c as [[] [] [] [] [] [] [] []]; reflexivity. Qed.

Lemma lower_all_fixed (s : string) :
  Spec.all_chars (fun c => Ascii.eqb (PyStr.lower_char c) c) (PyStr.lower s) = true.
Proof.
  induction s as [|c s IH]; simpl; [reflexivity |].
  now rewrite lower_char_fixed, IH.
Qed.

Lemma all_fixed_lower (s : string) :
  Spec.all_chars (fun c => Ascii.eqb (PyStr.lower_char c) c) s = true ->
  PyStr.lower s = s.
Proof.
  induction s as [|c s IH]; simpl; [reflexivity |].
  intros [Hc Hs]%andb_prop. apply Ascii.eqb_eq in Hc. now rewrite Hc, IH.
Qed.

End WordFacts.

Section KeywordFacts.

Import Summarizer.

Open Scope nat_scope.

Variable transcription : string.

Local Abbreviation words := (findall_words (PyStr.lower transcription)).
Local Abbreviation ranked := (sort_by_count (Counter words)).

Lemma keywords_unfold :
  extract_keywords_fallback transcription = List.map fst (take 10 ranked).
Proof. reflexivity. Qed.

Lemma ranked_entry (k : string) (n : nat) :
  In (k, n) ranked -> In k words /\ n = Spec.occurrences k words.
Proof.
  intros Hin. destruct (Counter_spec words) as (_ & Hkeys & Hcount).
  apply list_elem_of_In in Hin.
  rewrite sort_by_count_perm in Hin. apply list_elem_of_In in Hin.
  split; [| now apply Hcount].
  apply Hkeys, List.in_map_iff. now exists (k, n).
Qed.

Lemma ranked_NoDup : NoDup (List.map fst ranked).
Proof.
  destruct (Counter_spec words) as (Hnd & _ & _).
  change (List.map fst) with (fmap (M:=list) (@fst string nat)).
  now rewrite sort_by_count_perm.
Qed.

Lemma ranked_word (k : string) :
  In k words -> In (k, Spec.occurrences k words) ranked.
Proof.
  intros Hin. destruct (Counter_spec words) as (_ & Hkeys & Hcount).
  apply Hkeys, List.in_map_iff in Hin as ([k' n] & Hk & Hin). simpl in Hk. subst k'.
  rewrite <- (Hcount k n Hin).
  apply list_elem_of_In. rewrite sort_by_count_perm.
  now apply list_elem_of_In.
Qed.

Lemma word_shape (w : string) :
  In w words ->
  PyStr.all_letters w = true /\ 4 <= String.length w /\ PyStr.lower w = w /\
  Spec.occurs_in w (PyStr.lower transcription).
Proof.
  unfold findall_words. rewrite List.filter_In.
  intros [Hrun Hok]. apply andb_prop in Hok as [Hletters Hlen].
  apply Nat.leb_le in Hlen. repeat split; [exact Hletters | exact Hlen | |].
  - apply all_fixed_lower.
    apply (word_runs_go_chars _ (PyStr.lower transcription) "" w);
      [reflexivity | apply lower_all_fixed | exact Hrun].
  - now apply (word_runs_go_occurs (PyStr.lower transcription) "" w).
Qed.

(** The keywords are the first ten keys of the ranking. *)
Lemma keyword_entry (i : nat) (k : string) :
  extract_keywords_fallback transcription !! i = Some k ->
  i < 10 /\ ranked !! i = Some (k, Spec.occurrences k words).
Proof.
  rewrite keywords_unfold.
  change (List.map fst) with (fmap (M:=list) (@fst string nat)).
  rewrite list_lookup_fmap_Some. intros ([k' n] & Hk & Hi). simpl in Hk. subst k'.
  apply lookup_take_Some in Hi as [Hi Hlt]. split; [exact Hlt |].
  destruct (ranked_entry k n) as [_ ->]; [| exact Hi].
  apply list_elem_of_In. eapply list_elem_of_lookup_2. exact Hi.
Qed.

Lemma keyword_In (k : string) :
  In k (extract_keywords_fallback transcription) <->
  exists i, i < 10 /\ ranked !! i = Some (k, Spec.occurrences k words).
Proof.
  split.
  - intros Hin. apply list_elem_of_In, list_elem_of_lookup_1 in Hin as [i Hi].
    exists i. now apply keyword_entry.
  - intros (i & Hlt & Hi). apply list_elem_of_In.
    apply (list_elem_of_lookup_2 _ i).
    rewrite keywords_unfold.
    change (List.map fst) with (fmap (M:=list) (@fst string nat)).
    rewrite list_lookup_fmap, lookup_take_lt, Hi by exact Hlt. reflexivity.
Qed.

Lemma ranked_order (i j : nat) (x y : string * nat) :
  i < j -> ranked !! i = Some x -> ranked !! j = Some y -> snd y <= snd x.
Proof.
  intros Hij Hi Hj.
  pose proof (sort_by_count_sorted (Counter words)) as Hsorted.
  rewrite <- (take_drop_middle _ j y Hj) in Hsorted.
  apply (StronglySorted_app_1_elem_of _ _ _ x y) in Hsorted; [exact Hsorted | |].
  - apply elem_of_take. eauto.
  - apply list_elem_of_here.
Qed.

End KeywordFacts.

(** X9. [extract_keywords_fallback] returns at most ten keywords, no keyword
    twice; each one is a word of the lower-cased text made of at least four
    letters and of letters only, in lower case. *)
Theorem extract_keywords_fallback_shape (transcription : string) :
  let keywords := Summarizer.extract_keywords_fallback transcription in
  (length keywords <= 10)%nat /\
  NoDup keywords /\
  forall w, In w keywords ->
    In w (Summarizer.findall_words (PyStr.lower transcription)) /\
    PyStr.all_letters w = true /\
    (4 <= String.length w)%nat /\
    PyStr.lower w = w /\
    Spec.occurs_in w (PyStr.lower transcription).
Proof.
  cbv zeta. split; [| split].
  - rewrite keywords_unfold, List.length_map, length_take. lia.
  - rewrite keywords_unfold.
    change (List.map fst) with (fmap (M:=list) (@fst string nat)).
    rewrite fmap_take. eapply sublist_NoDup; [| apply sublist_take].
    apply ranked_NoDup.
  - intros w Hin. apply keyword_In in Hin as (i & _ & Hi).
    assert (In w (Summarizer.findall_words (PyStr.lower transcription))) as Hw.
    { eapply ranked_entry, list_elem_of_In, list_elem_of_lookup_2, Hi. }
    split; [exact Hw | now apply word_shape].
Qed.

(** X10. The keywords are ranked by frequency: a keyword never stands
    before a more frequent one, every keyword occurs in the text, and a word
    of the text that is left out is no more frequent than any keyword that
    is returned. *)
Theorem extract_keywords_fallback_ranking (transcription : string) :
  let words := Summarizer.findall_words (PyStr.lower transcription) in
  let keywords := Summarizer.extract_keywords_fallback transcription in
  (forall i j a b,
     (i < j)%nat -> keywords !! i = Some a -> keywords !! j = Some b ->
     (Spec.occurrences b words <= Spec.occurrences a words)%nat) /\
  (forall k, In k keywords -> (1 <= Spec.occurrences k words)%nat) /\
  (forall w k,
     In w words -> ~ In w keywords -> In k keywords ->
     (Spec.occurrences w words <= Spec.occurrences k words)%nat).
Proof.
  cbv zeta. split; [| split].
  - intros i j a b Hij Ha Hb.
    apply keyword_entry in Ha as [_ Ha]. apply keyword_entry in Hb as [_ Hb].
    apply (ranked_order transcription i j _ _ Hij Ha Hb).
  - intros k Hin. apply keyword_In in Hin as (i & _ & Hi).
    assert (In k (Summarizer.findall_words (PyStr.lower transcription))) as Hw.
    { eapply ranked_entry, list_elem_of_In, list_elem_of_lookup_2, Hi. }
    unfold Spec.occurrences. apply (count_occ_In string_dec) in Hw. lia.
  - intros w k Hw Hout Hk.
    apply keyword_In in Hk as (i & Hi10 & Hi).
    apply ranked_word, list_elem_of_In, list_elem_of_lookup_1 in Hw as [j Hj].
    destruct (Nat.lt_ge_cases j 10) as [Hlt | Hge].
    + destruct Hout. apply keyword_In. eauto.
    + assert (i < j)%nat as Hij by lia.
      exact (ranked_order transcription i j _ _ Hij Hi Hj).
Qed.

(** X11. Fewer than ten keywords means that nothing was left out: every
    word of the text made of at least four letters is then a keyword.  In
    particular a text without such a word has no keyword. *)
Theorem extract_keywords_fallback_complete (transcription : string) :
  let words := Summarizer.findall_words (PyStr.lower transcription) in
  let keywords := Summarizer.extract_keywords_fallback transcription in
  ((length keywords < 10)%nat -> forall w, In w words -> In w keywords) /\
  (words = [] -> keywords = []) /\
  (keywords = [] -> words = []).
Proof.
  cbv zeta.
  assert ((length (Summarizer.extract_keywords_fallback transcription) < 10)%nat ->
          forall w, In w (Summarizer.findall_words (PyStr.lower transcription)) ->
                    In w (Summarizer.extract_keywords_fallback transcription))
    as Hall.
  { intros Hlen w Hw.
    rewrite keywords_unfold, List.length_map, length_take in Hlen.
    apply ranked_word, list_elem_of_In, list_elem_of_lookup_1 in Hw as [j Hj].
    apply keyword_In. exists j. split; [| exact Hj].
    apply lookup_lt_Some in Hj. lia. }
  split; [exact Hall | split].
  - intros Hnil. unfold Summarizer.extract_keywords_fallback. now rewrite Hnil.
  - intros Hnil.
    destruct (Summarizer.findall_words (PyStr.lower transcription)) as [|w ws] eqn:Hws;
      [reflexivity |].
    assert (In w (Summarizer.extract_keywords_fallback transcription)) as Hin.
    { apply Hall; [rewrite Hnil; simpl; lia | now left]. }
    rewrite Hnil in Hin. destruct Hin.
Qed.

(** ** Video files *)

(** X12. The two metadata readers agree: for every path and every behaviour
    of MoviePy, the [duration] entry of [get_video_info] is the value of
    [get_video_duration], and the record always has its four entries. *)
Theorem video_info_duration_agree
  (E : VideoProcessor.Env) (video_path : string) (fs : gset string) :
  exists info d,
    VideoProcessor.get_video_info E video_path fs = (Ret info, fs) /\
    VideoProcessor.get_video_duration E video_path fs = (Ret d, fs) /\
    info !! "duration" = Some d /\
    dom info = list_to_set ["duration"; "fps"; "width"; "height"].
Proof.
  rewrite get_video_info_cases, get_video_duration_cases.
  eexists _, _. split; [reflexivity |]. split; [reflexivity |].
  destruct (_ && _); [| split; reflexivity].
  destruct (VideoProcessor.VideoFileClip E video_path) as [clip | e];
    [| split; reflexivity].
  destruct (VideoProcessor.close E clip); split; reflexivity.
Qed.

(** X13. [extract_audio] checks before it creates anything: without MoviePy
    it raises the [ImportError], and for a video path that does not exist it
    raises [FileNotFoundError] naming the path; in both cases no temporary
    file has been created (the file system is as it was). *)
Theorem extract_audio_guards
  (E : VideoProcessor.Env) (video_path output_format : string) (fs : gset string) :
  (VideoProcessor.VideoFileClip_imported E = false ->
   VideoProcessor.extract_audio E video_path output_format fs
   = (Raise (ImportError
        "MoviePy is required for audio extraction. Install with: pip install moviepy"),
      fs)) /\
  (VideoProcessor.VideoFileClip_imported E = true -> video_path ∉ fs ->
   VideoProcessor.extract_audio E video_path output_format fs
   = (Raise (FileNotFoundError ("Video file not found: " +:+ video_path)), fs)).
Proof.
  unfold VideoProcessor.extract_audio. split.
  - intros ->. reflexivity.
  - intros -> Hout. cbn [negb]. unfold bind at 1.
    now rewrite (os_path_exists_false _ _ Hout).
Qed.

(** X14. When decoding and writing succeed, [extract_audio] returns the
    path of the temporary file it created, opens the clip at the absolute
    path of the video, and deletes nothing: the file system is the one the
    writer left, so that the audio file is still there when the writer only
    adds files. *)
Theorem extract_audio_success
  (E : VideoProcessor.Env) (video_path output_format audio_path : string)
  (fs fs2 : gset string) (clip : VideoProcessor.Clip) :
  VideoProcessor.VideoFileClip_imported E = true ->
  video_path ∈ fs ->
  VideoProcessor.mkstemp_name E ("." +:+ output_format) fs = Ret audio_path ->
  VideoProcessor.VideoFileClip E (VideoProcessor.abspath E video_path) = Ret clip ->
  VideoProcessor.write_audiofile E clip audio_path ({[audio_path]} ∪ fs)
  = (Ret tt, fs2) ->
  VideoProcessor.close E clip = Ret tt ->
  VideoProcessor.extract_audio E video_path output_format fs
  = (Ret audio_path, fs2) /\
  ({[audio_path]} ∪ fs ⊆ fs2 -> audio_path ∈ fs2 /\ video_path ∈ fs2).
Proof.
  intros Himp Hex Htmp Hopen Hwrite Hclose. split.
  - unfold VideoProcessor.extract_audio. rewrite Himp. cbn [negb].
    unfold bind at 1. rewrite (os_path_exists_true _ _ Hex). cbn [negb].
    unfold bind at 1, VideoProcessor.NamedTemporaryFile. rewrite Htmp.
    unfold try_except, VideoProcessor.extract_audio_try, bind, lift, ret.
    now rewrite Hopen, Hwrite, Hclose.
  - intros Hsub. split; apply Hsub.
    + apply elem_of_union_l. now apply elem_of_singleton.
    + now apply elem_of_union_r.
Qed.

Lemma extract_audio_success_witness :
  VideoProcessor.extract_audio Samples.studio_with_audio "/videos/talk.mp4" "mp3"
    Samples.disk
  = (Ret "/tmp/tmpk3v9.mp3",
     {["/tmp/tmpk3v9.mp3"]} ∪ ({["/tmp/tmpk3v9.mp3"]} ∪ Samples.disk)).
Proof.
  apply (extract_audio_success Samples.studio_with_audio "/videos/talk.mp4" "mp3"
           "/tmp/tmpk3v9.mp3" Samples.disk _ Samples.talk); reflexivity.
Defined.

(** ** Names of the frame images *)

Section DecimalFacts.

#[local] Arguments String.append : simpl nomatch.

Lemma to_int_not_nil (z : Z) :
  Z.to_int z <> Decimal.Pos Decimal.Nil /\ Z.to_int z <> Decimal.Neg Decimal.Nil.
Proof.
  destruct z as [| p | p]; simpl; split; try discriminate;
    intros [= H]; now apply (DecimalPos.Unsigned.to_uint_nonnil p).
Qed.

(** [str] is one-to-one on integers. *)
Lemma of_Z_inj (a b : Z) : PyStr.of_Z a = PyStr.of_Z b -> a = b.
Proof.
  unfold PyStr.of_Z. intros Heq.
  apply DecimalZ.to_int_inj.
  destruct (to_int_not_nil a) as [Ha1 Ha2], (to_int_not_nil b) as [Hb1 Hb2].
  pose proof (NilZero.isi _ Ha1 Ha2) as Ha.
  pose proof (NilZero.isi _ Hb1 Hb2) as Hb.
  rewrite Heq in Ha. congruence.
Qed.

Lemma string_of_uint_digits (d : Decimal.uint) :
  Spec.all_chars Spec.is_digit (NilEmpty.string_of_uint d) = true.
Proof. induction d; simpl; auto. Qed.

(** The decimal text of a natural number holds digits only. *)
Lemma of_Z_nat_digits (i : nat) :
  Spec.all_chars Spec.is_digit (PyStr.of_Z (Z.of_nat i)) = true.
Proof.
  unfold PyStr.of_Z. destruct (Z.of_nat i) as [| p | p] eqn:Hi; [reflexivity | | lia].
  simpl. unfold NilZero.string_of_uint.
  destruct (Pos.to_uint p) eqn:Hp; try apply string_of_uint_digits.
  now apply DecimalPos.Unsigned.to_uint_nonnil in Hp.
Qed.

(** Two texts of digits followed by an underscore: the digits are the same. *)
Lemma digits_then_underscore (a a' x x' : string) :
  Spec.all_chars Spec.is_digit a = true ->
  Spec.all_chars Spec.is_digit a' = true ->
  a +:+ String "_" x = a' +:+ String "_" x' -> a = a'.
Proof.
  revert a'. induction a as [|c a IH]; intros [|c' a']; simpl; intros Ha Ha' Heq.
  - reflexivity.
  - injection Heq as <- _. discriminate.
  - injection Heq as -> _. discriminate.
  - injection Heq as -> Heq.
    apply andb_prop in Ha as [_ Ha]. apply andb_prop in Ha' as [_ Ha'].
    f_equal. now apply IH.
Qed.

Lemma frame_name_inj (i i' : nat) (ts ts' : Z) :
  VideoProcessor.frame_name i ts = VideoProcessor.frame_name i' ts' -> i = i'.
Proof.
  unfold VideoProcessor.frame_name. intros Heq.
  apply (inj (String.append "frame_")) in Heq.
  apply digits_then_underscore in Heq; try apply of_Z_nat_digits.
  apply of_Z_inj in Heq. lia.
Qed.

Lemma os_path_join_frame_inj (dir : string) (i i' : nat) (ts ts' : Z) :
  VideoProcessor.os_path_join dir (VideoProcessor.frame_name i ts)
  = VideoProcessor.os_path_join dir (VideoProcessor.frame_name i' ts') ->
  i = i'.
Proof.
  unfold VideoProcessor.os_path_join.
  change (PyStr.startswith "/" (VideoProcessor.frame_name i ts)) with false.
  change (PyStr.startswith "/" (VideoProcessor.frame_name i' ts')) with false.
  cbv iota. destruct (_ || _); intros Heq.
  - apply (inj (String.append dir)) in Heq. now apply frame_name_inj in Heq.
  - apply (inj (String.append dir)) in Heq.
    apply (inj (String.append "/")) in Heq. now apply frame_name_inj in Heq.
Qed.

End DecimalFacts.

Section FrameNameFacts.

Import VideoProcessor.

Variable E : VideoProcessor.Env.
Variables video_path output_dir : string.

Local Abbreviation named :=
  (fun kt : nat * Q =>
     (Finite (snd kt),
      os_path_join output_dir (frame_name (fst kt) (PyNum.int (snd kt))))).

(** Every record the loop adds is named after the place of its timestamp:
    [picked] lists the places that gave a frame, in increasing order. *)
Lemma capture_loop_names (timestamps : list float) :
  forall (i : nat) (results out : list (float * string)) (fs fs' : gset string),
    capture_loop E video_path output_dir i timestamps results fs = (Ret out, fs') ->
    exists picked : list (nat * Q),
      out = results ++ List.map named picked /\
      StronglySorted lt (List.map fst picked) /\
      forall k q, In (k, q) picked ->
        (i <= k)%nat /\ timestamps !! (k - i)%nat = Some (Finite q).
Proof.
  induction timestamps as [|ts rest IH]; intros i results out fs fs'.
  - intros [= <- <-]. exists []. rewrite List.app_nil_r.
    split; [reflexivity | split; [apply SSorted_nil | intros k ts []]].
  - cbn [capture_loop]. unfold bind at 1.
    rewrite capture_frame_cases.
    destruct (if _ && _ then _ else _) as [f |].
    + unfold bind at 1, lift.
      destruct (Image_fromarray E f) as [img | e]; [| discriminate].
      unfold bind at 1.
      destruct ts as [q | negative |]; [| discriminate | discriminate].
      cbn [int_float]. unfold bind at 1.
      destruct (save_png E img _ fs) as [[[] | e] fs1]; [| discriminate].
      intros Hloop. apply IH in Hloop as (picked & -> & Hsorted & Hpicked).
      exists ((i, q) :: picked). split; [| split].
      * now rewrite <- List.app_assoc.
      * cbn [List.map fst]. constructor; [exact Hsorted |].
        apply Forall_forall. intros k Hk.
        apply list_elem_of_In, List.in_map_iff in Hk as ([k' ts'] & <- & Hin).
        apply Hpicked in Hin as [Hle _]. simpl. lia.
      * intros k ts' [[= <- <-] | Hin].
        -- split; [lia |]. now rewrite Nat.sub_diag.
        -- apply Hpicked in Hin as [Hle Hk]. split; [lia |].
           replace (k - i)%nat with (S (k - S i)) by lia. exact Hk.
    + intros Hloop. apply IH in Hloop as (picked & -> & Hsorted & Hpicked).
      exists picked. split; [reflexivity | split; [exact Hsorted |]].
      intros k ts' Hin. apply Hpicked in Hin as [Hle Hk]. split; [lia |].
      replace (k - i)%nat with (S (k - S i)) by lia. exact Hk.
Qed.

Lemma named_NoDup (picked : list (nat * Q)) :
  StronglySorted lt (List.map fst picked) ->
  NoDup (List.map snd (List.map named picked)).
Proof.
  induction picked as [|[k ts] picked IH]; cbn [List.map fst snd]; intros Hs.
  - apply NoDup_nil_2.
  - apply StronglySorted_inv in Hs as [Hs Hk].
    apply NoDup_cons_2; [| now apply IH].
    intros Hin. apply list_elem_of_In, List.in_map_iff in Hin as ([ts' p] & Hp & Hin).
    apply List.in_map_iff in Hin as ([k' ts''] & [= <- <-] & Hin).
    simpl in Hp. apply os_path_join_frame_inj in Hp. subst k'.
    rewrite Forall_forall in Hk.
    assert (k < k)%nat; [| lia].
    apply Hk, list_elem_of_In, List.in_map_iff. now exists (k, ts'').
Qed.

End FrameNameFacts.

(** X15. The images of one call never collide: when [capture_key_frames]
    returns, each record [(ts, path)] comes from a place [k] of the request
    ([timestamps[k] == ts]), its timestamp is finite, its path is
    [os.path.join(output_dir, f"frame_{k}_{int(ts)}s.png")], in the directory
    given or else the one [tempfile.mkdtemp] made, the records follow the
    order of the request, and no two records have the same path. *)
Theorem capture_key_frames_paths
  (E : VideoProcessor.Env) (video_path : string) (timestamps : list float)
  (output_dir : option string) (fs fs' : gset string)
  (frames : list (float * string)) :
  VideoProcessor.capture_key_frames E video_path timestamps output_dir fs
  = (Ret frames, fs') ->
  exists (dir : string) (picked : list (nat * Q)),
    (forall d, output_dir = Some d -> dir = d) /\
    (output_dir = None -> exists fs1, VideoProcessor.mkdtemp E fs = (Ret dir, fs1)) /\
    frames
    = List.map
        (fun kt => (Finite (snd kt),
                    VideoProcessor.os_path_join dir
                      (VideoProcessor.frame_name (fst kt) (PyNum.int (snd kt)))))
        picked /\
    StronglySorted lt (List.map fst picked) /\
    (forall k q, In (k, q) picked -> timestamps !! k = Some (Finite q)) /\
    NoDup (List.map snd frames).
Proof.
  unfold VideoProcessor.capture_key_frames. unfold bind at 1.
  destruct (match output_dir with Some d => ret d | None => _ end fs)
    as [[dir | e] fs1] eqn:Hdir; [| discriminate].
  unfold bind at 1.
  destruct (VideoProcessor.makedirs E dir fs1) as [[[] | e] fs2]; [| discriminate].
  intros Hloop.
  apply capture_loop_names in Hloop as (picked & -> & Hsorted & Hpicked).
  exists dir, picked.
  split; [| split; [| split; [reflexivity | split; [exact Hsorted | split]]]].
  - intros d ->. unfold ret in Hdir. congruence.
  - intros ->. now exists fs1.
  - intros k ts Hin. apply Hpicked in Hin as [_ Hk].
    now rewrite Nat.sub_0_r in Hk.
  - now apply named_NoDup.
Qed.

Lemma capture_key_frames_paths_witness :
  exists frames fs',
    VideoProcessor.capture_key_frames Samples.studio "/videos/talk.mp4"
      [Finite 5; Finite 100; Finite (7 # 2)] (Some "/tmp/frames") Samples.disk
    = (Ret frames, fs') /\
    NoDup (List.map snd frames).
Proof.
  destruct (VideoProcessor.capture_key_frames Samples.studio "/videos/talk.mp4"
              [Finite 5; Finite 100; Finite (7 # 2)] (Some "/tmp/frames") Samples.disk)
    as [[frames | e] fs'] eqn:Hrun; [| vm_compute in Hrun; discriminate].
  exists frames, fs'. split; [reflexivity |].
  destruct (capture_key_frames_paths _ _ _ _ _ _ _ Hrun)
    as (dir & picked & _ & _ & _ & _ & _ & Hnd).
  exact Hnd.
Defined.

(** X27. [int(ts)] is evaluated outside any [try].  With directory creation,
    image conversion and image writing succeeding, the first timestamp that
    is captured and is an infinity or NaN makes [capture_key_frames] raise,
    [OverflowError] for an infinity and [ValueError] for NaN: the records of
    the timestamps before it are not returned. *)
Theorem capture_key_frames_not_finite
  (E : VideoProcessor.Env) (video_path : string) (fs : gset string)
  (before after : list float) (ts : float) (output_dir : option string) :
  (forall f, exists img, VideoProcessor.Image_fromarray E f = Ret img) ->
  (forall img path, Spec.only_adds_files (VideoProcessor.save_png E img path)) ->
  Spec.only_adds_files (VideoProcessor.mkdtemp E) ->
  (forall d, Spec.only_adds_files (VideoProcessor.makedirs E d)) ->
  video_path ∈ fs ->
  Forall (fun t => Spec.captured E video_path fs t = true -> is_finite t = true)
    before ->
  Spec.captured E video_path fs ts = true ->
  is_finite ts = false ->
  exists fs',
    VideoProcessor.capture_key_frames E video_path (before ++ ts :: after)
      output_dir fs
    = (Raise (match ts with
              | NaN => ValueError "cannot convert float NaN to integer"
              | _ => OtherException "OverflowError"
                       "cannot convert float infinity to integer"
              end), fs').
Proof.
  intros Himg Hsave Hmkd Hmk Hin Hbefore Hts Hinf.
  destruct (capture_key_frames_raises E video_path Himg Hsave Hmkd Hmk
              before after ts output_dir fs Hin Hbefore Hts Hinf)
    as (e & fs' & Hrun & He).
  exists fs'. rewrite Hrun.
  destruct ts as [q | negative |]; [discriminate Hinf | |];
    cbn [int_float] in He; now injection He as <-.
Qed.

Lemma capture_key_frames_not_finite_witness :
  exists fs',
    VideoProcessor.capture_key_frames Samples.studio "/videos/talk.mp4"
      ([Finite 5] ++ Inf false :: [Finite 7]) (Some "/tmp/frames") Samples.disk
    = (Raise (OtherException "OverflowError"
                "cannot convert float infinity to integer"), fs').
Proof.
  destruct (studio_only_adds (VideoProcessor.get_frame Samples.studio))
    as (Himg & Hsave & Hmkd & Hmk & Hin).
  apply (capture_key_frames_not_finite Samples.studio "/videos/talk.mp4" Samples.disk
           [Finite 5] [Finite 7] (Inf false) (Some "/tmp/frames")
           Himg Hsave Hmkd Hmk Hin).
  - repeat constructor.
  - reflexivity.
  - reflexivity.
Defined.

(** ** The extension of a path *)

Section PathFacts.

#[local] Arguments String.append : simpl nomatch.

Lemma startswith_slash (c : ascii) (s : string) :
  PyStr.startswith "/" (String c s) = Ascii.eqb c "/".
Proof. cbn [PyStr.startswith]. rewrite Ascii.eqb_sym. now destruct (Ascii.eqb c "/"). Qed.

(** A text without a slash is one path component. *)
Lemma split_slash_none (n cur : string) :
  Spec.no_char "/" n = true -> PyStr.split_go "/" 0 cur n = [cur +:+ n].
Proof.
  revert cur. induction n as [|c n IH]; intros cur Hno.
  - simpl. now rewrite str_app_nil_r.
  - simpl in Hno. apply andb_prop in Hno as [Hc Hno]. apply negb_true_iff in Hc.
    cbn [PyStr.split_go]. rewrite startswith_slash, Hc, (IH _ Hno).
    now rewrite str_app_assoc.
Qed.

(** The last component of [a/n] is [n]. *)
Lemma split_slash_last (a n cur : string) :
  Spec.no_char "/" n = true ->
  exists l, PyStr.split_go "/" 0 cur (a +:+ String "/" n) = l ++ [n].
Proof.
  intros Hno. revert cur. induction a as [|c a IH]; intros cur.
  - change ("" +:+ String "/" n) with (String "/" n).
    cbn [PyStr.split_go PyStr.startswith Ascii.eqb Bool.eqb String.length Nat.sub].
    rewrite (split_slash_none n "" Hno). now exists [cur].
  - change (String c a +:+ String "/" n) with (String c (a +:+ String "/" n)).
    cbn [PyStr.split_go]. rewrite startswith_slash.
    destruct (Ascii.eqb c "/").
    + cbn [String.length Nat.sub]. destruct (IH "") as [l ->]. now exists (cur :: l).
    + apply IH.
Qed.

Lemma path_name_of_pieces (l : list string) (n : string) :
  n <> "" -> n <> "." ->
  List.last
    (List.filter
       (fun p => negb (String.eqb p EmptyString) && negb (String.eqb p "."))
       (l ++ [n]))
    EmptyString = n.
Proof.
  intros H1 H2. rewrite List.filter_app. cbn [List.filter].
  apply String.eqb_neq in H1, H2. rewrite H1, H2. cbn [negb andb].
  apply List.last_last.
Qed.

Lemma path_name_last (a n : string) :
  Spec.no_char "/" n = true -> n <> "" -> n <> "." ->
  VideoProcessor.path_name n = n /\
  VideoProcessor.path_name (a +:+ String "/" n) = n.
Proof.
  intros Hno H1 H2. unfold VideoProcessor.path_name, PyStr.split. split.
  - rewrite (split_slash_none n "" Hno). now apply (path_name_of_pieces []).
  - destruct (split_slash_last a n "" Hno) as [l ->]. now apply path_name_of_pieces.
Qed.

Lemma rev_app_app (a b acc : string) :
  String.rev_app (a +:+ b) acc = String.rev_app b (String.rev_app a acc).
Proof.
  revert acc. induction a as [|c a IH]; intros acc; simpl; [reflexivity | apply IH].
Qed.

(** A directory name that ends in a slash. *)
Lemma ends_with_slash (dir : string) :
  PyStr.startswith "/" (String.rev dir) = true -> exists d, dir = d +:+ "/".
Proof.
  destruct dir as [|c0 dir0]; [discriminate |].
  destruct (last_split (String c0 dir0)) as (init & l & ->); [discriminate |].
  unfold String.rev. rewrite rev_app_app. cbn [String.rev_app].
  rewrite startswith_slash. intros Hl%Ascii.eqb_eq. subst l. now exists init.
Qed.

Lemma path_name_join (dir n : string) :
  Spec.no_char "/" n = true -> n <> "" -> n <> "." ->
  VideoProcessor.path_name (VideoProcessor.os_path_join dir n) = n.
Proof.
  intros Hno H1 H2. destruct (path_name_last "" n Hno H1 H2) as [Hn _].
  unfold VideoProcessor.os_path_join.
  destruct n as [|c n]; [congruence |].
  rewrite startswith_slash.
  assert (Ascii.eqb c "/" = false) as ->.
  { simpl in Hno. apply andb_prop in Hno as [Hc _]. now apply negb_true_iff in Hc. }
  destruct (String.eqb_spec dir "") as [-> | Hdir]; cbn [orb].
  - exact Hn.
  - destruct (PyStr.startswith "/" (String.rev dir)) eqn:Hend.
    + apply ends_with_slash in Hend as [d ->]. rewrite str_app_assoc.
      now apply (path_name_last d (String c n)).
    + now apply (path_name_last dir (String c n)).
Qed.

Lemma rfind_dot_none (e : string) :
  Spec.no_char "." e = true -> PyStr.rfind_dot e = None.
Proof.
  induction e as [|c e IH]; simpl; [reflexivity |].
  intros [Hc He]%andb_prop. apply negb_true_iff in Hc. now rewrite IH, Hc.
Qed.

Lemma rfind_dot_last (base e : string) :
  Spec.no_char "." e = true ->
  PyStr.rfind_dot (base +:+ String "." e) = Some (String.length base).
Proof.
  intros He. induction base as [|c base IH]; simpl.
  - now rewrite (rfind_dot_none e He).
  - now rewrite IH.
Qed.

Lemma str_drop_app (base x : string) : PyStr.drop (String.length base) (base +:+ x) = x.
Proof. induction base as [|c base IH]; simpl; [now destruct x | exact IH]. Qed.

Lemma str_length_app (a b : string) :
  String.length (a +:+ b) = (String.length a + String.length b)%nat.
Proof. induction a as [|c a IH]; simpl; [reflexivity | now rewrite IH]. Qed.

Lemma no_char_app (x : ascii) (a b : string) :
  Spec.no_char x (a +:+ b) = Spec.no_char x a && Spec.no_char x b.
Proof.
  induction a as [|c a IH]; simpl; [reflexivity |]. now rewrite IH, andb_assoc.
Qed.

End PathFacts.

Lemma path_with_extension_supported (dir base e : string) :
  base <> "" ->
  Spec.no_char "/" base = true ->
  e <> "" ->
  Spec.no_char "." e = true ->
  Spec.no_char "/" e = true ->
  let name := base +:+ String "." e in
  let accepted :=
    bool_decide (PyStr.lower (String "." e) ∈ VideoProcessor.SUPPORTED_VIDEO_FORMATS) in
  VideoProcessor.path_suffix name = String "." e /\
  VideoProcessor.is_supported_video name = accepted /\
  VideoProcessor.is_supported_video (dir +:+ String "/" name) = accepted /\
  VideoProcessor.is_supported_video (VideoProcessor.os_path_join dir name) = accepted.
Proof.
  intros Hbase Hslash He Hdot Heslash name accepted.
  assert (Spec.no_char "/" name = true) as Hname.
  { unfold name. rewrite no_char_app, Hslash. simpl. exact Heslash. }
  assert (name <> "" /\ name <> ".") as [Hn1 Hn2].
  { unfold name. destruct base as [|c base]; [congruence |].
    split; [discriminate |]. destruct base; discriminate. }
  assert (forall p, VideoProcessor.path_name p = name ->
                    VideoProcessor.path_suffix p = String "." e) as Hsuffix.
  { intros p Hp. unfold VideoProcessor.path_suffix. rewrite Hp. unfold name.
    rewrite (rfind_dot_last base e Hdot), str_length_app, str_drop_app.
    assert ((0 <? String.length base)%nat = true) as ->.
    { apply Nat.ltb_lt. destruct base; [congruence | simpl; lia]. }
    assert ((String.length base + 1
             <? String.length base + String.length (String "." e))%nat = true) as ->;
      [| reflexivity].
    apply Nat.ltb_lt. destruct e; [congruence | simpl; lia]. }
  destruct (path_name_last dir name Hname Hn1 Hn2) as [Hp1 Hp2].
  pose proof (path_name_join dir name Hname Hn1 Hn2) as Hp3.
  unfold VideoProcessor.is_supported_video.
  rewrite (Hsuffix _ Hp1), (Hsuffix _ Hp2), (Hsuffix _ Hp3). auto.
Qed.

(** X16. The extension that counts is the text from the last dot of the
    last path component.  For a base name that is not empty and has no slash,
    and an extension [e] that is not empty and has neither dot nor slash, the
    suffix of [base.e], of [dir/base.e] and of [os.path.join(dir, "base.e")]
    is [".e"], so [is_supported_video] accepts the path exactly when [".e"],
    lower-cased, is a supported format. *)
Theorem is_supported_video_by_extension (dir base e : string) :
  base <> "" ->
  Spec.no_char "/" base = true ->
  e <> "" ->
  Spec.no_char "." e = true ->
  Spec.no_char "/" e = true ->
  let name := base +:+ String "." e in
  let accepted :=
    bool_decide (PyStr.lower (String "." e) ∈ VideoProcessor.SUPPORTED_VIDEO_FORMATS) in
  VideoProcessor.path_suffix name = String "." e /\
  VideoProcessor.is_supported_video name = accepted /\
  VideoProcessor.is_supported_video (dir +:+ String "/" name) = accepted /\
  VideoProcessor.is_supported_video (VideoProcessor.os_path_join dir name) = accepted.
Proof. exact (path_with_extension_supported dir base e). Qed.

Lemma is_supported_video_by_extension_witness :
  VideoProcessor.is_supported_video
    (VideoProcessor.os_path_join "/tmp/tmpdl" "talk.final.MP4") = true /\
  VideoProcessor.is_supported_video
    (VideoProcessor.os_path_join "/tmp/tmpdl" "video.m4a") = false.
Proof.
  split.
  - destruct (is_supported_video_by_extension "/tmp/tmpdl" "talk.final" "MP4")
      as (_ & _ & _ & Hjoin);
      [discriminate | reflexivity | discriminate | reflexivity | reflexivity |].
    exact Hjoin.
  - destruct (is_supported_video_by_extension "/tmp/tmpdl" "video" "m4a")
      as (_ & _ & _ & Hjoin);
      [discriminate | reflexivity | discriminate | reflexivity | reflexivity |].
    exact Hjoin.
Defined.

(** ** Downloading *)

Section DownloadFacts.

Import App.

#[local] Arguments String.append : simpl nomatch.

Variable E : App.DownloadEnv.

(** The scan of the listing: it returns, leaves the files alone, and stops
    at the first regular file with a media extension. *)
Lemma first_media_file_spec (output_dir : string) (names : list string)
  (fs : gset string) :
  exists found,
    first_media_file E output_dir names fs = (Ret found, fs) /\
    match found with
    | Some p =>
        exists before f after,
          names = before ++ f :: after /\
          p = VideoProcessor.os_path_join output_dir f /\
          os_path_isfile E p fs = true /\
          has_media_extension f = true /\
          Forall (fun g =>
                    os_path_isfile E (VideoProcessor.os_path_join output_dir g) fs
                    && has_media_extension g = false) before
    | None =>
        Forall (fun g =>
                  os_path_isfile E (VideoProcessor.os_path_join output_dir g) fs
                  && has_media_extension g = false) names
    end.
Proof.
  induction names as [|f rest IH]; cbn [first_media_file].
  - exists None. split; [reflexivity | constructor].
  - unfold bind, isfile.
    destruct (os_path_isfile E _ fs && has_media_extension f) eqn:Hf.
    + exists (Some (VideoProcessor.os_path_join output_dir f)).
      split; [reflexivity |]. apply andb_prop in Hf as [Hfile Hext].
      exists [], f, rest. repeat split; auto.
    + destruct IH as (found & -> & Hfound). exists found. split; [reflexivity |].
      destruct found as [p |].
      * destruct Hfound as (before & g & after & -> & -> & Hfile & Hext & Hbefore).
        exists (f :: before), g, after. repeat split; auto.
      * now constructor.
Qed.

Lemma download_error_message_not_empty (err : string) :
  download_error_message err <> "".
Proof. unfold download_error_message. repeat case_match; discriminate. Qed.

End DownloadFacts.

Lemma download_youtube_video_some
  (E : App.DownloadEnv) (url p message : string) (fs fs' : gset string) :
  App.download_youtube_video E url fs = (Ret (Some p, message), fs') ->
  message = "" /\
  exists dir fs1 options fs2 names before f after,
    App.tempfile_mkdtemp E fs = (Ret dir, fs1) /\
    App.YoutubeDL_download E options [PyStr.strip url] fs1 = (Ret tt, fs2) /\
    App.opt_outtmpl options = VideoProcessor.os_path_join dir "video.%(ext)s" /\
    App.os_listdir E dir fs2 = (Ret names, fs') /\
    names = before ++ f :: after /\
    p = VideoProcessor.os_path_join dir f /\
    App.os_path_isfile E p fs' = true /\
    App.has_media_extension f = true /\
    Forall (fun g =>
              App.os_path_isfile E (VideoProcessor.os_path_join dir g) fs'
              && App.has_media_extension g = false) before.
Proof.
  unfold App.download_youtube_video.
  destruct (App.yt_dlp_imported E); cbn [negb]; [| discriminate].
  unfold try_except. unfold bind at 1.
  destruct (App.tempfile_mkdtemp E fs) as [[dir | e] fs1] eqn:Hdir; [| discriminate].
  unfold bind at 1.
  destruct (App.YoutubeDL_download E _ _ fs1) as [[[] | e] fs2] eqn:Hdl; [| discriminate].
  unfold bind at 1.
  destruct (App.os_listdir E dir fs2) as [[names | e] fs3] eqn:Hls; [| discriminate].
  unfold bind at 1.
  destruct (first_media_file_spec E dir names fs3) as (found & -> & Hfound).
  destruct found as [q |]; [| discriminate].
  intros [= <- <- <-]. split; [reflexivity |].
  destruct Hfound as (before & f & after & Hnames & Hp & Hfile & Hext & Hbefore).
  eexists dir, fs1, _, fs2, names, before, f, after.
  split; [reflexivity |]. split; [exact Hdl |]. split; [reflexivity |]. auto 10.
Qed.

(** X17. [download_youtube_video] never raises: it returns either a path
    with an empty message, or no path with a message that is not empty.
    Without [yt_dlp] it downloads nothing and says how to install it. *)
Theorem download_youtube_video_returns
  (E : App.DownloadEnv) (url : string) (fs : gset string) :
  (exists path message fs',
     App.download_youtube_video E url fs = (Ret (path, message), fs') /\
     ((exists p, path = Some p /\ message = "") \/
      (path = None /\ message <> ""))) /\
  (App.yt_dlp_imported E = false ->
   App.download_youtube_video E url fs
   = (Ret (None, "yt-dlp is not installed. Run: pip install yt-dlp"), fs)).
Proof.
  unfold App.download_youtube_video.
  destruct (App.yt_dlp_imported E); cbn [negb]; [| split; [| reflexivity]].
  2: { eexists _, _, _. split; [reflexivity |]. right. split; [reflexivity | discriminate]. }
  split; [| discriminate].
  unfold try_except. unfold bind at 1.
  destruct (App.tempfile_mkdtemp E fs) as [[dir | e] fs1].
  2: { eexists _, _, _. split; [reflexivity |]. right.
       split; [reflexivity | apply download_error_message_not_empty]. }
  unfold bind at 1.
  destruct (App.YoutubeDL_download E _ _ fs1) as [[[] | e] fs2].
  2: { eexists _, _, _. split; [reflexivity |]. right.
       split; [reflexivity | apply download_error_message_not_empty]. }
  unfold bind at 1.
  destruct (App.os_listdir E dir fs2) as [[names | e] fs3].
  2: { eexists _, _, _. split; [reflexivity |]. right.
       split; [reflexivity | apply download_error_message_not_empty]. }
  unfold bind at 1.
  destruct (first_media_file_spec E dir names fs3) as (found & -> & _).
  destruct found as [p |]; eexists _, _, _; (split; [reflexivity |]).
  - left. eauto.
  - right. split; [reflexivity | discriminate].
Qed.

(** X18. A path returned by [download_youtube_video] is the first entry of
    the listing of the fresh directory, in the order of the listing, that is a
    regular file and whose name, lower-cased, ends in [.mp4], [.mkv], [.webm]
    or [.m4a]; the download was asked for the trimmed address alone, with the
    output template [video.%(ext)s] in that directory. *)
Theorem download_youtube_video_found
  (E : App.DownloadEnv) (url p message : string) (fs fs' : gset string) :
  App.download_youtube_video E url fs = (Ret (Some p, message), fs') ->
  message = "" /\
  exists dir fs1 options fs2 names before f after,
    App.tempfile_mkdtemp E fs = (Ret dir, fs1) /\
    App.YoutubeDL_download E options [PyStr.strip url] fs1 = (Ret tt, fs2) /\
    App.opt_outtmpl options = VideoProcessor.os_path_join dir "video.%(ext)s" /\
    App.os_listdir E dir fs2 = (Ret names, fs') /\
    names = before ++ f :: after /\
    p = VideoProcessor.os_path_join dir f /\
    App.os_path_isfile E p fs' = true /\
    App.has_media_extension f = true /\
    Forall (fun g =>
              App.os_path_isfile E (VideoProcessor.os_path_join dir g) fs'
              && App.has_media_extension g = false) before.
Proof. exact (download_youtube_video_some E url p message fs fs'). Qed.

Lemma download_youtube_video_found_witness :
  fst (App.download_youtube_video
         (Samples.downloader ["notes.txt"; "video.MP4"; "video.webm"])
         " https://youtu.be/abc " ∅)
  = Ret (Some "/tmp/tmpdl/video.MP4", "") /\
  exists f,
    "/tmp/tmpdl/video.MP4" = VideoProcessor.os_path_join "/tmp/tmpdl" f /\
    App.has_media_extension f = true.
Proof.
  split; [reflexivity |].
  destruct (download_youtube_video_found
              (Samples.downloader ["notes.txt"; "video.MP4"; "video.webm"])
              " https://youtu.be/abc " "/tmp/tmpdl/video.MP4" "" ∅
              ({["/tmp/tmpdl"]} ∪ ∅) eq_refl)
    as (_ & dir & fs1 & options & fs2 & names & before & f & after
        & Hdir & _ & _ & _ & _ & Hp & _ & Hext & _).
  injection Hdir as <- _. now exists f.
Defined.

Section MessageFacts.

#[local] Arguments String.append : simpl nomatch.

Lemma str_length_take (n : nat) (s : string) :
  (String.length (PyStr.take n s) <= n)%nat.
Proof.
  revert s. induction n as [|n IH]; intros [|c s]; simpl; try lia.
  specialize (IH s). lia.
Qed.

Lemma occurs_in_lower (p s : string) :
  Spec.occurs_in p s -> Spec.occurs_in (PyStr.lower p) (PyStr.lower s).
Proof.
  intros (a & b & ->). exists (PyStr.lower a), (PyStr.lower b).
  now rewrite !lower_app.
Qed.

Lemma occurs_in_part (p q s : string) :
  Spec.occurs_in (p +:+ q) s -> Spec.occurs_in p s.
Proof.
  intros (a & b & ->). exists a, (q +:+ b). now rewrite str_app_assoc.
Qed.

(** The two tests written with a capital letter add nothing to the
    case-insensitive ones. *)
Lemma contains_private (err : string) :
  PyStr.contains "Private video" err || PyStr.contains "private" (PyStr.lower err)
  = PyStr.contains "private" (PyStr.lower err).
Proof.
  destruct (PyStr.contains "Private video" err) eqn:Hp; [| reflexivity].
  apply contains_spec, occurs_in_lower in Hp.
  apply (occurs_in_part "private" " video") in Hp.
  apply contains_spec in Hp. now rewrite Hp.
Qed.

Lemma contains_unavailable (err : string) :
  PyStr.contains "Video unavailable" err
  || PyStr.contains "unavailable" (PyStr.lower err)
  = PyStr.contains "unavailable" (PyStr.lower err).
Proof.
  destruct (PyStr.contains "Video unavailable" err) eqn:Hp; [| reflexivity].
  apply contains_spec, occurs_in_lower in Hp.
  destruct Hp as (a & b & Hp).
  assert (Spec.occurs_in "unavailable" (PyStr.lower err)) as Hu.
  { exists (a +:+ "video "), b. rewrite Hp, str_app_assoc. reflexivity. }
  apply contains_spec in Hu. now rewrite Hu.
Qed.

End MessageFacts.

(** X19. What the user reads when the download fails with the text [err].
    A text that holds [FFmpeg] or [ffmpeg] (these two spellings only) gives
    the FFmpeg hint, whatever else it holds; otherwise a text that holds
    [private] in any letter case gives the private-video message; otherwise
    one that holds [unavailable] in any letter case gives the unavailable
    message; any other text is shown after ["Download failed: "], cut to its
    first 200 characters.  No message is longer than 217 characters. *)
Theorem download_error_message_cases (err : string) :
  let message := App.download_error_message err in
  let ffmpeg := Spec.occurs_in "FFmpeg" err \/ Spec.occurs_in "ffmpeg" err in
  let private := Spec.occurs_in "private" (PyStr.lower err) in
  let unavailable := Spec.occurs_in "unavailable" (PyStr.lower err) in
  (ffmpeg ->
   message = "FFmpeg is required. Install from https://ffmpeg.org/download.html") /\
  (~ ffmpeg -> private -> message = "This video is private or unavailable.") /\
  (~ ffmpeg -> ~ private -> unavailable ->
   message = "Video is unavailable (deleted, age-restricted, or region-blocked).") /\
  (~ ffmpeg -> ~ private -> ~ unavailable ->
   message = "Download failed: " +:+ PyStr.take 200 err) /\
  (String.length message <= 217)%nat.
Proof.
  cbv zeta. unfold App.download_error_message.
  rewrite contains_private, contains_unavailable.
  rewrite <- !contains_spec.
  destruct (PyStr.contains "FFmpeg" err) eqn:H1;
    destruct (PyStr.contains "ffmpeg" err) eqn:H2; cbn [orb];
    try (repeat split; try tauto; try (intros; exfalso; tauto); simpl; lia).
  destruct (PyStr.contains "private" (PyStr.lower err)) eqn:H3.
  { repeat split; try tauto; try (intros; exfalso; intuition congruence); simpl; lia. }
  destruct (PyStr.contains "unavailable" (PyStr.lower err)) eqn:H4.
  { repeat split; try tauto; try (intros; exfalso; intuition congruence); simpl; lia. }
  repeat split; try tauto; try (intros; exfalso; intuition congruence).
  rewrite str_length_app. change (String.length "Download failed: ") with 17%nat.
  pose proof (str_length_take 200 err). lia.
Qed.

(** X20. When the download itself raises, [download_youtube_video] returns
    no path and the message made from the text of the exception; nothing is
    listed or scanned after the failure. *)
Theorem download_youtube_video_failure
  (E : App.DownloadEnv) (url dir : string) (fs fs1 fs2 : gset string) (e : exn) :
  App.yt_dlp_imported E = true ->
  App.tempfile_mkdtemp E fs = (Ret dir, fs1) ->
  App.YoutubeDL_download E
    {| App.opt_format := "best[ext=mp4]/best[ext=webm]/best";
       App.opt_outtmpl := VideoProcessor.os_path_join dir "video.%(ext)s";
       App.opt_merge_output_format := "mp4";
       App.opt_quiet := true;
       App.opt_no_warnings := true;
       App.opt_extract_flat := false |}
    [PyStr.strip url] fs1 = (Raise e, fs2) ->
  App.download_youtube_video E url fs
  = (Ret (None, App.download_error_message (str e)), fs2).
Proof.
  intros Himp Hdir Hdl. unfold App.download_youtube_video.
  rewrite Himp. cbn [negb]. unfold try_except. unfold bind at 1. rewrite Hdir.
  cbv zeta. unfold bind at 1. now rewrite Hdl.
Qed.

Lemma download_youtube_video_failure_witness :
  App.download_youtube_video
    (Samples.failing_downloader
       "ERROR: [youtube] abc: Private video. Sign in if you've been granted access")
    "https://youtu.be/abc" ∅
  = (Ret (None, "This video is private or unavailable."), {["/tmp/tmpdl"]} ∪ ∅).
Proof.
  apply (download_youtube_video_failure
           (Samples.failing_downloader
              "ERROR: [youtube] abc: Private video. Sign in if you've been granted access")
           "https://youtu.be/abc" "/tmp/tmpdl" ∅ ({["/tmp/tmpdl"]} ∪ ∅)
           ({["/tmp/tmpdl"]} ∪ ∅)
           (OtherException "DownloadError"
              "ERROR: [youtube] abc: Private video. Sign in if you've been granted access"));
    reflexivity.
Defined.

(** ** A downloaded file and the format check *)

Section ExtensionFacts.

#[local] Arguments String.append : simpl nomatch.

Lemma endswith_spec (suffix s : string) :
  PyStr.endswith suffix s = true <-> exists pre, s = pre +:+ suffix.
Proof.
  split.
  - induction s as [|c s IH]; cbn [PyStr.endswith].
    + destruct (String.eqb_spec "" suffix) as [<- | Hne]; [| discriminate].
      intros _. now exists "".
    + destruct (String.eqb_spec (String c s) suffix) as [<- | Hne].
      * intros _. now exists "".
      * intros Hs. destruct (IH Hs) as [pre ->]. now exists (String c pre).
  - intros [pre ->]. induction pre as [|c pre IH].
    + change ("" +:+ suffix) with suffix.
      destruct suffix; cbn [PyStr.endswith]; now rewrite String.eqb_refl.
    + change (String c pre +:+ suffix) with (String c (pre +:+ suffix)).
      cbn [PyStr.endswith]. rewrite IH. now destruct (String.eqb _ _).
Qed.

Lemma lower_app_inv (s a b : string) :
  PyStr.lower s = a +:+ b ->
  exists a' b', s = a' +:+ b' /\ PyStr.lower a' = a /\ PyStr.lower b' = b.
Proof.
  revert s. induction a as [|x a IH]; intros s Hs.
  - now exists "", s.
  - destruct s as [|c s]; [discriminate |]. simpl in Hs. injection Hs as Hc Hs.
    destruct (IH s Hs) as (a' & b' & -> & Ha & Hb).
    exists (String c a'), b'. simpl. now rewrite Hc, Ha.
Qed.

Lemma lower_char_dot_slash (c : ascii) :
  Ascii.eqb (PyStr.lower_char c) "." = Ascii.eqb c "." /\
  Ascii.eqb (PyStr.lower_char c) "/" = Ascii.eqb c "/".
Proof. destruct c as [[] [] [] [] [] [] [] []]; split; reflexivity. Qed.

Lemma no_char_lower (e : string) :
  Spec.no_char "." (PyStr.lower e) = Spec.no_char "." e /\
  Spec.no_char "/" (PyStr.lower e) = Spec.no_char "/" e.
Proof.
  induction e as [|c e [IH1 IH2]]; simpl; [split; reflexivity |].
  destruct (lower_char_dot_slash c) as [-> ->]. now rewrite IH1, IH2.
Qed.

(** A name with a media extension is a base name, a dot and one of the
    four extensions in some letter case. *)
Lemma has_media_extension_shape (f : string) :
  App.has_media_extension f = true ->
  exists base e,
    f = base +:+ String "." e /\
    In (PyStr.lower e) ["mp4"; "mkv"; "webm"; "m4a"].
Proof.
  unfold App.has_media_extension. rewrite !orb_true_iff, !endswith_spec.
  intros Hext.
  assert (exists pre ext, PyStr.lower f = pre +:+ String "." ext /\
                          In ext ["mp4"; "mkv"; "webm"; "m4a"])
    as (pre & ext & Hf & Hin).
  { destruct Hext as [[[[pre ->] | [pre ->]] | [pre ->]] | [pre ->]];
      eexists pre, _; (split; [reflexivity |]); simpl; auto. }
  apply lower_app_inv in Hf as (base & dote & -> & _ & Hdot).
  destruct dote as [|c e]; [discriminate |]. simpl in Hdot. injection Hdot as Hc He.
  assert (c = "."%char) as ->.
  { apply Ascii.eqb_eq. destruct (lower_char_dot_slash c) as [<- _].
    now apply Ascii.eqb_eq. }
  exists base, e. split; [reflexivity | now rewrite He].
Qed.

Lemma hidden_name_suffix (e : string) :
  Spec.no_char "." e = true -> Spec.no_char "/" e = true -> e <> "" ->
  forall dir,
    VideoProcessor.path_suffix (VideoProcessor.os_path_join dir (String "." e)) = "".
Proof.
  intros Hdot Hslash He dir.
  unfold VideoProcessor.path_suffix.
  rewrite path_name_join; [| simpl; exact Hslash | discriminate
                           | destruct e; [congruence | discriminate]].
  change (String "." e) with ("" +:+ String "." e).
  now rewrite (rfind_dot_last "" e Hdot).
Qed.

End ExtensionFacts.

(** X21. The downloader and the format check do not agree.  When the
    entries of a directory listing have no slash, a path returned by
    [download_youtube_video] is [os.path.join(dir, base + "." + e)] with [e]
    one of [mp4], [mkv], [webm], [m4a] in some letter case, and
    [is_supported_video] accepts it exactly when the base name is not empty
    and [e] is not [m4a]: an audio-only download is returned as a success and
    then turned down by the format check. *)
Theorem download_then_supported
  (E : App.DownloadEnv) (url p message : string) (fs fs' : gset string) :
  (forall dir names fs1 fs2,
     App.os_listdir E dir fs1 = (Ret names, fs2) ->
     Forall (fun f => Spec.no_char "/" f = true) names) ->
  App.download_youtube_video E url fs = (Ret (Some p, message), fs') ->
  exists dir base e,
    p = VideoProcessor.os_path_join dir (base +:+ String "." e) /\
    In (PyStr.lower e) ["mp4"; "mkv"; "webm"; "m4a"] /\
    (VideoProcessor.is_supported_video p = true <->
     base <> "" /\ PyStr.lower e <> "m4a").
Proof.
  intros Hlisting Hrun.
  apply download_youtube_video_some in Hrun
    as (_ & dir & fs1 & options & fs2 & names & before & f & after
        & _ & _ & _ & Hls & Hnames & -> & _ & Hext & _).
  apply Hlisting in Hls. rewrite Hnames, Forall_app, Forall_cons in Hls.
  destruct Hls as (_ & Hf & _).
  apply has_media_extension_shape in Hext as (base & e & -> & Hin).
  exists dir, base, e. split; [reflexivity |]. split; [exact Hin |].
  rewrite no_char_app in Hf. apply andb_prop in Hf as [Hbase He].
  simpl in He.
  assert (Spec.no_char "." e = true /\ e <> "") as [Hdot Hne].
  { destruct (no_char_lower e) as [<- _].
    simpl in Hin. split.
    - destruct Hin as [<- | [<- | [<- | [<- | []]]]]; reflexivity.
    - intros ->. simpl in Hin. intuition discriminate. }
  destruct (string_dec base "") as [-> | Hbase_ne].
  - unfold VideoProcessor.is_supported_video.
    change ("" +:+ String "." e) with (String "." e).
    rewrite (hidden_name_suffix e Hdot He Hne dir).
    split; [discriminate | intros [[] _]; reflexivity].
  - destruct (path_with_extension_supported dir base e Hbase_ne Hbase Hne Hdot He)
      as (_ & _ & _ & ->).
    cbn [PyStr.lower]. change (PyStr.lower_char ".") with "."%char.
    simpl in Hin.
    destruct Hin as [<- | [<- | [<- | [<- | []]]]].
    + split; [intros _; split; [exact Hbase_ne | discriminate] | reflexivity].
    + split; [intros _; split; [exact Hbase_ne | discriminate] | reflexivity].
    + split; [intros _; split; [exact Hbase_ne | discriminate] | reflexivity].
    + split; [intros Hin; vm_compute in Hin; discriminate
             | intros [_ Habs]; now destruct Habs].
Qed.

Lemma download_then_supported_witness :
  exists p,
    fst (App.download_youtube_video (Samples.downloader ["video.m4a"])
           "https://youtu.be/abc" ∅) = Ret (Some p, "") /\
    VideoProcessor.is_supported_video p = false.
Proof.
  exists "/tmp/tmpdl/video.m4a". split; [reflexivity |].
  destruct (download_then_supported (Samples.downloader ["video.m4a"])
              "https://youtu.be/abc" "/tmp/tmpdl/video.m4a" "" ∅
              ({["/tmp/tmpdl"]} ∪ ∅))
    as (dir & base & e & _ & _ & _).
  - intros dir names fs1 fs2 [= <- _]. repeat constructor.
  - reflexivity.
  - reflexivity.
Defined.

(** ** The Run Summary handler *)

Lemma get_client_state (E : Summarizer.Env) (st : Summarizer.State) :
  snd (Summarizer._get_client E st) = st.
Proof.
  unfold Summarizer._get_client, raise, ret.
  repeat case_match; reflexivity.
Qed.

Lemma get_client_returns (E : Summarizer.Env) (st : Summarizer.State)
  (client : Summarizer.Client) :
  fst (Summarizer._get_client E st) = Ret client ->
  exists key,
    Summarizer.OpenAI_imported E = true /\
    Summarizer.environ E !! "OPENAI_API_KEY" = Some key /\
    key <> "".
Proof.
  unfold Summarizer._get_client, raise, ret.
  destruct (Summarizer.OpenAI_imported E); [| discriminate]. cbn [negb].
  destruct (Summarizer.environ E !! "OPENAI_API_KEY") as [key |]; [| discriminate].
  destruct (String.eqb_spec key ""); [discriminate |].
  intros _. now exists key.
Qed.

Lemma summarize_transcription_client
  (E : Summarizer.Env) (transcription model : string)
  (segments : list Summarizer.Segment) (st : Summarizer.State)
  (r : gmap string value) :
  fst (Summarizer.summarize_transcription E transcription segments model st) = Ret r ->
  exists key,
    Summarizer.OpenAI_imported E = true /\
    Summarizer.environ E !! "OPENAI_API_KEY" = Some key /\
    key <> "".
Proof.
  unfold Summarizer.summarize_transcription. unfold bind at 1.
  destruct (Summarizer._get_client E st) as [[client | e] st'] eqn:Hc;
    [| discriminate].
  intros _. apply (get_client_returns E st client). now rewrite Hc.
Qed.

Lemma summarize_transcription_client_failure
  (E : Summarizer.Env) (transcription model : string)
  (segments : list Summarizer.Segment) (st : Summarizer.State) (e : exn) :
  fst (Summarizer._get_client E st) = Raise e ->
  Summarizer.summarize_transcription E transcription segments model st
  = (Raise e, st).
Proof.
  intros He. unfold Summarizer.summarize_transcription. unfold bind at 1.
  pose proof (get_client_state E st) as Hst.
  destruct (Summarizer._get_client E st) as [[client | e'] st'];
    simpl in He, Hst; simplify_eq. reflexivity.
Qed.

Lemma capture_loop_sublist (E : VideoProcessor.Env) (video_path output_dir : string)
  (timestamps : list float) :
  forall (i : nat) (results out : list (float * string)) (fs fs' : gset string),
    VideoProcessor.capture_loop E video_path output_dir i timestamps results fs
    = (Ret out, fs') ->
    exists more, out = results ++ more /\ sublist (List.map fst more) timestamps.
Proof.
  induction timestamps as [|ts rest IH]; intros i results out fs fs' Hrun.
  - cbn in Hrun. unfold ret in Hrun. simplify_eq. exists [].
    split; [now rewrite List.app_nil_r | constructor].
  - cbn [VideoProcessor.capture_loop] in Hrun. unfold bind at 1 in Hrun.
    destruct (VideoProcessor.capture_frame_at_timestamp E video_path ts fs)
      as [[[f |] | e] fs1]; [| | discriminate].
    + unfold bind at 1, lift in Hrun.
      destruct (VideoProcessor.Image_fromarray E f) as [img | e]; [| discriminate].
      unfold bind at 1 in Hrun.
      destruct (int_float ts) as [seconds | e]; [| discriminate].
      unfold bind at 1 in Hrun.
      destruct (VideoProcessor.save_png E img _ fs1) as [[[] | e] fs2];
        [| discriminate].
      destruct (IH _ _ _ _ _ Hrun) as (more & -> & Hsub).
      exists ((ts, VideoProcessor.os_path_join output_dir
                     (VideoProcessor.frame_name i seconds)) :: more).
      split; [now rewrite <- List.app_assoc |].
      cbn [List.map fst]. now constructor.
    + destruct (IH _ _ _ _ _ Hrun) as (more & -> & Hsub).
      exists more. split; [reflexivity | now constructor].
Qed.

Lemma capture_key_frames_sublist (E : VideoProcessor.Env) (video_path : string)
  (timestamps : list float) (output_dir : option string)
  (out : list (float * string)) (fs fs' : gset string) :
  VideoProcessor.capture_key_frames E video_path timestamps output_dir fs
  = (Ret out, fs') ->
  sublist (List.map fst out) timestamps.
Proof.
  unfold VideoProcessor.capture_key_frames. unfold bind at 1.
  destruct (match output_dir with Some d => ret d | None => VideoProcessor.mkdtemp E end fs)
    as [[d | e] fs1]; [| discriminate].
  unfold bind at 1.
  destruct (VideoProcessor.makedirs E d fs1) as [[[] | e] fs2]; [| discriminate].
  intros Hrun. destruct (capture_loop_sublist _ _ _ _ _ _ _ _ _ Hrun) as (more & -> & Hsub).
  exact Hsub.
Qed.

Lemma collect_timestamps_length (S : App.Services) (highlights : list value) :
  forall (acc timestamps : list float),
    App.collect_timestamps S highlights acc = Ret timestamps ->
    (length timestamps <= length acc + length highlights)%nat.
Proof.
  induction highlights as [|h rest IH]; intros acc timestamps Hrun.
  - cbn in Hrun. simplify_eq. lia.
  - cbn [App.collect_timestamps] in Hrun.
    destruct (App.get_timestamp h) as [t | e]; [| discriminate].
    destruct (App.py_float S t) as [q | e].
    + apply IH in Hrun. rewrite List.length_app in Hrun. cbn in *. lia.
    + destruct e; try discriminate; apply IH in Hrun; cbn; lia.
Qed.

Lemma collect_timestamps_not_an_object (S : App.Services) (h : value)
  (rest : list value) (acc : list float) :
  (forall d, h <> VDict d) ->
  App.collect_timestamps S (h :: rest) acc
  = Raise (AttributeError
      ("'" +:+ Summarizer.type_name h +:+ "' object has no attribute 'get'")).
Proof.
  intros Hh. cbn [App.collect_timestamps].
  destruct h; try reflexivity. now destruct (Hh d).
Qed.

Section HandlerFacts.

Variable S : App.Services.
Variables video_path model_size openai_model : string.
Variable capture_visual : bool.
Variable info : gmap string Q.

Lemma visual_highlights_frames (summary_data : gmap string value)
  (w w' : App.World) (frames : list (float * string)) :
  App.visual_highlights S video_path capture_visual summary_data w
  = (Ret frames, w') ->
  (length frames <= 6)%nat /\
  (capture_visual = false -> frames = []) /\
  (forall highlights,
     summary_data !! "timestamped_highlights" = Some (VList highlights) ->
     (length frames <= length highlights)%nat) /\
  App.openai w' = App.openai w.
Proof.
  unfold App.visual_highlights.
  destruct capture_visual; cbn [andb];
    [| unfold ret; intros; simplify_eq; repeat split; cbn; intros; lia || auto].
  destruct (truthy _) eqn:Htruthy;
    [| unfold ret; intros; simplify_eq; repeat split; cbn; intros;
       lia || discriminate || auto].
  unfold bind at 1, lift.
  destruct (App.highlight_timestamps S _) as [timestamps | e] eqn:Hts;
    [| discriminate].
  assert (forall frames : list (float * string),
            sublist (List.map fst frames) (List.firstn 6 timestamps) ->
            (length frames <= 6)%nat /\
            (forall highlights,
               summary_data !! "timestamped_highlights" = Some (VList highlights) ->
               (length frames <= length highlights)%nat)) as Hbound.
  { intros fr Hsub. apply sublist_length in Hsub.
    rewrite List.length_map, List.length_firstn in Hsub. split; [lia |].
    intros highlights Hsd. rewrite Hsd in Hts. cbn in Hts.
    apply collect_timestamps_length in Hts. cbn in Hts. lia. }
  destruct timestamps as [|q timestamps].
  - unfold ret. intros; simplify_eq. repeat split; cbn; intros; lia || discriminate || auto.
  - unfold App.on_files.
    destruct (VideoProcessor.capture_key_frames _ _ _ _ _) as [r fs'] eqn:Hcap.
    cbn [fst snd]. intros Hrun. simplify_eq.
    apply capture_key_frames_sublist in Hcap. apply Hbound in Hcap as [H6 Hhs].
    repeat split; [exact H6 | discriminate | exact Hhs].
Qed.

Lemma run_summary_try_cases (w : App.World) :
  App.run_summary_try S video_path model_size openai_model capture_visual info w =
  match VideoProcessor.extract_audio (App.video S) video_path "mp3" (App.files w) with
  | (Raise e, fs1) => (Raise e, {| App.files := fs1; App.openai := App.openai w |})
  | (Ret audio_path, fs1) =>
      match fst (Transcription.transcribe_audio (App.whisper S) audio_path
                   model_size None fs1) with
      | Raise e => (Raise e, {| App.files := fs1; App.openai := App.openai w |})
      | Ret (full_text, segments) =>
          let fs2 := fs1 ∖ {[audio_path]} in
          match Summarizer.summarize_transcription (App.llm S) full_text segments
                  openai_model (App.openai w) with
          | (Raise e, st1) => (Raise e, {| App.files := fs2; App.openai := st1 |})
          | (Ret summary_data, st1) =>
              match Summarizer.refine_transcription (App.llm S) full_text
                      openai_model st1 with
              | (Raise e, st2) =>
                  (Raise e, {| App.files := fs2; App.openai := st2 |})
              | (Ret refined_text, st2) =>
                  match App.visual_highlights S video_path capture_visual
                          summary_data {| App.files := fs2; App.openai := st2 |} with
                  | (Raise e, w') => (Raise e, w')
                  | (Ret frames_data, w') =>
                      (Ret {| App.transcription := full_text;
                              App.refined_transcription := refined_text;
                              App.segments := segments;
                              App.summary_data := summary_data;
                              App.frames := frames_data;
                              App.results_video_path := video_path;
                              App.results_duration :=
                                default 0%Q (info !! "duration") |}, w')
                  end
              end
          end
      end
  end.
Proof.
  unfold App.run_summary_try. unfold bind at 1. unfold App.on_files at 1.
  destruct (VideoProcessor.extract_audio _ _ _ _) as [[audio_path | e] fs1];
    cbn [fst snd App.files App.openai]; [| reflexivity].
  unfold bind at 1. unfold App.on_files at 1. cbn [App.files App.openai].
  rewrite transcribe_audio_cases. cbn [fst snd].
  destruct (Transcription.whisper_imported (App.whisper S)); [| reflexivity].
  cbn [negb].
  destruct (decide (audio_path ∈ fs1)) as [Hin | Hout];
    [rewrite !(bool_decide_eq_true_2 _ Hin)
    | rewrite !(bool_decide_eq_false_2 _ Hout); reflexivity].
  cbn [negb].
  destruct (Transcription.load_model _ _) as [model | e]; [| reflexivity].
  destruct (Transcription.transcribe _ _ _ _) as [result | e]; [| reflexivity].
  cbv zeta.
  unfold bind at 1. unfold App.on_files at 1, VideoProcessor.os_path_exists.
  cbn [fst snd App.files App.openai].
  rewrite (bool_decide_eq_true_2 _ Hin).
  unfold bind at 1. unfold App.on_files at 1, VideoProcessor.os_unlink.
  cbn [fst snd App.files App.openai].
  rewrite (bool_decide_eq_true_2 _ Hin). cbn [fst snd].
  unfold bind at 1. unfold App.on_openai at 1. cbn [fst snd App.files App.openai].
  destruct (Summarizer.summarize_transcription _ _ _ _ _) as [[sd | e] st1];
    cbn [fst snd]; [| reflexivity].
  unfold bind at 1. unfold App.on_openai at 1. cbn [fst snd App.files App.openai].
  destruct (Summarizer.refine_transcription _ _ _ _) as [[refined | e] st2];
    cbn [fst snd]; [| reflexivity].
  unfold bind at 1.
  destruct (App.visual_highlights _ _ _ _ _) as [[frames | e] w']; reflexivity.
Qed.

(** X22. When the transcription of the extracted audio raises, the handler
    shows the text of that exception and stores no results; no request is
    sent to the chat-completion service, and the files are left as
    [extract_audio] left them: the temporary audio file is not removed. *)
Theorem run_summary_transcription_failure
  (w : App.World) (audio_path : string) (fs1 : gset string) (e : exn) :
  VideoProcessor.extract_audio (App.video S) video_path "mp3" (App.files w)
  = (Ret audio_path, fs1) ->
  fst (Transcription.transcribe_audio (App.whisper S) audio_path model_size None fs1)
  = Raise e ->
  App.run_summary S video_path model_size openai_model capture_visual info w
  = (Ret (inr (str e)), {| App.files := fs1; App.openai := App.openai w |}).
Proof.
  intros Hext Htr. unfold App.run_summary, try_except. unfold bind at 1.
  rewrite run_summary_try_cases, Hext, Htr. reflexivity.
Qed.

(** X23. The client of the chat-completion service is only asked for after
    the audio has been extracted and transcribed: when it cannot be made (the
    package or the credential is missing), the handler shows that error and
    stores no results, so the transcript is lost; the temporary audio file
    has been removed and no request has been sent. *)
Theorem run_summary_client_failure
  (w : App.World) (audio_path : string) (fs1 : gset string)
  (transcript : string * list Summarizer.Segment) (e : exn) :
  VideoProcessor.extract_audio (App.video S) video_path "mp3" (App.files w)
  = (Ret audio_path, fs1) ->
  fst (Transcription.transcribe_audio (App.whisper S) audio_path model_size None fs1)
  = Ret transcript ->
  fst (Summarizer._get_client (App.llm S) (App.openai w)) = Raise e ->
  App.run_summary S video_path model_size openai_model capture_visual info w
  = (Ret (inr (str e)),
     {| App.files := fs1 ∖ {[audio_path]}; App.openai := App.openai w |}).
Proof.
  intros Hext Htr Hc. unfold App.run_summary, try_except. unfold bind at 1.
  rewrite run_summary_try_cases, Hext, Htr. destruct transcript as [text segs].
  cbv zeta.
  now rewrite (summarize_transcription_client_failure _ _ _ _ _ e Hc).
Qed.


(** X25. Whatever the model answered, the results the handler stores hold at
    most six frames, no more than there are highlights, and none when visual
    capture is switched off. *)
Theorem run_summary_frames_bound (w : App.World) (results : App.Results) :
  fst (App.run_summary S video_path model_size openai_model capture_visual info w)
  = Ret (inl results) ->
  (length (App.frames results) <= 6)%nat /\
  (capture_visual = false -> App.frames results = []) /\
  (forall highlights,
     App.summary_data results !! "timestamped_highlights" = Some (VList highlights) ->
     (length (App.frames results) <= length highlights)%nat).
Proof.
  unfold App.run_summary, try_except. unfold bind at 1.
  rewrite run_summary_try_cases.
  destruct (VideoProcessor.extract_audio _ _ _ _) as [[audio_path | e] fs1];
    [| discriminate].
  destruct (fst (Transcription.transcribe_audio _ _ _ _ _)) as [[text segs] | e];
    [| discriminate].
  cbv zeta.
  destruct (Summarizer.summarize_transcription _ _ _ _ _) as [[sd | e] st1];
    [| discriminate].
  destruct (Summarizer.refine_transcription _ _ _ _) as [[refined | e] st2];
    [| discriminate].
  destruct (App.visual_highlights _ _ _ _ _) as [[frames | e] w'] eqn:Hvis;
    [| discriminate].
  cbn [fst ret]. intros Hres. simplify_eq. cbn [App.frames App.summary_data].
  destruct (visual_highlights_frames _ _ _ _ Hvis) as (H6 & Hoff & Hhs & _).
  auto.
Qed.

(** X26. The highlights of the answer are not validated: with visual capture
    switched on, a first highlight that is not a JSON object makes the loop
    over the highlights raise [AttributeError], and the handler shows that
    error instead of storing the transcript and the summary it already has. *)
Theorem run_summary_malformed_highlight
  (w : App.World) (audio_path : string) (fs1 : gset string)
  (transcript : string * list Summarizer.Segment)
  (summary_data : gmap string value) (st1 : Summarizer.State)
  (h : value) (rest : list value) :
  VideoProcessor.extract_audio (App.video S) video_path "mp3" (App.files w)
  = (Ret audio_path, fs1) ->
  fst (Transcription.transcribe_audio (App.whisper S) audio_path model_size None fs1)
  = Ret transcript ->
  Summarizer.summarize_transcription (App.llm S) (fst transcript) (snd transcript)
    openai_model (App.openai w) = (Ret summary_data, st1) ->
  capture_visual = true ->
  summary_data !! "timestamped_highlights" = Some (VList (h :: rest)) ->
  (forall d, h <> VDict d) ->
  fst (App.run_summary S video_path model_size openai_model capture_visual info w)
  = Ret (inr ("'" +:+ Summarizer.type_name h +:+ "' object has no attribute 'get'")).
Proof.
  intros Hext Htr Hsum Hcv Hsd Hh.
  destruct transcript as [text segs]. cbn [fst snd] in Hsum.
  destruct (summarize_transcription_client (App.llm S) text openai_model
              segs (App.openai w) summary_data) as (key & Himp & Hkey & Hne);
    [now rewrite Hsum |].
  destruct (refine_transcription_returns (App.llm S) key text openai_model st1
              Himp Hkey Hne) as (refined & st2 & Href & _).
  unfold App.run_summary, try_except. unfold bind at 1.
  rewrite run_summary_try_cases, Hext, Htr. cbv zeta. rewrite Hsum, Href.
  unfold App.visual_highlights. rewrite Hcv, Hsd. cbn [from_option id truthy andb].
  unfold bind at 1, lift. cbn [App.highlight_timestamps].
  rewrite (collect_timestamps_not_an_object S h rest [] Hh). reflexivity.
Qed.

End HandlerFacts.

Lemma run_summary_transcription_failure_witness :
  App.run_summary
    (Samples.crew Samples.no_whisper (Samples.service (Samples.says Samples.doc_prose)))
    "/videos/talk.mp4" "base" "gpt-4o-mini" true ∅ Samples.start
  = (Ret (inr "OpenAI Whisper is required. Install with: pip install openai-whisper"),
     {| App.files := {["/tmp/tmpk3v9.mp3"]} ∪ ({["/tmp/tmpk3v9.mp3"]} ∪ Samples.disk);
        App.openai := Samples.quiet |}).
Proof.
  apply (run_summary_transcription_failure
           (Samples.crew Samples.no_whisper
              (Samples.service (Samples.says Samples.doc_prose)))
           "/videos/talk.mp4" "base" "gpt-4o-mini" true ∅ Samples.start
           "/tmp/tmpk3v9.mp3"
           ({["/tmp/tmpk3v9.mp3"]} ∪ ({["/tmp/tmpk3v9.mp3"]} ∪ Samples.disk))
           (ImportError
              "OpenAI Whisper is required. Install with: pip install openai-whisper"));
    reflexivity.
Defined.

Lemma run_summary_client_failure_witness :
  App.run_summary (Samples.crew Samples.whisper Samples.no_credential)
    "/videos/talk.mp4" "base" "gpt-4o-mini" true ∅ Samples.start
  = (Ret (inr "OPENAI_API_KEY environment variable is not set. Please set it with your OpenAI API key."),
     {| App.files :=
          ({["/tmp/tmpk3v9.mp3"]} ∪ ({["/tmp/tmpk3v9.mp3"]} ∪ Samples.disk))
          ∖ {["/tmp/tmpk3v9.mp3"]};
        App.openai := Samples.quiet |}).
Proof.
  apply (run_summary_client_failure
           (Samples.crew Samples.whisper Samples.no_credential)
           "/videos/talk.mp4" "base" "gpt-4o-mini" true ∅ Samples.start
           "/tmp/tmpk3v9.mp3"
           ({["/tmp/tmpk3v9.mp3"]} ∪ ({["/tmp/tmpk3v9.mp3"]} ∪ Samples.disk))
           ("hello world. goodbye",
            [ {| Summarizer.seg_start := 0; Summarizer.seg_end := 19 # 10;
                 Summarizer.seg_text := "hello world." |};
              {| Summarizer.seg_start := 19 # 10; Summarizer.seg_end := 3;
                 Summarizer.seg_text := "goodbye" |} ])
           (ValueError
              "OPENAI_API_KEY environment variable is not set. Please set it with your OpenAI API key."));
    reflexivity.
Defined.


Lemma run_summary_frames_bound_witness :
  exists results,
    fst (App.run_summary
           (Samples.crew Samples.whisper
              (Samples.analyst (Samples.service (Samples.says ""))
                 Samples.doc_highlights))
           "/videos/talk.mp4" "base" "gpt-4o-mini" true ∅ Samples.start)
    = Ret (inl results) /\
    List.map fst (App.frames results) = [Finite 2; Finite (9 # 2)] /\
    (length (App.frames results) <= 6)%nat.
Proof.
  eexists. split; [vm_compute; reflexivity |]. split; [reflexivity |].
  eapply (run_summary_frames_bound
            (Samples.crew Samples.whisper
               (Samples.analyst (Samples.service (Samples.says ""))
                  Samples.doc_highlights))
            "/videos/talk.mp4" "base" "gpt-4o-mini" true ∅ Samples.start).
  vm_compute. reflexivity.
Defined.

Lemma run_summary_malformed_highlight_witness :
  fst (App.run_summary
         (Samples.crew Samples.whisper
            (Samples.analyst (Samples.service (Samples.says ""))
               Samples.doc_plain_highlights))
         "/videos/talk.mp4" "base" "gpt-4o-mini" true ∅ Samples.start)
  = Ret (inr "'str' object has no attribute 'get'").
Proof.
  eapply (run_summary_malformed_highlight
            (Samples.crew Samples.whisper
               (Samples.analyst (Samples.service (Samples.says ""))
                  Samples.doc_plain_highlights))
            "/videos/talk.mp4" "base" "gpt-4o-mini" true ∅ Samples.start
            "/tmp/tmpk3v9.mp3"
            ({["/tmp/tmpk3v9.mp3"]} ∪ ({["/tmp/tmpk3v9.mp3"]} ∪ Samples.disk))
            ("hello world. goodbye",
             [ {| Summarizer.seg_start := 0; Summarizer.seg_end := 19 # 10;
                  Summarizer.seg_text := "hello world." |};
               {| Summarizer.seg_start := 19 # 10; Summarizer.seg_end := 3;
                  Summarizer.seg_text := "goodbye" |} ])
            _ _ (VStr "0:30 introduction") []);
    [reflexivity | reflexivity | reflexivity | reflexivity | reflexivity
    | discriminate].
Defined.
